(** * Forge canvas widget: a shallow embedding of
      [modules_forge/forge_canvas/canvas.js]

    The widget is a single-threaded, event-driven JavaScript object.  Every
    method and every event listener of the source becomes a function from the
    widget state to the widget state.  JavaScript numbers are kept abstract
    behind the interface [JSNumber] and are instantiated twice:

    - with IEEE-754 binary64 ([float]), which is what a JavaScript engine
      computes, and which evaluates inside Rocq;
    - with the real numbers ([R]), the rounding-free idealisation in which
      the algebraic properties of the transform and of the brushes are
      stated.

    The browser itself (rasterisation, PNG encoding) is a collaborator of the
    widget and enters as the record [Browser].

    The layout of the container, the dragging of the image and the
    clipboard are kept in records of their own beside the widget state.
    The file closes with the progress bar of [javascript/progressbar.js]
    -- time formatting, the life of a progress session, [request] -- and
    with the module variables of the gallery script. *)

From Stdlib Require Import ZArith List String Ascii Bool Lia.
From Stdlib Require Import Reals Lra Psatz.
From Stdlib Require PrimFloat Uint63.
From Stdlib Require QArith Qround DecimalString.
Import ListNotations.

Set Implicit Arguments.

Open Scope string_scope.
Open Scope list_scope.

(* ================================================================= *)
(** ** JavaScript numbers *)

(** The arithmetic the view transform and the widget state need:
    literals, [+ - * /], [Math.min], [Math.max] and the comparisons. *)
Class JSNumber (num : Type) : Type := {
  lit  : Z -> num;
  add  : num -> num -> num;
  sub  : num -> num -> num;
  mul  : num -> num -> num;
  div  : num -> num -> num;
  Math_min : num -> num -> num;
  Math_max : num -> num -> num;
  ltb  : num -> num -> bool;
  leb  : num -> num -> bool
}.

(** A decimal literal such as [0.1] is the quotient of two integer
    literals; with correctly rounded division this is the same binary64
    value as the literal of the source. *)
Definition dec {num} `{JSNumber num} (a b : Z) : num := div (lit a) (lit b).

(** *** Instance: real numbers *)

Definition Rleb (x y : R) : bool := if Rle_dec x y then true else false.
Definition Rltb (x y : R) : bool := if Rlt_dec x y then true else false.

#[export] Instance RNumber : JSNumber R := {|
  lit := IZR;
  add := Rplus;
  sub := Rminus;
  mul := Rmult;
  div := Rdiv;
  Math_min := Rmin;
  Math_max := Rmax;
  ltb := Rltb;
  leb := Rleb
|}.

(** *** Instance: IEEE-754 binary64 *)

Definition float_of_Z (z : Z) : PrimFloat.float :=
  if (z <? 0)%Z then PrimFloat.opp (PrimFloat.of_uint63 (Uint63.of_Z (- z)))
  else PrimFloat.of_uint63 (Uint63.of_Z z).

(** [Math.min]: NaN if either argument is NaN, and -0 is below +0. *)
Definition float_min (a b : PrimFloat.float) : PrimFloat.float :=
  if PrimFloat.is_nan a || PrimFloat.is_nan b then PrimFloat.nan
  else if PrimFloat.ltb a b then a
  else if PrimFloat.ltb b a then b
  else if PrimFloat.get_sign a then a else b.

(** [Math.max]: NaN if either argument is NaN, and +0 is above -0. *)
Definition float_max (a b : PrimFloat.float) : PrimFloat.float :=
  if PrimFloat.is_nan a || PrimFloat.is_nan b then PrimFloat.nan
  else if PrimFloat.ltb a b then b
  else if PrimFloat.ltb b a then a
  else if PrimFloat.get_sign a then b else a.

#[export] Instance FloatNumber : JSNumber PrimFloat.float := {|
  lit := float_of_Z;
  add := PrimFloat.add;
  sub := PrimFloat.sub;
  mul := PrimFloat.mul;
  div := PrimFloat.div;
  Math_min := float_min;
  Math_max := float_max;
  ltb := PrimFloat.ltb;
  leb := PrimFloat.leb
|}.

(** [Math.round], [Math.ceil], [Math.sqrt] and [Math.pow] over the reals.
    The results of [Math.round] and [Math.ceil] are integers and are used
    as loop bounds, so they are returned in [Z]. *)
Definition Math_floor (x : R) : Z := Int_part x.
Definition Math_round (x : R) : Z := Math_floor (x + 1 / 2)%R.
Definition Math_ceil (x : R) : Z := (- Math_floor (- x)%R)%Z.
Definition Math_sqrt (x : R) : R := R_sqrt.sqrt x.
(** [Math.pow] for a positive base; the only call of the source has a base
    of at least [0.05]. *)
Definition Math_pow (x y : R) : R := Rpower x y.


(* ================================================================= *)
(** ** Raster surfaces *)

Definition RGBA : Type := (Z * Z * Z * Z)%type.
Definition transparent : RGBA := (0, 0, 0, 0)%Z.

(** An [ImageData]: the pixel rows of a surface together with its size.
    [getImageData(0, 0, w, h)] of a canvas copies its whole bitmap, so a
    snapshot is a value of this type and never aliases the canvas. *)
Record ImageData : Type := {
  width  : Z;
  height : Z;
  data   : list (list RGBA)
}.

(** A surface right after its [width]/[height] were assigned: transparent
    black everywhere. *)
Definition blank (w h : Z) : ImageData :=
  {| width := w; height := h;
     data := repeat (repeat transparent (Z.to_nat w)) (Z.to_nat h) |}.

(** [clearRect(0, 0, width, height)]. *)
Definition clearRect (d : ImageData) : ImageData :=
  {| width := width d; height := height d;
     data := map (map (fun _ => transparent)) (data d) |}.

Fixpoint blit_row (src dst : list RGBA) : list RGBA :=
  match src, dst with
  | p :: src', _ :: dst' => p :: blit_row src' dst'
  | _, _ => dst
  end.

Fixpoint blit (src dst : list (list RGBA)) : list (list RGBA) :=
  match src, dst with
  | r :: src', d :: dst' => blit_row r d :: blit src' dst'
  | _, _ => dst
  end.

(** [putImageData(src, 0, 0)]: the pixels of [src] replace those of the
    destination where the two overlap; the destination keeps its size. *)
Definition putImageData (src dst : ImageData) : ImageData :=
  {| width := width dst; height := height dst;
     data := blit (data src) (data dst) |}.

(** The row lengths of a surface. *)
Definition shape (d : ImageData) : list nat := map (@List.length RGBA) (data d).

Definition same_size (a b : ImageData) : Prop :=
  width a = width b /\ height a = height b /\ shape a = shape b.

(** *** The 2D drawing context *)

Inductive CompositeOp : Type := source_over | destination_out.
Inductive Style : Type :=
  | Color (css : string)
  | contrastPattern.
Inductive LineShape : Type := shape_default | shape_round.

Record Context2D (num : Type) : Type := {
  lineWidth : num;
  globalAlpha : num;
  globalCompositeOperation : CompositeOp;
  strokeStyle : Style;
  fillStyle : Style;
  lineCap : LineShape;
  lineJoin : LineShape
}.

Arguments Build_Context2D {num}.

(** The state of a context after its canvas was resized. *)
Definition defaultContext {num} `{JSNumber num} : Context2D num :=
  {| lineWidth := lit 1; globalAlpha := lit 1;
     globalCompositeOperation := source_over;
     strokeStyle := Color "#000000"; fillStyle := Color "#000000";
     lineCap := shape_default; lineJoin := shape_default |}.

Record Canvas (num : Type) : Type := {
  bitmap : ImageData;
  context : Context2D num
}.

Arguments Build_Canvas {num}.

(** The outcome of decoding a data URI: its pixel size and pixels. *)
Record Decoded : Type := {
  naturalWidth : Z;
  naturalHeight : Z;
  decodedPixels : list (list RGBA)
}.

(** The pixels of a decoded image as a surface. *)
Definition surfaceOf (image : Decoded) : ImageData :=
  {| width := naturalWidth image; height := naturalHeight image;
     data := decodedPixels image |}.

(** What the widget asks of the browser and cannot compute itself.
    [stroke] is [context.stroke()] of the current path (a polyline through
    the given points) under the given context state; [fill_arc] is
    [beginPath(); arc(x, y, r, 0, 2π); fill()]; the two encoders are
    [canvas.toDataURL('image/png')] of the drawing canvas and of the
    temporary canvas onto which the image element was drawn;
    [context_drawImage] is [context.drawImage(img, 0, 0)], which
    composites the decoded image onto the surface under the
    [globalCompositeOperation] and the [globalAlpha] that the context has
    at that moment. *)
Record Browser (num : Type) : Type := {
  stroke : Context2D num -> list (num * num) -> ImageData -> ImageData;
  fill_arc : Context2D num -> num -> num -> num -> ImageData -> ImageData;
  canvas_toDataURL : ImageData -> string;
  image_toDataURL : string -> num -> num -> string;
  context_drawImage : Context2D num -> Decoded -> ImageData -> ImageData
}.

(* ================================================================= *)
(** ** [GradioTextAreaBind] *)

(** [written] is ghost state: the values this channel assigned to
    [target.value], oldest first. *)
Record GradioTextAreaBind : Type := {
  target_value : string;
  syncLock : bool;
  previousValue : string;
  written : list string
}.

(** [new GradioTextAreaBind(elementId, className)]. *)
Definition newGradioTextAreaBind (initial : string) : GradioTextAreaBind :=
  {| target_value := initial; syncLock := false; previousValue := "";
     written := [] |}.

Definition Handler : Type := string -> GradioTextAreaBind -> GradioTextAreaBind.

(** [listen(callback)]: the body is a comment; the argument is dropped. *)
Definition listen {C : Type} (callback : C) (b : GradioTextAreaBind)
  : GradioTextAreaBind := b.

Inductive Completion : Type :=
  | Normal
  | ThrowReferenceError (identifier : string).

Record ObserverRun : Type := {
  after : GradioTextAreaBind;
  attempted : option string;
  completion : Completion
}.

(** The [MutationObserver] callback of the constructor.  It calls the free
    identifier [callback]; the constructor's parameters are [elementId] and
    [className], so the identifier is resolved in the enclosing scopes.
    [callback_binding] is what that resolution finds: [None] when nothing
    named [callback] is in scope (canvas.js declares nothing of that
    name), in which case the call throws and the statement that releases
    [syncLock] is not reached. *)
Definition observerCallback (callback_binding : option Handler)
    (b : GradioTextAreaBind) : ObserverRun :=
  if String.eqb (target_value b) (previousValue b)
  then {| after := b; attempted := None; completion := Normal |}
  else
    let b1 := {| target_value := target_value b; syncLock := syncLock b;
                 previousValue := target_value b; written := written b |} in
    if syncLock b1
    then {| after := b1; attempted := None; completion := Normal |}
    else
      let b2 := {| target_value := target_value b1; syncLock := true;
                   previousValue := previousValue b1;
                   written := written b1 |} in
      match callback_binding with
      | None =>
          {| after := b2; attempted := Some (target_value b2);
             completion := ThrowReferenceError "callback" |}
      | Some callback =>
          let b3 := callback (target_value b2) b2 in
          {| after := {| target_value := target_value b3; syncLock := false;
                         previousValue := previousValue b3;
                         written := written b3 |};
             attempted := Some (target_value b2);
             completion := Normal |}
      end.

(** A call of [setValue] together with the calls of [setValue] on the
    same channel that listeners of the dispatched [input] event make while
    the dispatch is running. *)
#[warnings="-register-all"]
Inductive Publish : Type :=
  | publish (newValue : string) (during_dispatch : list Publish).

Fixpoint setValue (p : Publish) (b : GradioTextAreaBind)
  : GradioTextAreaBind :=
  match p with
  | publish newValue during_dispatch =>
      if syncLock b then b
      else
        let b1 := {| target_value := newValue; syncLock := true;
                     previousValue := newValue;
                     written := written b ++ [newValue] |} in
        let b2 := fold_left (fun acc q => setValue q acc) during_dispatch b1 in
        {| target_value := target_value b2; syncLock := false;
           previousValue := previousValue b2; written := written b2 |}
  end.

(** The host page assigns the field.  The assignment alone starts no
    observer: the observer is registered for character data, and an
    assignment to [value] is no mutation of it. *)
Definition externalWrite (v : string) (b : GradioTextAreaBind)
  : GradioTextAreaBind :=
  {| target_value := v; syncLock := syncLock b;
     previousValue := previousValue b; written := written b |}.

(* ================================================================= *)
(** ** The widget state *)

Record GradioConfig : Type := { version : string }.

(** The constructor arguments that never change. *)
Record Options : Type := {
  gradioConfig : option GradioConfig;
  noUpload : bool;
  noScribbles : bool;
  mask : bool
}.

(** [imgX], [imgY], [imgScale]: the position of the top-left corner of the
    scaled image inside the image container, and the zoom. *)
Record Transform (num : Type) : Type := {
  imgX : num;
  imgY : num;
  imgScale : num
}.

Arguments Build_Transform {num}.

Record Brush (num : Type) : Type := {
  scribbleColor : string;
  scribbleWidth : num;
  scribbleAlpha : num;
  scribbleSoftness : num
}.

Arguments Build_Brush {num}.

Inductive Tool : Type := brush_tool | eraser_tool.

(** The per-gesture fields. *)
Record Gesture (num : Type) : Type := {
  drawing : bool;
  tempDrawPoints : list (num * num);
  tempDrawBackground : option ImageData;
  lastErasePoint : option (num * num);
  eraseChanged : bool
}.

Arguments Build_Gesture {num}.

(** A style box ([left], [top], [width], [height] in CSS pixels). *)
Record Box (num : Type) : Type := {
  box_left : num;
  box_top : num;
  box_width : num;
  box_height : num
}.

Arguments Build_Box {num}.

(** The part of the document the widget reads and writes.  Client
    coordinates are measured from the top-left corner of the image
    container, so the bounding rectangle of the container starts at (0, 0)
    and that of the absolutely positioned drawing canvas is its style
    box. *)
Record Dom (num : Type) : Type := {
  clientWidth : Z;
  clientHeight : Z;
  drawingCanvas : Canvas num;
  canvasStyle : Box num;
  imageSrc : string;
  imageStyle : Box num;
  imageDisplay : bool;
  uploadHintDisplay : bool
}.

Arguments Build_Dom {num}.

(** What an [input] event of a toolbar slider hands over: the string
    [this.value], the number it converts to in [*], [/] and the
    comparisons, and [slider_plus x], the number that the concatenation
    [this.value + x] converts to.  The conversions between strings and
    numbers are the engine's. *)
Record SliderText (num : Type) : Type := {
  slider_value : string;
  slider_number : num;
  slider_plus : num -> num
}.

Arguments Build_SliderText {num}.

(** [scribbleWidthText] is [Some text] while [this.scribbleWidth] holds the
    string that the width slider stored; [scribbleWidth (brush s)] is then
    the number it converts to.  The other fields of the brush are only
    read where a string is converted. *)
Record ForgeCanvas (num : Type) : Type := {
  options : Options;
  img : option string;
  originalWidth : num;
  originalHeight : num;
  view : Transform num;
  brush : Brush num;
  currentTool : Tool;
  gesture : Gesture num;
  history : list ImageData;
  historyIndex : Z;
  backgroundGradioBind : GradioTextAreaBind;
  foregroundGradioBind : GradioTextAreaBind;
  dom : Dom num;
  scribbleWidthText : option (SliderText num)
}.

Arguments Build_ForgeCanvas {num}.

Section Updates.
Context {num : Type}.
Implicit Type s : ForgeCanvas num.

Definition set_img (v : option string) s : ForgeCanvas num :=
  Build_ForgeCanvas (options s) v (originalWidth s) (originalHeight s)
    (view s) (brush s) (currentTool s) (gesture s) (history s)
    (historyIndex s) (backgroundGradioBind s) (foregroundGradioBind s)
    (dom s)
    (scribbleWidthText s).

Definition set_original (w h : num) s : ForgeCanvas num :=
  Build_ForgeCanvas (options s) (img s) w h
    (view s) (brush s) (currentTool s) (gesture s) (history s)
    (historyIndex s) (backgroundGradioBind s) (foregroundGradioBind s)
    (dom s)
    (scribbleWidthText s).

Definition set_view (v : Transform num) s : ForgeCanvas num :=
  Build_ForgeCanvas (options s) (img s) (originalWidth s) (originalHeight s)
    v (brush s) (currentTool s) (gesture s) (history s)
    (historyIndex s) (backgroundGradioBind s) (foregroundGradioBind s)
    (dom s)
    (scribbleWidthText s).

Definition set_brush (v : Brush num) s : ForgeCanvas num :=
  Build_ForgeCanvas (options s) (img s) (originalWidth s) (originalHeight s)
    (view s) v (currentTool s) (gesture s) (history s)
    (historyIndex s) (backgroundGradioBind s) (foregroundGradioBind s)
    (dom s)
    (scribbleWidthText s).

Definition set_currentTool (v : Tool) s : ForgeCanvas num :=
  Build_ForgeCanvas (options s) (img s) (originalWidth s) (originalHeight s)
    (view s) (brush s) v (gesture s) (history s)
    (historyIndex s) (backgroundGradioBind s) (foregroundGradioBind s)
    (dom s)
    (scribbleWidthText s).

Definition set_gesture (v : Gesture num) s : ForgeCanvas num :=
  Build_ForgeCanvas (options s) (img s) (originalWidth s) (originalHeight s)
    (view s) (brush s) (currentTool s) v (history s)
    (historyIndex s) (backgroundGradioBind s) (foregroundGradioBind s)
    (dom s)
    (scribbleWidthText s).

Definition set_history (h : list ImageData) (i : Z) s : ForgeCanvas num :=
  Build_ForgeCanvas (options s) (img s) (originalWidth s) (originalHeight s)
    (view s) (brush s) (currentTool s) (gesture s) h
    i (backgroundGradioBind s) (foregroundGradioBind s)
    (dom s)
    (scribbleWidthText s).

Definition set_backgroundGradioBind (v : GradioTextAreaBind) s
  : ForgeCanvas num :=
  Build_ForgeCanvas (options s) (img s) (originalWidth s) (originalHeight s)
    (view s) (brush s) (currentTool s) (gesture s) (history s)
    (historyIndex s) v (foregroundGradioBind s)
    (dom s)
    (scribbleWidthText s).

Definition set_foregroundGradioBind (v : GradioTextAreaBind) s
  : ForgeCanvas num :=
  Build_ForgeCanvas (options s) (img s) (originalWidth s) (originalHeight s)
    (view s) (brush s) (currentTool s) (gesture s) (history s)
    (historyIndex s) (backgroundGradioBind s) v
    (dom s)
    (scribbleWidthText s).

Definition set_dom (v : Dom num) s : ForgeCanvas num :=
  Build_ForgeCanvas (options s) (img s) (originalWidth s) (originalHeight s)
    (view s) (brush s) (currentTool s) (gesture s) (history s)
    (historyIndex s) (backgroundGradioBind s) (foregroundGradioBind s)
    v
    (scribbleWidthText s).

Definition set_scribbleWidthText (v : option (SliderText num)) s
  : ForgeCanvas num :=
  Build_ForgeCanvas (options s) (img s) (originalWidth s) (originalHeight s)
    (view s) (brush s) (currentTool s) (gesture s) (history s)
    (historyIndex s) (backgroundGradioBind s) (foregroundGradioBind s)
    (dom s) v.

(** Updates of the document. *)
Definition set_drawingCanvas (c : Canvas num) (d : Dom num) : Dom num :=
  Build_Dom (clientWidth d) (clientHeight d) c (canvasStyle d)
    (imageSrc d) (imageStyle d) (imageDisplay d) (uploadHintDisplay d).

Definition set_client (w h : Z) (d : Dom num) : Dom num :=
  Build_Dom w h (drawingCanvas d) (canvasStyle d)
    (imageSrc d) (imageStyle d) (imageDisplay d) (uploadHintDisplay d).

Definition set_uploadHintDisplay (v : bool) (d : Dom num) : Dom num :=
  Build_Dom (clientWidth d) (clientHeight d) (drawingCanvas d)
    (canvasStyle d) (imageSrc d) (imageStyle d) (imageDisplay d) v.

Definition with_canvas (f : Canvas num -> Canvas num) s : ForgeCanvas num :=
  set_dom (set_drawingCanvas (f (drawingCanvas (dom s))) (dom s)) s.

Definition with_bitmap (f : ImageData -> ImageData) s : ForgeCanvas num :=
  with_canvas (fun c => Build_Canvas (f (bitmap c)) (context c)) s.

Definition with_context (f : Context2D num -> Context2D num) s
  : ForgeCanvas num :=
  with_canvas (fun c => Build_Canvas (bitmap c) (f (context c))) s.

(** The pixels of the overlay. *)
Definition overlay s : ImageData := bitmap (drawingCanvas (dom s)).

Definition set_lineWidth (v : num) (c : Context2D num) : Context2D num :=
  Build_Context2D v (globalAlpha c) (globalCompositeOperation c)
    (strokeStyle c) (fillStyle c) (lineCap c) (lineJoin c).

Definition set_globalAlpha (v : num) (c : Context2D num) : Context2D num :=
  Build_Context2D (lineWidth c) v (globalCompositeOperation c)
    (strokeStyle c) (fillStyle c) (lineCap c) (lineJoin c).

Definition set_globalCompositeOperation (v : CompositeOp)
    (c : Context2D num) : Context2D num :=
  Build_Context2D (lineWidth c) (globalAlpha c) v
    (strokeStyle c) (fillStyle c) (lineCap c) (lineJoin c).

Definition set_strokeStyle (v : Style) (c : Context2D num) : Context2D num :=
  Build_Context2D (lineWidth c) (globalAlpha c) (globalCompositeOperation c)
    v (fillStyle c) (lineCap c) (lineJoin c).

Definition set_fillStyle (v : Style) (c : Context2D num) : Context2D num :=
  Build_Context2D (lineWidth c) (globalAlpha c) (globalCompositeOperation c)
    (strokeStyle c) v (lineCap c) (lineJoin c).

Definition set_round (c : Context2D num) : Context2D num :=
  Build_Context2D (lineWidth c) (globalAlpha c) (globalCompositeOperation c)
    (strokeStyle c) (fillStyle c) shape_round shape_round.
End Updates.

(* ================================================================= *)
(** ** The methods of [ForgeCanvas] that need only arithmetic *)

(** [if (v)] for a value that is [null] or a string. *)
Definition truthy (v : option string) : bool :=
  match v with
  | Some x => negb (String.eqb x "")
  | None => false
  end.

(** [a.slice(0, e)] of an array, for any integer [e]. *)
Definition slice0 {A} (a : list A) (e : Z) : list A :=
  let len := Z.of_nat (List.length a) in
  let k := if (e <? 0)%Z then Z.max (len + e) 0 else Z.min e len in
  firstn (Z.to_nat k) a.

(** [a[i]] of an array: [None] stands for [undefined]. *)
Definition index {A} (a : list A) (i : Z) : option A :=
  if (i <? 0)%Z then None else nth_error a (Z.to_nat i).

Record WheelEvent (num : Type) : Type := {
  wheel_ctrlKey : bool;
  deltaY : num;
  wheel_clientX : num;
  wheel_clientY : num
}.

Section Widget.
Context {num : Type} `{JSNumber num}.
Variable browser : Browser num.
Implicit Type s : ForgeCanvas num.

Definition adjustInitialPositionAndScale s : ForgeCanvas num :=
  let containerWidth := sub (lit (clientWidth (dom s))) (lit 20) in
  let containerHeight := sub (lit (clientHeight (dom s))) (lit 20) in
  let scaleX := div containerWidth (originalWidth s) in
  let scaleY := div containerHeight (originalHeight s) in
  let imgScale' := Math_min scaleX scaleY in
  let scaledWidth := mul (originalWidth s) imgScale' in
  let scaledHeight := mul (originalHeight s) imgScale' in
  set_view
    {| imgX := div (sub (lit (clientWidth (dom s))) scaledWidth) (lit 2);
       imgY := div (sub (lit (clientHeight (dom s))) scaledHeight) (lit 2);
       imgScale := imgScale' |} s.

Definition drawImage s : ForgeCanvas num :=
  let d := dom s in
  match img s with
  | Some src =>
      if negb (String.eqb src "") then
        let scaledWidth := mul (originalWidth s) (imgScale (view s)) in
        let scaledHeight := mul (originalHeight s) (imgScale (view s)) in
        let box := {| box_left := imgX (view s); box_top := imgY (view s);
                      box_width := scaledWidth;
                      box_height := scaledHeight |} in
        set_dom (Build_Dom (clientWidth d) (clientHeight d)
                   (drawingCanvas d) box src box true
                   (uploadHintDisplay d)) s
      else
        set_dom (Build_Dom (clientWidth d) (clientHeight d)
                   (drawingCanvas d) (canvasStyle d) "" (imageStyle d)
                   false (uploadHintDisplay d)) s
  | None =>
      set_dom (Build_Dom (clientWidth d) (clientHeight d)
                 (drawingCanvas d) (canvasStyle d) "" (imageStyle d)
                 false (uploadHintDisplay d)) s
  end.

Definition onImageUpload s : ForgeCanvas num :=
  if negb (truthy (img s)) then
    set_backgroundGradioBind
      (setValue (publish "" []) (backgroundGradioBind s)) s
  else
    let base64Data :=
      image_toDataURL browser (imageSrc (dom s))
        (originalWidth s) (originalHeight s) in
    set_backgroundGradioBind
      (setValue (publish base64Data []) (backgroundGradioBind s)) s.

Definition onDrawingCanvasUpload s : ForgeCanvas num :=
  if negb (truthy (img s)) then
    set_foregroundGradioBind
      (setValue (publish "" []) (foregroundGradioBind s)) s
  else
    let base64Data := canvas_toDataURL browser (overlay s) in
    set_foregroundGradioBind
      (setValue (publish base64Data []) (foregroundGradioBind s)) s.

Definition saveState s : ForgeCanvas num :=
  let imageData := overlay s in
  let kept := slice0 (history s) (historyIndex s + 1) in
  onDrawingCanvasUpload
    (set_history (kept ++ [imageData]) (historyIndex s + 1) s).

(** [putImageData(undefined, 0, 0)] throws; the canvas and the binding
    are then left as they were. *)
Definition restoreState s : ForgeCanvas num :=
  match index (history s) (historyIndex s) with
  | Some imageData =>
      onDrawingCanvasUpload (with_bitmap (putImageData imageData) s)
  | None => s
  end.

Definition undo s : ForgeCanvas num :=
  if (0 <? historyIndex s)%Z
  then restoreState (set_history (history s) (historyIndex s - 1) s)
  else s.

Definition redo s : ForgeCanvas num :=
  if (historyIndex s <? Z.of_nat (List.length (history s)) - 1)%Z
  then restoreState (set_history (history s) (historyIndex s + 1) s)
  else s.

(** Assigning [width] and [height] of the drawing canvas: the bitmap is
    cleared and the context returns to its defaults. *)
Definition resizeCanvas (w h : Z) s : ForgeCanvas num :=
  with_canvas (fun _ => Build_Canvas (blank w h) defaultContext) s.

(** The [img.onload] closure of [uploadBase64]. *)
Definition uploadBase64_onload (base64Data : string) (image : Decoded) s
  : ForgeCanvas num :=
  let s1 := set_img (Some base64Data) s in
  let s2 := set_original (lit (naturalWidth image))
              (lit (naturalHeight image)) s1 in
  let s3 :=
    if negb (width (overlay s2) =? naturalWidth image)%Z
       || negb (height (overlay s2) =? naturalHeight image)%Z
    then resizeCanvas (naturalWidth image) (naturalHeight image) s2
    else s2 in
  let s4 := adjustInitialPositionAndScale s3 in
  let s5 := drawImage s4 in
  let s6 := onImageUpload s5 in
  let s7 := saveState s6 in
  set_dom (set_uploadHintDisplay false (dom s7)) s7.

(** [uploadBase64(base64Data)].  Decoding is the browser's: [loaded] is
    the image it hands to [onload], or [None] when decoding fails and
    [onload] never runs. *)
Definition uploadBase64 (base64Data : string) (loaded : option Decoded) s
  : ForgeCanvas num :=
  if match gradioConfig (options s) with
     | Some cfg => negb (String.prefix "4" (version cfg))
     | None => false
     end
  then s
  else if match gradioConfig (options s) with
          | Some _ => false
          | None => true
          end
  then s
  else if negb (String.eqb base64Data "") then
    match loaded with
    | Some image => uploadBase64_onload base64Data image s
    | None => s
    end
  else
    let s1 := set_img None s in
    let s2 := resizeCanvas 1 1 s1 in
    let s3 := adjustInitialPositionAndScale s2 in
    let s4 := drawImage s3 in
    let s5 := onImageUpload s4 in
    saveState s5.

(** [context.clearRect(0, 0, w, h)] followed by
    [context.drawImage(img, 0, 0)]: the context is the one of the drawing
    canvas, in the state in which the last stroke or dab left it. *)
Definition drawDecoded (image : Decoded) (cv : Canvas num) : Canvas num :=
  Build_Canvas
    (context_drawImage browser (context cv) image (clearRect (bitmap cv)))
    (context cv).

Definition uploadBase64DrawingCanvas (base64Data : string)
    (loaded : option Decoded) s : ForgeCanvas num :=
  if negb (String.eqb base64Data "") then
    match loaded with
    | Some image => saveState (with_canvas (drawDecoded image) s)
    | None => s
    end
  else saveState (with_bitmap clearRect s).

Definition resetImage s : ForgeCanvas num :=
  let s1 := with_bitmap clearRect s in
  let s2 := adjustInitialPositionAndScale s1 in
  let s3 := drawImage s2 in
  saveState s3.

Definition removeImage s : ForgeCanvas num :=
  let s1 := set_img None s in
  let s2 := with_bitmap clearRect s1 in
  let d := dom s2 in
  let s3 := set_dom (Build_Dom (clientWidth d) (clientHeight d)
                       (drawingCanvas d) (canvasStyle d) ""
                       {| box_left := box_left (imageStyle d);
                          box_top := box_top (imageStyle d);
                          box_width := lit 0; box_height := lit 0 |}
                       (imageDisplay d) (uploadHintDisplay d)) s2 in
  let s4 := saveState s3 in
  let s5 := if negb (noUpload (options s4))
            then set_dom (set_uploadHintDisplay true (dom s4)) s4
            else s4 in
  onImageUpload s5.

(** The [input] listeners of the four toolbar controls.  Each stores
    [this.value], a string; the colour is used as a string, and of the
    other three only the width is ever an operand of [+]. *)
Definition scribbleColor_input (value : string) s : ForgeCanvas num :=
  let b := brush s in
  set_brush {| scribbleColor := value;
               scribbleWidth := scribbleWidth b;
               scribbleAlpha := scribbleAlpha b;
               scribbleSoftness := scribbleSoftness b |} s.

Definition scribbleWidth_input (text : SliderText num) s : ForgeCanvas num :=
  let b := brush s in
  set_scribbleWidthText (Some text)
    (set_brush {| scribbleColor := scribbleColor b;
                  scribbleWidth := slider_number text;
                  scribbleAlpha := scribbleAlpha b;
                  scribbleSoftness := scribbleSoftness b |} s).

Definition scribbleAlpha_input (text : SliderText num) s : ForgeCanvas num :=
  let b := brush s in
  set_brush {| scribbleColor := scribbleColor b;
               scribbleWidth := scribbleWidth b;
               scribbleAlpha := slider_number text;
               scribbleSoftness := scribbleSoftness b |} s.

Definition scribbleSoftness_input (text : SliderText num) s
  : ForgeCanvas num :=
  let b := brush s in
  set_brush {| scribbleColor := scribbleColor b;
               scribbleWidth := scribbleWidth b;
               scribbleAlpha := scribbleAlpha b;
               scribbleSoftness := slider_number text |} s.

(** The [wheel] listener of the image container.  With the control key
    held it computes [this.scribbleWidth + brushChange]: a sum while the
    width is a number, a concatenation once the width slider has stored
    its string; [Math.max] makes a number of either. *)
Definition imageContainer_wheel (event : WheelEvent num) s
  : ForgeCanvas num :=
  if wheel_ctrlKey event then
    let brushChange := mul (deltaY event) (dec (-1) 100) in
    let b := brush s in
    let plus := match scribbleWidthText s with
                | None => add (scribbleWidth b) brushChange
                | Some text => slider_plus text brushChange
                end in
    set_scribbleWidthText None
      (set_brush
         {| scribbleColor := scribbleColor b;
            scribbleWidth := Math_max (lit 1) plus;
            scribbleAlpha := scribbleAlpha b;
            scribbleSoftness := scribbleSoftness b |} s)
  else if negb (truthy (img s)) then s
  else
    let mouseX := wheel_clientX event in
    let mouseY := wheel_clientY event in
    let previousScale := imgScale (view s) in
    let zoomFactor := mul (deltaY event) (dec (-1) 1000) in
    let imgScale1 := add (imgScale (view s)) zoomFactor in
    let imgScale2 := Math_max (dec 1 10) imgScale1 in
    let scaleRatio := div imgScale2 previousScale in
    drawImage
      (set_view
         {| imgX := sub mouseX (mul (sub mouseX (imgX (view s))) scaleRatio);
            imgY := sub mouseY (mul (sub mouseY (imgY (view s))) scaleRatio);
            imgScale := imgScale2 |} s).

(** The [ResizeObserver] callback, once the container has its new client
    size, and the click listener of the center button. *)
Definition container_resized (w h : Z) s : ForgeCanvas num :=
  drawImage
    (adjustInitialPositionAndScale (set_dom (set_client w h (dom s)) s)).

Definition centerButton_click s : ForgeCanvas num :=
  drawImage (adjustInitialPositionAndScale s).

(** The conversion of client coordinates into coordinates of the drawing
    canvas that [handleDraw] and [handleErase] open with:
    [(event.clientX - rect.left) / this.imgScale], where [rect] is the
    bounding rectangle of the drawing canvas. *)
Definition canvasPoint (clientX clientY : num) s : num * num :=
  (div (sub clientX (box_left (canvasStyle (dom s)))) (imgScale (view s)),
   div (sub clientY (box_top (canvasStyle (dom s)))) (imgScale (view s))).

(** The [MutationObserver] of one of the two channels runs while its
    field holds [v]: the text under the textarea was changed in the way
    the observer is registered for, a mutation of character data. *)
Definition background_field_changed (callback_binding : option Handler)
    (v : string) s : ForgeCanvas num * Completion :=
  let run := observerCallback callback_binding
               (externalWrite v (backgroundGradioBind s)) in
  (set_backgroundGradioBind (after run) s, completion run).

Definition foreground_field_changed (callback_binding : option Handler)
    (v : string) s : ForgeCanvas num * Completion :=
  let run := observerCallback callback_binding
               (externalWrite v (foregroundGradioBind s)) in
  (set_foregroundGradioBind (after run) s, completion run).

(** The host page assigns [value] of one of the two bound fields; no
    observer runs. *)
Definition background_field_assigned (v : string) s : ForgeCanvas num :=
  set_backgroundGradioBind (externalWrite v (backgroundGradioBind s)) s.

Definition foreground_field_assigned (v : string) s : ForgeCanvas num :=
  set_foregroundGradioBind (externalWrite v (foregroundGradioBind s)) s.

(** The constructor followed by [start()]: [gradio_config] is the global of
    that name if it is defined, [clientW] and [clientH] the client size of
    the image container. *)
Definition newForgeCanvas (gradio_config : option GradioConfig)
    (noUpload noScribbles mask : bool)
    (scribbleColor : string)
    (scribbleWidth scribbleAlpha scribbleSoftness : num)
    (clientW clientH : Z) : ForgeCanvas num :=
  let zero_box := {| box_left := lit 0; box_top := lit 0;
                     box_width := lit 0; box_height := lit 0 |} in
  {| options := {| gradioConfig := gradio_config; noUpload := noUpload;
                   noScribbles := noScribbles; mask := mask |};
     img := None;
     originalWidth := lit 0;
     originalHeight := lit 0;
     view := {| imgX := lit 0; imgY := lit 0; imgScale := lit 1 |};
     brush := {| scribbleColor := scribbleColor;
                 scribbleWidth := scribbleWidth;
                 scribbleAlpha := scribbleAlpha;
                 scribbleSoftness := scribbleSoftness |};
     currentTool := brush_tool;
     gesture := {| drawing := false; tempDrawPoints := [];
                   tempDrawBackground := None; lastErasePoint := None;
                   eraseChanged := false |};
     history := [];
     historyIndex := -1;
     backgroundGradioBind :=
       listen uploadBase64 (newGradioTextAreaBind "");
     foregroundGradioBind :=
       listen uploadBase64DrawingCanvas (newGradioTextAreaBind "");
     dom := {| clientWidth := clientW; clientHeight := clientH;
               drawingCanvas :=
                 Build_Canvas (blank clientW clientH) defaultContext;
               canvasStyle := zero_box; imageSrc := "";
               imageStyle := zero_box; imageDisplay := false;
               uploadHintDisplay := negb noUpload |};
     scribbleWidthText := None |}.
End Widget.

(* ================================================================= *)
(** ** Brush, eraser and the pointer listeners of the drawing canvas

    These use [Math.round], [Math.ceil], [Math.sqrt] and [Math.pow] and are
    stated over the reals. *)

Record PointerEvent : Type := {
  clientX : R;
  clientY : R;
  button : Z
}.

(** The values [0, 1, ..., n-1] of a loop counter. *)
Definition counter (n : Z) : list Z := map Z.of_nat (seq 0 (Z.to_nat n)).

Section Strokes.
Variable browser : Browser R.
Implicit Type s : ForgeCanvas R.
Local Open Scope R_scope.

(** [context.stroke()] with the context in state [c]. *)
Definition stroke_with (path : list (R * R)) (cv : Canvas R)
    (c : Context2D R) : Canvas R :=
  Build_Canvas (stroke browser c path (bitmap cv)) c.

(** The context after the assignment of [globalAlpha] that precedes the
    final [for] loop of [handleDraw]. *)
Definition softContext (c : Context2D R)
    (scribbleSoftness scribbleAlpha : R) : Context2D R :=
  let steps := Math_round (5 + scribbleSoftness / 5) in
  set_globalAlpha
    (1 - Math_pow (1 - Rmin (scribbleAlpha / 100) (95 / 100))
                  (1 / IZR steps)) c.

(** An assignment to [context.lineWidth] inside that loop: the canvas
    ignores a value that is not positive and keeps the width it has.  The
    loop assigns such values as soon as the softness is 150 or more. *)
Definition assign_lineWidth (v : R) (c : Context2D R) : Context2D R :=
  if Rlt_dec 0 v then set_lineWidth v c else c.

(** The context states of the [stroke()] calls that follow the assignments
    of the given widths, one after the other. *)
Fixpoint strokePasses (c : Context2D R) (widths : list R)
  : list (Context2D R) :=
  match widths with
  | [] => []
  | w :: rest =>
      let c' := assign_lineWidth w c in
      c' :: strokePasses c' rest
  end.

(** The context states of the [stroke()] calls of that loop, one per
    pass. *)
Definition softPasses (c : Context2D R) (scribbleSoftness scribbleAlpha : R)
  : list (Context2D R) :=
  let minLineWidth := lineWidth c * (1 - scribbleSoftness / 150) in
  let maxLineWidth := lineWidth c * (1 + scribbleSoftness / 150) in
  let steps := Math_round (5 + scribbleSoftness / 5) in
  let lineWidthIncrement :=
    (maxLineWidth - minLineWidth) / (IZR steps - 1) in
  strokePasses (softContext c scribbleSoftness scribbleAlpha)
    (map (fun i => minLineWidth + lineWidthIncrement * IZR i)
       (counter steps)).

(** [handleDraw].  The path is rebuilt from [tempDrawPoints] at every
    call and stroked over the surface saved at pointer down.  The width
    assigned before the first [if] is [scribbleWidth / imgScale * 20],
    positive as soon as the brush width and the scale are: the width slider
    and the wheel keep the width at 1 or more, and a fitted image has a
    positive scale. *)
Definition handleDraw (event : PointerEvent) s : ForgeCanvas R :=
  let '(x, y) := canvasPoint (clientX event) (clientY event) s in
  let g := gesture s in
  let points := tempDrawPoints g ++ [(x, y)] in
  let s1 := set_gesture
              {| drawing := drawing g; tempDrawPoints := points;
                 tempDrawBackground := tempDrawBackground g;
                 lastErasePoint := lastErasePoint g;
                 eraseChanged := eraseChanged g |} s in
  match tempDrawBackground g with
  | None => s1
  | Some background =>
      let s2 := with_bitmap (putImageData background) s1 in
      let b := brush s2 in
      let s3 :=
        with_context
          (fun c =>
             set_lineWidth
               (scribbleWidth b / imgScale (view s2) * 20) (set_round c))
          s2 in
      if mask (options s3) then
        with_canvas
          (fun cv =>
             stroke_with points cv
               (set_strokeStyle contrastPattern (context cv))) s3
      else
        let s4 := with_context (set_strokeStyle (Color (scribbleColor b)))
                    s3 in
        if Rle_dec (scribbleAlpha b) 0 then
          with_canvas
            (fun cv =>
               stroke_with points cv
                 (set_globalAlpha 1
                    (set_globalCompositeOperation destination_out
                       (context cv)))) s4
        else
          let s5 := with_context
                      (set_globalCompositeOperation source_over) s4 in
          if Rle_dec (scribbleSoftness b) 0 then
            with_canvas
              (fun cv =>
                 stroke_with points cv
                   (set_globalAlpha (scribbleAlpha b / 100) (context cv)))
              s5
          else
            with_canvas
              (fun cv =>
                 fold_left (stroke_with points)
                   (softPasses (context cv)
                      (scribbleSoftness b) (scribbleAlpha b))
                   (Build_Canvas (bitmap cv)
                      (softContext (context cv)
                         (scribbleSoftness b) (scribbleAlpha b)))) s5
  end.

(** The centres of the dabs of one call of [handleErase]: [last] is
    [this.lastErasePoint] after the first [if], [(x, y)] the new point. *)
Definition eraseDabs (last : R * R) (x y eraserSize : R) : list (R * R) :=
  let dx := x - fst last in
  let dy := y - snd last in
  let distance := Math_sqrt (dx * dx + dy * dy) in
  if Rlt_dec distance (eraserSize / 4) then [(x, y)]
  else
    let steps := Math_ceil (distance / (eraserSize / 4)) in
    map (fun i =>
           let t := IZR i / IZR steps in
           (fst last + dx * t, snd last + dy * t))
        (counter steps).

(** One dab: [arc], then [fillStyle], [globalCompositeOperation] and
    [fill]. *)
Definition dab (eraserSize : R) (cv : Canvas R) (centre : R * R)
  : Canvas R :=
  let c := set_globalCompositeOperation destination_out
             (set_fillStyle (Color "rgba(0,0,0,1)") (context cv)) in
  Build_Canvas
    (fill_arc browser c (fst centre) (snd centre) (eraserSize / 2)
       (bitmap cv)) c.

Definition handleErase (event : PointerEvent) s : ForgeCanvas R :=
  let '(x, y) := canvasPoint (clientX event) (clientY event) s in
  let eraserSize := scribbleWidth (brush s) / imgScale (view s) * 20 in
  let last := match lastErasePoint (gesture s) with
              | Some p => p
              | None => (x, y)
              end in
  let s1 := with_canvas
              (fun cv =>
                 fold_left (dab eraserSize)
                   (eraseDabs last x y eraserSize) cv) s in
  let g := gesture s1 in
  set_gesture
    {| drawing := drawing g; tempDrawPoints := tempDrawPoints g;
       tempDrawBackground := tempDrawBackground g;
       lastErasePoint := Some (x, y);
       eraseChanged := true |} s1.

(** The click listener of the eraser button. *)
Definition eraserButton_click s : ForgeCanvas R :=
  let s1 := set_currentTool
              (match currentTool s with
               | eraser_tool => brush_tool
               | brush_tool => eraser_tool
               end) s in
  if mask (options s1)
     && match currentTool s1 with brush_tool => true | _ => false end
  then with_context
         (fun c => set_strokeStyle contrastPattern
                     (set_globalCompositeOperation source_over c)) s1
  else s1.

Definition drawingCanvas_pointerdown (event : PointerEvent) s
  : ForgeCanvas R :=
  if negb (truthy (img s)) || negb (button event =? 0)%Z
     || noScribbles (options s)
  then s
  else
    let g := gesture s in
    let s1 :=
      set_gesture
        {| drawing := true;
           tempDrawPoints :=
             [canvasPoint (clientX event) (clientY event) s];
           tempDrawBackground := Some (overlay s);
           lastErasePoint := lastErasePoint g;
           eraseChanged := eraseChanged g |} s in
    match currentTool s1 with
    | eraser_tool => handleErase event s1
    | brush_tool =>
        let s2 :=
          if mask (options s1)
          then with_context
                 (fun c => set_strokeStyle contrastPattern
                             (set_globalCompositeOperation source_over c))
                 s1
          else s1 in
        handleDraw event s2
    end.

Definition drawingCanvas_pointermove (event : PointerEvent) s
  : ForgeCanvas R :=
  if drawing (gesture s) then
    match currentTool s with
    | eraser_tool => handleErase event s
    | brush_tool => handleDraw event s
    end
  else s.

(** The [pointerup] listener; the [pointerleave] listener differs only
    in hiding the brush indicator. *)
Definition drawingCanvas_pointerup s : ForgeCanvas R :=
  let g := gesture s in
  if drawing g then
    let s1 := set_gesture
                {| drawing := false; tempDrawPoints := tempDrawPoints g;
                   tempDrawBackground := tempDrawBackground g;
                   lastErasePoint := None;
                   eraseChanged := eraseChanged g |} s in
    if eraseChanged (gesture s1) then
      let s2 := saveState browser s1 in
      let g2 := gesture s2 in
      set_gesture
        {| drawing := drawing g2; tempDrawPoints := tempDrawPoints g2;
           tempDrawBackground := tempDrawBackground g2;
           lastErasePoint := lastErasePoint g2;
           eraseChanged := false |} s2
    else s1
  else s.

Definition drawingCanvas_pointerleave s : ForgeCanvas R :=
  let g := gesture s in
  if drawing g then
    let s1 := set_gesture
                {| drawing := false; tempDrawPoints := tempDrawPoints g;
                   tempDrawBackground := tempDrawBackground g;
                   lastErasePoint := None;
                   eraseChanged := eraseChanged g |} s in
    if eraseChanged (gesture s1) then
      let s2 := saveState browser s1 in
      let g2 := gesture s2 in
      set_gesture
        {| drawing := drawing g2; tempDrawPoints := tempDrawPoints g2;
           tempDrawBackground := tempDrawBackground g2;
           lastErasePoint := lastErasePoint g2;
           eraseChanged := false |} s2
    else s1
  else s.
End Strokes.

(* ================================================================= *)
(** ** The widget as a transition system *)

(** The inputs of the widget: the listeners registered by [start()] and the
    completion of a file read.  [Upload] is [handleFileUpload(file)] followed
    by the [onload] of its [FileReader]; [decoded] is the browser's answer
    to the decoding of the payload.  [BackgroundFieldChanged] and
    [ForegroundFieldChanged] are runs of the two observers. *)
Inductive Event : Type :=
  | PointerDown (event : PointerEvent)
  | PointerMove (event : PointerEvent)
  | PointerUp
  | PointerLeave
  | EraserClick
  | Wheel (event : WheelEvent R)
  | Resized (w h : Z)
  | CenterClick
  | ResetClick
  | RemoveClick
  | UndoClick
  | RedoClick
  | Upload (dataURL : string) (decoded : option Decoded)
  | BackgroundFieldChanged (v : string)
  | ForegroundFieldChanged (v : string).

Section Machine.
Variable browser : Browser R.
(** What the identifier [callback] of the observers is bound to. *)
Variable callback_binding : option Handler.

Definition handleFileUpload (dataURL : string) (decoded : option Decoded)
    (s : ForgeCanvas R) : ForgeCanvas R :=
  if negb (noUpload (options s))
  then uploadBase64 browser dataURL decoded s
  else s.

Definition step (e : Event) (s : ForgeCanvas R) : ForgeCanvas R :=
  match e with
  | PointerDown event => drawingCanvas_pointerdown browser event s
  | PointerMove event => drawingCanvas_pointermove browser event s
  | PointerUp => drawingCanvas_pointerup browser s
  | PointerLeave => drawingCanvas_pointerleave browser s
  | EraserClick => eraserButton_click s
  | Wheel event => imageContainer_wheel event s
  | Resized w h => container_resized w h s
  | CenterClick => centerButton_click s
  | ResetClick => resetImage browser s
  | RemoveClick => removeImage browser s
  | UndoClick => undo browser s
  | RedoClick => redo browser s
  | Upload dataURL decoded => handleFileUpload dataURL decoded s
  | BackgroundFieldChanged v =>
      fst (background_field_changed callback_binding v s)
  | ForegroundFieldChanged v =>
      fst (foreground_field_changed callback_binding v s)
  end.

Definition run (events : list Event) (s : ForgeCanvas R) : ForgeCanvas R :=
  fold_left (fun acc e => step e acc) events s.

(** The states a widget can be in: a freshly constructed one, and whatever
    the inputs make of it. *)
Inductive reachable : ForgeCanvas R -> Prop :=
  | reachable_new cfg nu ns m col w a so cw ch :
      reachable (newForgeCanvas browser cfg nu ns m col w a so cw ch)
  | reachable_step e s : reachable s -> reachable (step e s).
End Machine.

(** The history fields of a state are well formed. *)
Definition history_ok {num} (s : ForgeCanvas num) : Prop :=
  (-1 <= historyIndex s < Z.of_nat (List.length (history s)))%Z /\
  (history s <> [] -> 0 <= historyIndex s)%Z.



(** Two states with the same history fields. *)
Definition same_history {num} (s s' : ForgeCanvas num) : Prop :=
  history s' = history s /\ historyIndex s' = historyIndex s.

(** The history [H0] is fixed, its last entry [T] sits at index [top], the
    overlay has the size of [T], and shows [T] whenever the index is
    [top]. *)
Definition follows {num} (H0 : list ImageData) (top : Z) (T : ImageData)
    (s : ForgeCanvas num) : Prop :=
  history s = H0 /\
  (0 <= historyIndex s <= top)%Z /\
  same_size (overlay s) T /\
  (historyIndex s = top -> overlay s = T).

(** What a gesture keeps fixed apart from the overlay and the gesture
    fields. *)
Definition untouched {num} (s s' : ForgeCanvas num) : Prop :=
  same_history s s' /\
  foregroundGradioBind s' = foregroundGradioBind s /\
  backgroundGradioBind s' = backgroundGradioBind s /\
  currentTool s' = currentTool s /\
  img s' = img s /\ options s' = options s /\ brush s' = brush s.

(** What the canvas specification says of [drawImage] onto a surface
    that was just cleared: the surface keeps its size; under
    [source-over] with full opacity an image of the size of the surface
    is shown as it is; under [destination-out] nothing is drawn, the
    surface stays clear. *)
Definition composites_as_specified {num} `{JSNumber num}
    (browser : Browser num) : Prop :=
  forall (c : Context2D num) (image : Decoded) (d : ImageData),
    same_size (context_drawImage browser c image (clearRect d)) d /\
    (globalCompositeOperation c = source_over ->
     globalAlpha c = lit 1 ->
     same_size d (surfaceOf image) ->
     context_drawImage browser c image (clearRect d) = surfaceOf image) /\
    (globalCompositeOperation c = destination_out ->
     context_drawImage browser c image (clearRect d) = clearRect d).

(** *** A browser to run the widget with

    Every stroke floods the surface with opaque black and every dab clears
    it; an image is copied onto the surface under [source-over] and leaves
    a clear surface under [destination-out]; the encoders return fixed
    strings. *)
Definition flood (d : ImageData) : ImageData :=
  {| width := width d; height := height d;
     data := map (map (fun _ => (0, 0, 0, 255)%Z)) (data d) |}.

Definition floodBrowser (num : Type) : Browser num :=
  {| stroke := fun _ _ d => flood d;
     fill_arc := fun _ _ _ _ d => clearRect d;
     canvas_toDataURL := fun _ => "data:image/png;base64,overlay";
     image_toDataURL := fun src _ _ => src;
     context_drawImage :=
       fun c image d =>
         match globalCompositeOperation c with
         | source_over => putImageData (surfaceOf image) d
         | destination_out => clearRect d
         end |}.

(** *** A small image and a widget that shows it *)

Definition tinyImage : Decoded :=
  {| naturalWidth := 2; naturalHeight := 1;
     decodedPixels := [[(255, 0, 0, 255); (0, 0, 0, 0)]]%Z |}.
Definition loadedWidget : ForgeCanvas R :=
  uploadBase64 (floodBrowser R) "data:image/png;base64,iVBORw0KGgo="
    (Some tinyImage)
    (newForgeCanvas (floodBrowser R) (Some {| version := "4.40.0" |})
       false false false "#000000" 4%R 100%R 0%R 400 400).


Definition wideImage : Decoded :=
  {| naturalWidth := 200; naturalHeight := 100;
     decodedPixels := repeat (repeat (0, 0, 0, 255)%Z 200) 100 |}.

(** A widget in a 400x400 container of a Gradio 4 page after [image] was
    loaded into it. *)
Definition widgetShowing {num} `{JSNumber num} (image : Decoded)
  : ForgeCanvas num :=
  uploadBase64 (floodBrowser num) "data:image/png;base64,iVBORw0KGgo="
    (Some image)
    (newForgeCanvas (floodBrowser num) (Some {| version := "4.40.0" |})
       false false false "#000000" (lit 4) (lit 100) (lit 0) 400 400).

(** What the two channels are asked to publish: the PNG of the overlay
    and of the image, or the empty string when no image is shown. *)
Definition encodedOverlay {num} (browser : Browser num) (s : ForgeCanvas num)
  : string :=
  if truthy (img s) then canvas_toDataURL browser (overlay s) else "".

Definition encodedImage {num} (browser : Browser num) (s : ForgeCanvas num)
  : string :=
  if truthy (img s)
  then image_toDataURL browser (imageSrc (dom s))
         (originalWidth s) (originalHeight s)
  else "".

(** The state of a channel right after it published [v]. *)
Definition published (v : string) (b : GradioTextAreaBind)
  : GradioTextAreaBind :=
  {| target_value := v; syncLock := false; previousValue := v;
     written := written b ++ [v] |}.

(** A mask-mode widget that shows the small image. *)
Definition maskWidget : ForgeCanvas R :=
  uploadBase64 (floodBrowser R) "data:image/png;base64,iVBORw0KGgo="
    (Some tinyImage)
    (newForgeCanvas (floodBrowser R) (Some {| version := "4.40.0" |})
       false false true "#000000" 4%R 100%R 0%R 400 400).

(** A channel whose lock is held stays locked and is not written. *)
Definition frozen (b b' : GradioTextAreaBind) : Prop :=
  syncLock b = true -> syncLock b' = true /\ written b' = written b.

Definition channels_frozen {num} (s s' : ForgeCanvas num) : Prop :=
  frozen (backgroundGradioBind s) (backgroundGradioBind s') /\
  frozen (foregroundGradioBind s) (foregroundGradioBind s').

(* ================================================================= *)
(** ** Maximize and minimize *)

(** The six style properties of the container that [maximize] saves and
    [minimize] restores. *)
Record ContainerStyle : Type := {
  style_width : string;
  style_height : string;
  style_top : string;
  style_left : string;
  style_position : string;
  style_zIndex : string
}.

(** [this.maximized], [this.originalState] ([None] is the empty object the
    constructor assigns), the style of the container and the [display] of
    the two buttons. *)
Record Layout : Type := {
  maximized : bool;
  originalState : option ContainerStyle;
  container_style : ContainerStyle;
  maxButton_display : string;
  minButton_display : string
}.

Definition fullscreen : ContainerStyle :=
  {| style_width := "100vw"; style_height := "100vh"; style_top := "0";
     style_left := "0"; style_position := "fixed"; style_zIndex := "1000" |}.

Definition maximize (l : Layout) : Layout :=
  if maximized l then l
  else
    {| maximized := true;
       originalState := Some (container_style l);
       container_style := fullscreen;
       maxButton_display := "none";
       minButton_display := "inline-block" |}.

(** Assigning [undefined] to a style property leaves it as it is. *)
Definition minimize (l : Layout) : Layout :=
  if negb (maximized l) then l
  else
    {| maximized := false;
       originalState := originalState l;
       container_style := match originalState l with
                          | Some saved => saved
                          | None => container_style l
                          end;
       maxButton_display := "inline-block";
       minButton_display := "none" |}.

Inductive LayoutClick : Type := MaxClick | MinClick.

Definition layout_click (c : LayoutClick) (l : Layout) : Layout :=
  match c with
  | MaxClick => maximize l
  | MinClick => minimize l
  end.

(** [updateUndoRedoButtons]: the [disabled] flags of the undo and of the
    redo button. *)
Definition updateUndoRedoButtons {num} (s : ForgeCanvas num) : bool * bool :=
  ((historyIndex s <=? 0)%Z,
   (Z.of_nat (List.length (history s)) - 1 <=? historyIndex s)%Z).

(* ================================================================= *)
(** ** Dragging the image, and pasting *)

(** The fields of the widget that the listeners of the image container
    use for dragging and pasting.  [offsetX] and [offsetY] are [None] until
    the first drag assigns them. *)
Record Pointer (num : Type) : Type := {
  dragging : bool;
  offsetX : option num;
  offsetY : option num;
  draggedJustNow : bool;
  pointerInsideContainer : bool
}.

Arguments Build_Pointer {num}.

(** A pointer event of the image container; the coordinates are
    [event.clientX - rect.left] and [event.clientY - rect.top] for the
    bounding rectangle [rect] of the image container. *)
Record ContainerEvent (num : Type) : Type := {
  container_clientX : num;
  container_clientY : num;
  container_button : Z
}.

Section Dragging.
Context {num : Type} `{JSNumber num}.
Implicit Type s : ForgeCanvas num.
Implicit Type p : Pointer num.

Definition newPointer : Pointer num :=
  {| dragging := false; offsetX := None; offsetY := None;
     draggedJustNow := false; pointerInsideContainer := false |}.

Definition isInsideImage (x y : num) s : bool :=
  let scaledWidth := mul (originalWidth s) (imgScale (view s)) in
  let scaledHeight := mul (originalHeight s) (imgScale (view s)) in
  ltb (imgX (view s)) x
  && ltb x (add (imgX (view s)) scaledWidth)
  && ltb (imgY (view s)) y
  && ltb y (add (imgY (view s)) scaledHeight).

(** The [pointerdown] listener of the image container.  The other branch
    opens the file dialog and changes no field. *)
Definition imageContainer_pointerdown (event : ContainerEvent num)
    (sp : ForgeCanvas num * Pointer num) : ForgeCanvas num * Pointer num :=
  let '(s, p) := sp in
  let offsetX' := container_clientX event in
  let offsetY' := container_clientY event in
  if (container_button event =? 2)%Z && isInsideImage offsetX' offsetY' s
  then
    (s, {| dragging := true;
           offsetX := Some (sub offsetX' (imgX (view s)));
           offsetY := Some (sub offsetY' (imgY (view s)));
           draggedJustNow := draggedJustNow p;
           pointerInsideContainer := pointerInsideContainer p |})
  else sp.

(** The [pointermove] listener.  [dragging] is set only together with the
    two offsets; without them the subtraction would give NaN, and the
    state is left as it is. *)
Definition imageContainer_pointermove (event : ContainerEvent num)
    (sp : ForgeCanvas num * Pointer num) : ForgeCanvas num * Pointer num :=
  let '(s, p) := sp in
  if dragging p then
    match offsetX p, offsetY p with
    | Some ox, Some oy =>
        let mouseX := container_clientX event in
        let mouseY := container_clientY event in
        (drawImage
           (set_view {| imgX := sub mouseX ox; imgY := sub mouseY oy;
                        imgScale := imgScale (view s) |} s),
         {| dragging := dragging p; offsetX := offsetX p;
            offsetY := offsetY p; draggedJustNow := true;
            pointerInsideContainer := pointerInsideContainer p |})
    | _, _ => sp
    end
  else sp.

(** [handleDragEnd], as called by the [pointerup] and the [pointerleave]
    listener; the latter also clears [pointerInsideContainer]. *)
Definition handleDragEnd p : Pointer num :=
  {| dragging := false; offsetX := offsetX p; offsetY := offsetY p;
     draggedJustNow := draggedJustNow p;
     pointerInsideContainer := pointerInsideContainer p |}.

Definition imageContainer_pointerup p : Pointer num :=
  if dragging p then handleDragEnd p else p.

Definition imageContainer_pointerleave p : Pointer num :=
  let p1 := if dragging p then handleDragEnd p else p in
  {| dragging := dragging p1; offsetX := offsetX p1; offsetY := offsetY p1;
     draggedJustNow := draggedJustNow p1;
     pointerInsideContainer := false |}.

Definition imageContainer_pointerenter p : Pointer num :=
  {| dragging := dragging p; offsetX := offsetX p; offsetY := offsetY p;
     draggedJustNow := draggedJustNow p;
     pointerInsideContainer := true |}.

Definition imageContainer_contextmenu p : Pointer num :=
  {| dragging := dragging p; offsetX := offsetX p; offsetY := offsetY p;
     draggedJustNow := false;
     pointerInsideContainer := pointerInsideContainer p |}.
End Dragging.

Inductive ContainerInput (num : Type) : Type :=
| ContainerDown (event : ContainerEvent num)
| ContainerMove (event : ContainerEvent num)
| ContainerUp
| ContainerLeave
| ContainerEnter
| ContextMenu.

Arguments ContainerUp {num}.
Arguments ContainerLeave {num}.
Arguments ContainerEnter {num}.
Arguments ContextMenu {num}.

Definition container_step {num} `{JSNumber num} (i : ContainerInput num)
    (sp : ForgeCanvas num * Pointer num) : ForgeCanvas num * Pointer num :=
  match i with
  | ContainerDown event => imageContainer_pointerdown event sp
  | ContainerMove event => imageContainer_pointermove event sp
  | ContainerUp => (fst sp, imageContainer_pointerup (snd sp))
  | ContainerLeave => (fst sp, imageContainer_pointerleave (snd sp))
  | ContainerEnter => (fst sp, imageContainer_pointerenter (snd sp))
  | ContextMenu => (fst sp, imageContainer_contextmenu (snd sp))
  end.

Definition container_run {num} `{JSNumber num}
    (inputs : list (ContainerInput num))
    (sp : ForgeCanvas num * Pointer num) : ForgeCanvas num * Pointer num :=
  fold_left (fun acc i => container_step i acc) inputs sp.

(** What dragging keeps fixed: everything but the two offsets of the view
    and the placement of the image and of the drawing canvas. *)
Definition pan_only {num} (s s' : ForgeCanvas num) : Prop :=
  untouched s s' /\
  overlay s' = overlay s /\
  gesture s' = gesture s /\
  imgScale (view s') = imgScale (view s) /\
  originalWidth s' = originalWidth s /\
  originalHeight s' = originalHeight s.

(** An item of [event.clipboardData.items]: its MIME type and what
    [getAsFile()] followed by the [FileReader] gives -- the data URL and
    the browser's answer to decoding it -- or [None] when [getAsFile()]
    returns [null]. *)
Record ClipboardItem : Type := {
  item_type : string;
  getAsFile : option (string * option Decoded)
}.

(** [t.indexOf('image') !== -1]. *)
Definition mentions_image (t : string) : bool :=
  match String.index 0 "image" t with
  | Some _ => true
  | None => false
  end.

Section Pasting.
Variable browser : Browser R.

(** [handlePaste]: the loop runs until the first item whose type mentions
    [image] and breaks after it. *)
Fixpoint handlePaste (items : list ClipboardItem) (s : ForgeCanvas R)
  : ForgeCanvas R :=
  match items with
  | [] => s
  | item :: rest =>
      if mentions_image (item_type item) then
        match getAsFile item with
        | Some (dataURL, decoded) =>
            handleFileUpload browser dataURL decoded s
        | None => s
        end
      else handlePaste rest s
  end.

(** The [drop] listener of the image container: [files[0]] when there is
    one. *)
Definition imageContainer_drop (files : list (string * option Decoded))
    (s : ForgeCanvas R) : ForgeCanvas R :=
  match files with
  | (dataURL, decoded) :: _ => handleFileUpload browser dataURL decoded s
  | [] => s
  end.

(** The [paste] listener of the document. *)
Definition document_paste (items : list ClipboardItem)
    (sp : ForgeCanvas R * Pointer R) : ForgeCanvas R * Pointer R :=
  if pointerInsideContainer (snd sp)
  then (handlePaste items (fst sp), snd sp)
  else sp.
End Pasting.

(* ================================================================= *)
(** ** The progress bar ([javascript/progressbar.js])

    Times are finite numbers, taken as rationals; the quotients are exact
    here and rounded in binary64.  An integer is printed in decimal, as
    JavaScript does below [10^21]. *)

Definition Q := QArith_base.Q.

Definition Number_toString (x : Z) : string :=
  DecimalString.NilZero.string_of_int (Z.to_int x).

(** [pad2(x)], as the string that the concatenation makes of it. *)
Definition pad2 (x : Z) : string :=
  if (x <? 10)%Z then "0" ++ Number_toString x else Number_toString x.

(** [a > b] on numbers. *)
Definition Qgtb (a b : Q) : bool := negb (QArith_base.Qle_bool a b).

Definition Qlit (z : Z) : Q := QArith_base.inject_Z z.

(** [%] is the remainder of the truncated division. *)
Definition formatTime (secs : Q) : string :=
  let floor := Qround.Qfloor in
  let quot := QArith_base.Qdiv in
  if Qgtb secs (Qlit 3600) then
    pad2 (floor (quot (quot secs (Qlit 60)) (Qlit 60))) ++ ":"
    ++ pad2 (Z.rem (floor (quot secs (Qlit 60))) 60) ++ ":"
    ++ pad2 (Z.rem (floor secs) 60)
  else if Qgtb secs (Qlit 60) then
    pad2 (floor (quot secs (Qlit 60))) ++ ":"
    ++ pad2 (Z.rem (floor secs) 60)
  else Number_toString (floor secs) ++ "s".

(** *** A progress session

    The variables that [requestProgress] closes over, and what its
    handlers do to the page.  [divProgress] says that the variable is not
    [null], [bar_attached] that the element is a child of
    [parentProgressbar]; [livePreview] holds the sources of the images in
    the preview element, oldest first, and [preview_attached] says that
    the element is a child of the gallery; [pending] are the images whose
    [src] was assigned and that have not loaded yet.  [atEnd_calls] and
    [onProgress_calls] count the calls of the two callbacks and
    [loaded] records the images in the order in which they loaded.  The
    width, the text of the bar, the title and the wake lock are left
    out. *)
Record Progress : Type := {
  divProgress : bool;
  bar_attached : bool;
  livePreview : option (list string);
  preview_attached : bool;
  wasEverActive : bool;
  pending : list string;
  atEnd_calls : nat;
  onProgress_calls : nat;
  loaded : list string
}.

(** The fields of a message that the session reads, and
    [(new Date() - dateStart) / 1000] at its arrival. *)
Record ProgressMessage : Type := {
  active : bool;
  queued : bool;
  live_preview : option string;
  elapsedFromStart : Q
}.

Inductive SocketEvent : Type :=
| WsOpen
| WsMessage (res : ProgressMessage)
| WsError
| WsClose
| ImgLoad (n : nat).

Fixpoint remove_nth {A} (n : nat) (l : list A) : list A :=
  match l, n with
  | [], _ => []
  | _ :: rest, O => rest
  | x :: rest, S m => x :: remove_nth m rest
  end.

Definition lastn {A} (n : nat) (l : list A) : list A :=
  skipn (List.length l - n) l.

Section Session.
(** [gallery] and [onProgress] say whether the argument is given. *)
Variable gallery : bool.
Variable onProgress : bool.
Variable inactivityTimeout : Q.

Definition requestProgress : Progress :=
  {| divProgress := true; bar_attached := true; livePreview := None;
     preview_attached := false; wasEverActive := false; pending := [];
     atEnd_calls := 0; onProgress_calls := 0; loaded := [] |}.

(** [removeChild] throws when the node is not a child; the handler then
    stops where it is. *)
Definition removeProgressBar (s : Progress) : Progress :=
  if negb (divProgress s) then s
  else if negb (bar_attached s) then s
  else
    let detached :=
      {| divProgress := divProgress s; bar_attached := false;
         livePreview := livePreview s;
         preview_attached := preview_attached s;
         wasEverActive := wasEverActive s; pending := pending s;
         atEnd_calls := atEnd_calls s;
         onProgress_calls := onProgress_calls s; loaded := loaded s |} in
    match (if gallery then livePreview s else None) with
    | Some _ =>
        if preview_attached s then
          {| divProgress := false; bar_attached := false;
             livePreview := livePreview s; preview_attached := false;
             wasEverActive := wasEverActive s; pending := pending s;
             atEnd_calls := S (atEnd_calls s);
             onProgress_calls := onProgress_calls s; loaded := loaded s |}
        else detached
    | None =>
        {| divProgress := false; bar_attached := false;
           livePreview := livePreview s;
           preview_attached := preview_attached s;
           wasEverActive := wasEverActive s; pending := pending s;
           atEnd_calls := S (atEnd_calls s);
           onProgress_calls := onProgress_calls s; loaded := loaded s |}
    end.

Definition ws_onmessage (res : ProgressMessage) (s : Progress) : Progress :=
  let s1 :=
    {| divProgress := divProgress s; bar_attached := bar_attached s;
       livePreview := livePreview s; preview_attached := preview_attached s;
       wasEverActive := if active res then true else wasEverActive s;
       pending := pending s; atEnd_calls := atEnd_calls s;
       onProgress_calls := onProgress_calls s; loaded := loaded s |} in
  if negb (active res) && wasEverActive s1 then removeProgressBar s1
  else if Qgtb (elapsedFromStart res) inactivityTimeout
          && negb (queued res) && negb (active res)
  then removeProgressBar s1
  else
    {| divProgress := divProgress s1; bar_attached := bar_attached s1;
       livePreview := livePreview s1;
       preview_attached := preview_attached s1;
       wasEverActive := wasEverActive s1;
       pending :=
         match live_preview res with
         | Some src =>
             if truthy (live_preview res) && gallery
             then pending s1 ++ [src] else pending s1
         | None => pending s1
         end;
       atEnd_calls := atEnd_calls s1;
       onProgress_calls :=
         if onProgress then S (onProgress_calls s1)
         else onProgress_calls s1;
       loaded := loaded s1 |}.

(** [livePreview.appendChild(img)] and the removal of the first child
    once there are more than two. *)
Definition appendChild (src : string) (children : list string)
  : list string :=
  let appended := children ++ [src] in
  if (2 <? List.length appended)%nat then tl appended else appended.

(** [img.onload] of the [n]-th pending image.  Without a gallery
    [gallery.insertBefore] throws, after [livePreview] was assigned. *)
Definition img_onload (n : nat) (s : Progress) : Progress :=
  match nth_error (pending s) n with
  | None => s
  | Some src =>
      match livePreview s with
      | Some children =>
          {| divProgress := divProgress s; bar_attached := bar_attached s;
             livePreview := Some (appendChild src children);
             preview_attached := preview_attached s;
             wasEverActive := wasEverActive s;
             pending := remove_nth n (pending s);
             atEnd_calls := atEnd_calls s;
             onProgress_calls := onProgress_calls s;
             loaded := loaded s ++ [src] |}
      | None =>
          if gallery then
            {| divProgress := divProgress s; bar_attached := bar_attached s;
               livePreview := Some (appendChild src []);
               preview_attached := true;
               wasEverActive := wasEverActive s;
               pending := remove_nth n (pending s);
               atEnd_calls := atEnd_calls s;
               onProgress_calls := onProgress_calls s;
               loaded := loaded s ++ [src] |}
          else
            {| divProgress := divProgress s; bar_attached := bar_attached s;
               livePreview := Some [];
               preview_attached := preview_attached s;
               wasEverActive := wasEverActive s;
               pending := remove_nth n (pending s);
               atEnd_calls := atEnd_calls s;
               onProgress_calls := onProgress_calls s;
               loaded := loaded s ++ [src] |}
      end
  end.

Definition socket_step (e : SocketEvent) (s : Progress) : Progress :=
  match e with
  | WsOpen => s
  | WsMessage res => ws_onmessage res s
  | WsError => removeProgressBar s
  | WsClose => removeProgressBar s
  | ImgLoad n => img_onload n s
  end.

Definition socket_run (events : list SocketEvent) (s : Progress) : Progress :=
  fold_left (fun acc e => socket_step e acc) events s.
End Session.

(** The sources that the messages of a run carry. *)
Definition sent (events : list SocketEvent) : list string :=
  flat_map (fun e => match e with
                     | WsMessage res =>
                         match live_preview res with
                         | Some src => [src]
                         | None => []
                         end
                     | _ => []
                     end) events.

(** What holds of a session from its start: [atEnd] has been called once
    exactly when the bar is gone, the bar is in the page as long as the
    variable holds it, images are pending only with a gallery, and a
    preview element is in the gallery as long as the bar is there. *)
Definition session_ok (gallery : bool) (s : Progress) : Prop :=
  atEnd_calls s = (if divProgress s then 0 else 1)%nat /\
  bar_attached s = divProgress s /\
  (pending s <> [] -> gallery = true) /\
  (gallery = false -> livePreview s = None) /\
  (divProgress s = true -> livePreview s <> None ->
   preview_attached s = true).

(** The preview shows the last two images that loaded, and whatever is
    pending or has loaded was sent in [log]. *)
Definition preview_ok (gallery : bool) (log : list SocketEvent)
    (s : Progress) : Prop :=
  (pending s <> [] -> gallery = true) /\
  livePreview s = match loaded s with
                  | [] => None
                  | _ :: _ => Some (lastn 2 (loaded s))
                  end /\
  incl (pending s ++ loaded s) (sent log).

(** *** [request]

    What the [onreadystatechange] handler of [request] calls: [parse] is
    [JSON.parse], which throws on [None], and [handler_returns] says
    whether [handler] returns or throws on a parsed answer. *)
Inductive Called (J : Type) : Type :=
| CalledHandler (js : J)
| CalledErrorHandler.

Arguments CalledErrorHandler {J}.

Definition onreadystatechange {J} (parse : string -> option J)
    (handler_returns : J -> bool) (readyState status : Z)
    (responseText : string) : list (Called J) :=
  if (readyState =? 4)%Z then
    if (status =? 200)%Z then
      match parse responseText with
      | Some js =>
          if handler_returns js then [CalledHandler js]
          else [CalledHandler js; CalledErrorHandler]
      | None => [CalledErrorHandler]
      end
    else [CalledErrorHandler]
  else [].

Definition is_error_call {J} (c : Called J) : bool :=
  match c with
  | CalledErrorHandler => true
  | CalledHandler _ => false
  end.

(* ================================================================= *)
(** ** The gallery listeners

    The module variables of the gallery script.  [Element] names a node
    of the page; [clickable] lists, in the order of the calls, the tab
    name and the gallery that [attachGalleryListeners] gave its click and
    keydown listeners to, and [observed] the nodes handed to
    [modalObserver.observe]. *)
Definition Element := nat.

Record Galleries : Type := {
  txt2img_gallery : option Element;
  img2img_gallery : option Element;
  modal : option Element;
  currentPreviewImage : option Element;
  clickable : list (string * Element);
  observed : list Element
}.

(** What the page answers at one UI update: [querySelector] for the
    gallery of a tab, and [getElementById('lightboxModal')]. *)
Record Page : Type := {
  gallery_of : string -> option Element;
  lightboxModal : option Element
}.

Definition galleries_loaded : Galleries :=
  {| txt2img_gallery := None; img2img_gallery := None; modal := None;
     currentPreviewImage := None; clickable := []; observed := [] |}.

(** [attachGalleryListeners(tab_name)]: the gallery found, and the
    listeners it has been given. *)
Definition attachGalleryListeners (tab_name : string) (page : Page)
    (listeners : list (string * Element))
  : option Element * list (string * Element) :=
  match gallery_of page tab_name with
  | Some gallery => (Some gallery, listeners ++ [(tab_name, gallery)])
  | None => (None, listeners)
  end.

(** The callback given to [onAfterUiUpdate].  [observe(null)] throws; it
    is the last statement. *)
Definition onAfterUiUpdate (page : Page) (g : Galleries) : Galleries :=
  let '(txt2img, l1) :=
    match txt2img_gallery g with
    | None => attachGalleryListeners "txt2img" page (clickable g)
    | Some _ => (txt2img_gallery g, clickable g)
    end in
  let '(img2img, l2) :=
    match img2img_gallery g with
    | None => attachGalleryListeners "img2img" page l1
    | Some _ => (img2img_gallery g, l1)
    end in
  match modal g with
  | None =>
      {| txt2img_gallery := txt2img; img2img_gallery := img2img;
         modal := lightboxModal page;
         currentPreviewImage := currentPreviewImage g;
         clickable := l2;
         observed := match lightboxModal page with
                     | Some m => observed g ++ [m]
                     | None => observed g
                     end |}
  | Some _ =>
      {| txt2img_gallery := txt2img; img2img_gallery := img2img;
         modal := modal g;
         currentPreviewImage := currentPreviewImage g;
         clickable := l2; observed := observed g |}
  end.

Definition ui_updates (pages : list Page) (g : Galleries) : Galleries :=
  fold_left (fun acc page => onAfterUiUpdate page acc) pages g.

(** [rememberGallerySelection], given what [selected_gallery_button()]
    returns. *)
Definition rememberGallerySelection (selected : option Element)
    (g : Galleries) : Galleries :=
  {| txt2img_gallery := txt2img_gallery g;
     img2img_gallery := img2img_gallery g; modal := modal g;
     currentPreviewImage := selected;
     clickable := clickable g; observed := observed g |}.

(** [a.indexOf(x)]. *)
Fixpoint indexOf (x : Element) (a : list Element) : Z :=
  match a with
  | [] => -1
  | y :: rest =>
      if Nat.eqb y x then 0
      else let i := indexOf x rest in
           if (i <? 0)%Z then -1 else (i + 1)%Z
  end.

(** [getGallerySelectedIndex], given [all_gallery_buttons()]. *)
Definition getGallerySelectedIndex (buttons : list Element)
    (g : Galleries) : Z :=
  match currentPreviewImage g with
  | None => -1
  | Some button => indexOf button buttons
  end.

(** The first answer that is not [null]. *)
Fixpoint first_found {A} (answers : list (option A)) : option A :=
  match answers with
  | [] => None
  | Some x :: _ => Some x
  | None :: rest => first_found rest
  end.

Definition listeners_of (tab_name : string) (g : Galleries) : list Element :=
  map snd (filter (fun entry => String.eqb (fst entry) tab_name)
             (clickable g)).

Definition option_list {A} (o : option A) : list A :=
  match o with
  | Some x => [x]
  | None => []
  end.

(** *** Proof automation *)

Ltac split_ifs :=
  repeat match goal with
         | |- context [if ?c then _ else _] => destruct c
         | |- context [match ?c with Some _ => _ | None => _ end] => destruct c
         end.

(** Reduce projections of updated states without unfolding the states. *)
Ltac state_simpl :=
  cbn [options img originalWidth originalHeight view brush currentTool
       gesture history historyIndex backgroundGradioBind
       foregroundGradioBind dom scribbleWidthText set_scribbleWidthText
       set_img set_original set_view set_brush set_currentTool set_gesture
       set_history set_backgroundGradioBind set_foregroundGradioBind set_dom
       set_drawingCanvas set_client set_uploadHintDisplay
       with_canvas with_bitmap with_context overlay
       clientWidth clientHeight drawingCanvas canvasStyle imageSrc imageStyle
       imageDisplay uploadHintDisplay bitmap context
       drawing tempDrawPoints tempDrawBackground lastErasePoint eraseChanged
       imgX imgY imgScale
       scribbleColor scribbleWidth scribbleAlpha scribbleSoftness
       gradioConfig noUpload noScribbles mask fst snd].

Ltac state_simpl_in H :=
  cbn [options img originalWidth originalHeight view brush currentTool
       gesture history historyIndex backgroundGradioBind
       foregroundGradioBind dom scribbleWidthText set_scribbleWidthText
       set_img set_original set_view set_brush set_currentTool set_gesture
       set_history set_backgroundGradioBind set_foregroundGradioBind set_dom
       set_drawingCanvas set_client set_uploadHintDisplay
       with_canvas with_bitmap with_context overlay
       clientWidth clientHeight drawingCanvas canvasStyle imageSrc imageStyle
       imageDisplay uploadHintDisplay bitmap context
       drawing tempDrawPoints tempDrawBackground lastErasePoint eraseChanged
       imgX imgY imgScale
       scribbleColor scribbleWidth scribbleAlpha scribbleSoftness
       gradioConfig noUpload noScribbles mask fst snd] in H.

Ltac frame :=
  unfold same_history; state_simpl; split_ifs; state_simpl; auto.

(* ================================================================= *)
(** * Properties *)

(** ** Numbers *)

(** Division by zero raises nothing in binary64, and a decimal literal is
    the correctly rounded quotient of its numerator and denominator. *)
Example float_div_by_zero :
  div (lit 380) (lit 0) = PrimFloat.infinity /\
  mul (lit 0) (div (lit 380) (lit 0)) = PrimFloat.nan /\
  dec 1 10 = PrimFloat.div (float_of_Z 2) (float_of_Z 20).
Proof. vm_compute. repeat split. Qed.

(** ** Arrays and surfaces *)

Lemma slice0_all {A} (a : list A) :
  slice0 a (Z.of_nat (List.length a)) = a.
Proof.
  unfold slice0.
  destruct (Z.ltb_spec (Z.of_nat (List.length a)) 0); [lia|].
  rewrite Z.min_id, Nat2Z.id. apply firstn_all.
Qed.

Lemma slice0_length {A} (a : list A) (e : Z) :
  (0 <= e <= Z.of_nat (List.length a))%Z ->
  Z.of_nat (List.length (slice0 a e)) = e.
Proof.
  intros He. unfold slice0.
  destruct (Z.ltb_spec e 0); [lia|].
  rewrite length_firstn. lia.
Qed.

Lemma slice0_prefix {A} (a : list A) (e i : Z) :
  (0 <= i < e)%Z -> (e <= Z.of_nat (List.length a))%Z ->
  index (slice0 a e) i = index a i.
Proof.
  intros Hi He. unfold slice0, index.
  destruct (Z.ltb_spec e 0); [lia|].
  destruct (Z.ltb_spec i 0); [lia|].
  rewrite nth_error_firstn.
  destruct (Nat.ltb_spec (Z.to_nat i) (Z.to_nat (Z.min e (Z.of_nat (List.length a)))));
    [reflexivity | lia].
Qed.

Lemma index_last {A} (a : list A) (x : A) :
  index (a ++ [x]) (Z.of_nat (List.length a)) = Some x.
Proof.
  unfold index. destruct (Z.ltb_spec (Z.of_nat (List.length a)) 0); [lia|].
  rewrite Nat2Z.id, nth_error_app2, Nat.sub_diag by lia. reflexivity.
Qed.

Lemma index_in_range {A} (a : list A) (i : Z) :
  (0 <= i < Z.of_nat (List.length a))%Z -> exists x, index a i = Some x.
Proof.
  intros Hi. unfold index. destruct (Z.ltb_spec i 0); [lia|].
  destruct (nth_error a (Z.to_nat i)) eqn:E; [eauto|].
  apply nth_error_None in E. lia.
Qed.

Lemma blit_row_same (src dst : list RGBA) :
  List.length src = List.length dst -> blit_row src dst = src.
Proof.
  revert dst. induction src as [|p src IH]; intros [|q dst] Hl;
    simpl in *; try discriminate; [reflexivity|].
  f_equal. apply IH. congruence.
Qed.

Lemma blit_same (src dst : list (list RGBA)) :
  map (@List.length RGBA) src = map (@List.length RGBA) dst ->
  blit src dst = src.
Proof.
  revert dst. induction src as [|r src IH]; intros [|d dst] Hs;
    simpl in *; try discriminate; [reflexivity|].
  injection Hs as Hr Hs. f_equal; [apply blit_row_same, Hr | apply IH, Hs].
Qed.

Lemma blit_row_length (src dst : list RGBA) :
  List.length (blit_row src dst) = List.length dst.
Proof.
  revert dst. induction src as [|p src IH]; intros [|q dst]; simpl; auto.
Qed.

Lemma blit_shape (src dst : list (list RGBA)) :
  map (@List.length RGBA) (blit src dst) = map (@List.length RGBA) dst.
Proof.
  revert dst. induction src as [|r src IH]; intros [|d dst]; simpl; auto.
  rewrite blit_row_length, IH. reflexivity.
Qed.

(** Writing a snapshot onto a surface of its own size gives back exactly
    the snapshot. *)
Lemma putImageData_same_size (src dst : ImageData) :
  same_size dst src -> putImageData src dst = src.
Proof.
  intros (Hw & Hh & Hs). destruct src as [w h d], dst as [w' h' d'].
  unfold putImageData, shape in *; simpl in *. subst.
  rewrite blit_same by (symmetry; exact Hs). reflexivity.
Qed.

Lemma putImageData_keeps_size (src dst : ImageData) :
  same_size (putImageData src dst) dst.
Proof.
  unfold same_size, putImageData, shape; simpl.
  repeat split. apply blit_shape.
Qed.

Lemma same_size_refl (a : ImageData) : same_size a a.
Proof. unfold same_size; auto. Qed.

Lemma same_size_trans (a b c : ImageData) :
  same_size a b -> same_size b c -> same_size a c.
Proof. unfold same_size; intuition congruence. Qed.

(** ** The history store *)

Section HistoryFacts.
Context {num : Type} `{JSNumber num}.
Variable browser : Browser num.
Implicit Type s : ForgeCanvas num.

Lemma onDrawingCanvasUpload_frame s :
  history (onDrawingCanvasUpload browser s) = history s /\
  historyIndex (onDrawingCanvasUpload browser s) = historyIndex s /\
  overlay (onDrawingCanvasUpload browser s) = overlay s.
Proof.
  unfold onDrawingCanvasUpload. destruct (negb (truthy (img s))); auto.
Qed.

Lemma saveState_history s :
  history (saveState browser s)
  = slice0 (history s) (historyIndex s + 1) ++ [overlay s].
Proof.
  unfold saveState.
  now rewrite (proj1 (onDrawingCanvasUpload_frame _)).
Qed.

Lemma saveState_index s :
  historyIndex (saveState browser s) = (historyIndex s + 1)%Z.
Proof.
  unfold saveState.
  now rewrite (proj1 (proj2 (onDrawingCanvasUpload_frame _))).
Qed.

Lemma saveState_overlay s :
  overlay (saveState browser s) = overlay s.
Proof.
  unfold saveState.
  now rewrite (proj2 (proj2 (onDrawingCanvasUpload_frame _))).
Qed.

Lemma restoreState_frame s :
  history (restoreState browser s) = history s /\
  historyIndex (restoreState browser s) = historyIndex s.
Proof.
  unfold restoreState. destruct (index (history s) (historyIndex s)); auto.
  destruct (onDrawingCanvasUpload_frame
              (with_bitmap (putImageData i) s)) as (-> & -> & _). auto.
Qed.

Lemma restoreState_overlay s d :
  index (history s) (historyIndex s) = Some d ->
  overlay (restoreState browser s) = putImageData d (overlay s).
Proof.
  intros E. unfold restoreState. rewrite E.
  now rewrite (proj2 (proj2 (onDrawingCanvasUpload_frame _))).
Qed.

Lemma undo_history s : history (undo browser s) = history s.
Proof.
  unfold undo. destruct (0 <? historyIndex s)%Z; [|reflexivity].
  now rewrite (proj1 (restoreState_frame _)).
Qed.

Lemma undo_index s :
  historyIndex (undo browser s)
  = if (0 <? historyIndex s)%Z then (historyIndex s - 1)%Z
    else historyIndex s.
Proof.
  unfold undo. destruct (0 <? historyIndex s)%Z; [|reflexivity].
  now rewrite (proj2 (restoreState_frame _)).
Qed.

Lemma redo_history s : history (redo browser s) = history s.
Proof.
  unfold redo.
  destruct (historyIndex s <? Z.of_nat (List.length (history s)) - 1)%Z;
    [|reflexivity].
  now rewrite (proj1 (restoreState_frame _)).
Qed.

Lemma redo_index s :
  historyIndex (redo browser s)
  = if (historyIndex s <? Z.of_nat (List.length (history s)) - 1)%Z
    then (historyIndex s + 1)%Z else historyIndex s.
Proof.
  unfold redo.
  destruct (historyIndex s <? Z.of_nat (List.length (history s)) - 1)%Z;
    [|reflexivity].
  now rewrite (proj2 (restoreState_frame _)).
Qed.

Lemma saveState_ok s : history_ok s -> history_ok (saveState browser s).
Proof.
  intros [Hr _]. unfold history_ok.
  rewrite saveState_history, saveState_index, length_app, Nat2Z.inj_add.
  rewrite slice0_length by lia. simpl. split; [lia|intros _; lia].
Qed.

Lemma undo_ok s : history_ok s -> history_ok (undo browser s).
Proof.
  intros [Hr Hn]. unfold history_ok.
  rewrite undo_history, undo_index.
  destruct (Z.ltb_spec 0 (historyIndex s)); split; auto; lia.
Qed.

Lemma redo_ok s : history_ok s -> history_ok (redo browser s).
Proof.
  intros [Hr Hn]. unfold history_ok.
  rewrite redo_history, redo_index.
  destruct (Z.ltb_spec (historyIndex s)
              (Z.of_nat (List.length (history s)) - 1)); split; auto; lia.
Qed.
End HistoryFacts.

(** *** Operations that leave the history alone *)

Lemma same_history_ok {num} (s s' : ForgeCanvas num) :
  same_history s s' -> history_ok s -> history_ok s'.
Proof. unfold same_history, history_ok. intros [-> ->]. auto. Qed.

Lemma same_history_trans {num} (s1 s2 s3 : ForgeCanvas num) :
  same_history s1 s2 -> same_history s2 s3 -> same_history s1 s3.
Proof. unfold same_history. intuition congruence. Qed.

Section Frames.
Context {num : Type} `{JSNumber num}.
Variable browser : Browser num.
Implicit Type s : ForgeCanvas num.

Lemma adjust_same_history s :
  same_history s (adjustInitialPositionAndScale s).
Proof. unfold adjustInitialPositionAndScale. frame. Qed.

Lemma drawImage_same_history s : same_history s (drawImage s).
Proof. unfold drawImage. frame. Qed.

Lemma onImageUpload_same_history s :
  same_history s (onImageUpload browser s).
Proof. unfold onImageUpload. frame. Qed.

Lemma wheel_same_history event s :
  same_history s (imageContainer_wheel event s).
Proof. unfold imageContainer_wheel, drawImage. frame. Qed.

Lemma fit_ok s :
  history_ok s ->
  history_ok (onImageUpload browser
                (drawImage (adjustInitialPositionAndScale s))).
Proof.
  apply same_history_ok.
  eapply same_history_trans; [apply adjust_same_history|].
  eapply same_history_trans;
    [apply drawImage_same_history | apply onImageUpload_same_history].
Qed.

Lemma same_history_refl s : same_history s s.
Proof. split; reflexivity. Qed.

Lemma set_img_same_history v s : same_history s (set_img v s).
Proof. split; reflexivity. Qed.

Lemma set_original_same_history w h s : same_history s (set_original w h s).
Proof. split; reflexivity. Qed.

Lemma set_dom_same_history d s : same_history s (set_dom d s).
Proof. split; reflexivity. Qed.

Lemma set_gesture_same_history (g : Gesture num) s :
  same_history s (set_gesture g s).
Proof. split; reflexivity. Qed.

Lemma with_canvas_same_history f s : same_history s (with_canvas f s).
Proof. split; reflexivity. Qed.

Lemma with_bitmap_same_history f s : same_history s (with_bitmap f s).
Proof. split; reflexivity. Qed.

Lemma with_context_same_history f s : same_history s (with_context f s).
Proof. split; reflexivity. Qed.

Lemma resizeCanvas_same_history w h s : same_history s (resizeCanvas w h s).
Proof. split; reflexivity. Qed.

Lemma uploadBase64_onload_ok base64Data image s :
  history_ok s -> history_ok (uploadBase64_onload browser base64Data image s).
Proof.
  intros Hs. unfold uploadBase64_onload. cbv zeta.
  eapply same_history_ok; [apply set_dom_same_history|].
  apply saveState_ok, fit_ok.
  assert (H2 : history_ok
                 (set_original (lit (naturalWidth image))
                    (lit (naturalHeight image))
                    (set_img (Some base64Data) s))).
  { eapply same_history_ok; [apply set_original_same_history|].
    eapply same_history_ok; [apply set_img_same_history|]. exact Hs. }
  match goal with
  | |- history_ok (if ?c then _ else _) => destruct c
  end.
  - eapply same_history_ok; [apply resizeCanvas_same_history|]. exact H2.
  - exact H2.
Qed.

Lemma uploadBase64_ok base64Data loaded s :
  history_ok s -> history_ok (uploadBase64 browser base64Data loaded s).
Proof.
  intros Hs. unfold uploadBase64.
  destruct (match gradioConfig (options s) with
            | Some cfg => negb (String.prefix "4" (version cfg))
            | None => false
            end); [exact Hs|].
  destruct (match gradioConfig (options s) with
            | Some _ => false
            | None => true
            end); [exact Hs|].
  destruct (negb (String.eqb base64Data "")).
  - destruct loaded; [apply uploadBase64_onload_ok, Hs | exact Hs].
  - cbv zeta. apply saveState_ok, fit_ok.
    eapply same_history_ok; [apply resizeCanvas_same_history|].
    eapply same_history_ok; [apply set_img_same_history|]. exact Hs.
Qed.

Lemma uploadBase64DrawingCanvas_ok base64Data loaded s :
  history_ok s ->
  history_ok (uploadBase64DrawingCanvas browser base64Data loaded s).
Proof.
  intros Hs. unfold uploadBase64DrawingCanvas.
  split_ifs; auto; apply saveState_ok; exact Hs.
Qed.

Lemma resetImage_ok s : history_ok s -> history_ok (resetImage browser s).
Proof.
  intros Hs. unfold resetImage. apply saveState_ok.
  eapply same_history_ok; [apply drawImage_same_history|].
  eapply same_history_ok; [apply adjust_same_history|]. exact Hs.
Qed.

Lemma removeImage_ok s : history_ok s -> history_ok (removeImage browser s).
Proof.
  intros Hs. unfold removeImage.
  eapply same_history_ok; [apply onImageUpload_same_history|].
  match goal with
  | |- history_ok (if ?c then ?a else ?b) =>
      assert (Hk : history_ok b); [|destruct c; [|exact Hk]]
  end.
  - apply saveState_ok. exact Hs.
  - eapply same_history_ok; [|exact Hk]. frame.
Qed.

Lemma observer_same_history_bg cb v s :
  same_history s (fst (background_field_changed cb v s)).
Proof. unfold background_field_changed. frame. Qed.

Lemma observer_same_history_fg cb v s :
  same_history s (fst (foreground_field_changed cb v s)).
Proof. unfold foreground_field_changed. frame. Qed.

Lemma newForgeCanvas_ok cfg nu ns m col w a so cw ch :
  history_ok (newForgeCanvas browser cfg nu ns m col w a so cw ch).
Proof. unfold history_ok; simpl. split; [lia|congruence]. Qed.
End Frames.

Section GestureFrames.
Variable browser : Browser R.
Implicit Type s : ForgeCanvas R.

Lemma handleDraw_same_history event s :
  same_history s (handleDraw browser event s).
Proof.
  unfold handleDraw.
  destruct (canvasPoint (clientX event) (clientY event) s) as [x y].
  frame.
Qed.

Lemma handleErase_same_history event s :
  same_history s (handleErase browser event s).
Proof.
  unfold handleErase.
  destruct (canvasPoint (clientX event) (clientY event) s) as [x y].
  frame.
Qed.

Lemma pointerdown_same_history event s :
  same_history s (drawingCanvas_pointerdown browser event s).
Proof.
  unfold drawingCanvas_pointerdown.
  destruct (negb (truthy (img s)) || negb (button event =? 0)%Z
            || noScribbles (options s)); [frame|].
  destruct (currentTool s) eqn:Et; simpl; rewrite Et.
  - eapply same_history_trans; [|apply handleDraw_same_history].
    destruct (mask (options s)); frame.
  - eapply same_history_trans; [|apply handleErase_same_history]. frame.
Qed.

Lemma pointermove_same_history event s :
  same_history s (drawingCanvas_pointermove browser event s).
Proof.
  unfold drawingCanvas_pointermove.
  destruct (drawing (gesture s)); [|frame].
  destruct (currentTool s);
    [apply handleDraw_same_history | apply handleErase_same_history].
Qed.

Lemma pointerup_ok s :
  history_ok s -> history_ok (drawingCanvas_pointerup browser s).
Proof.
  intros Hs. unfold drawingCanvas_pointerup.
  destruct (drawing (gesture s)); [|exact Hs]. simpl.
  destruct (eraseChanged (gesture s)); [|exact Hs].
  eapply same_history_ok; [|apply saveState_ok].
  - unfold same_history; simpl; split; reflexivity.
  - exact Hs.
Qed.

Lemma pointerleave_ok s :
  history_ok s -> history_ok (drawingCanvas_pointerleave browser s).
Proof.
  intros Hs. unfold drawingCanvas_pointerleave.
  destruct (drawing (gesture s)); [|exact Hs]. simpl.
  destruct (eraseChanged (gesture s)); [|exact Hs].
  eapply same_history_ok; [|apply saveState_ok].
  - unfold same_history; simpl; split; reflexivity.
  - exact Hs.
Qed.

Lemma eraserButton_same_history s : same_history s (eraserButton_click s).
Proof. unfold eraserButton_click. frame. Qed.

Lemma step_ok cb e s : history_ok s -> history_ok (step browser cb e s).
Proof.
  intros Hs. destruct e; simpl.
  - eapply same_history_ok; [apply pointerdown_same_history|exact Hs].
  - eapply same_history_ok; [apply pointermove_same_history|exact Hs].
  - apply pointerup_ok, Hs.
  - apply pointerleave_ok, Hs.
  - eapply same_history_ok; [apply eraserButton_same_history|exact Hs].
  - eapply same_history_ok; [apply wheel_same_history|exact Hs].
  - unfold container_resized.
    eapply same_history_ok; [apply drawImage_same_history|].
    eapply same_history_ok; [apply adjust_same_history|]. exact Hs.
  - unfold centerButton_click.
    eapply same_history_ok; [apply drawImage_same_history|].
    eapply same_history_ok; [apply adjust_same_history|]. exact Hs.
  - apply resetImage_ok, Hs.
  - apply removeImage_ok, Hs.
  - apply undo_ok, Hs.
  - apply redo_ok, Hs.
  - unfold handleFileUpload. destruct (negb (noUpload (options s)));
      [apply uploadBase64_ok, Hs | exact Hs].
  - eapply same_history_ok; [apply observer_same_history_bg|exact Hs].
  - eapply same_history_ok; [apply observer_same_history_fg|exact Hs].
Qed.

Lemma reachable_ok cb s : reachable browser cb s -> history_ok s.
Proof.
  induction 1; [apply newForgeCanvas_ok | apply step_ok; assumption].
Qed.
End GestureFrames.

(** *** Undo and redo along a fixed history *)

Section UndoRedo.
Context {num : Type} `{JSNumber num}.
Variable browser : Browser num.
Implicit Type s : ForgeCanvas num.

Lemma restoreState_size s :
  same_size (overlay (restoreState browser s)) (overlay s).
Proof.
  destruct (index (history s) (historyIndex s)) as [d|] eqn:E.
  - rewrite restoreState_overlay with (d := d) by exact E.
    apply putImageData_keeps_size.
  - unfold restoreState. rewrite E. apply same_size_refl.
Qed.

Variables (H0 : list ImageData) (top : Z) (T : ImageData).
Hypothesis top_last : top = (Z.of_nat (List.length H0) - 1)%Z.
Hypothesis top_entry : index H0 top = Some T.

Lemma undo_follows s : follows H0 top T s -> follows H0 top T (undo browser s).
Proof.
  intros (Hh & Hi & Hsz & Ht). unfold follows.
  rewrite undo_history, undo_index.
  unfold undo. destruct (Z.ltb_spec 0 (historyIndex s)) as [Hlt|Hge].
  - split; [exact Hh|]. split; [lia|]. split; [|intros; lia].
    eapply same_size_trans; [apply restoreState_size|exact Hsz].
  - split; [exact Hh|]. split; [lia|]. split; assumption.
Qed.

Lemma redo_follows s : follows H0 top T s -> follows H0 top T (redo browser s).
Proof.
  intros (Hh & Hi & Hsz & Ht). unfold follows.
  rewrite redo_history, redo_index.
  unfold redo. rewrite Hh, <- top_last.
  destruct (Z.ltb_spec (historyIndex s) top) as [Hlt|Hge].
  - split; [reflexivity|]. split; [lia|]. split.
    + eapply same_size_trans; [apply restoreState_size|exact Hsz].
    + intros Htop.
      rewrite restoreState_overlay with (d := T).
      * apply putImageData_same_size. exact Hsz.
      * cbn [history historyIndex set_history]. rewrite Htop. exact top_entry.
  - split; [reflexivity|]. split; [lia|]. split; assumption.
Qed.

Lemma undo_iter_follows k s :
  follows H0 top T s ->
  follows H0 top T (Nat.iter k (undo browser) s) /\
  historyIndex (Nat.iter k (undo browser) s)
  = Z.max 0 (historyIndex s - Z.of_nat k).
Proof.
  intros Hs. induction k as [|k [IHf IHi]].
  - simpl. split; [exact Hs|]. destruct Hs as (_ & Hi & _). lia.
  - rewrite Nat.iter_succ. split; [apply undo_follows, IHf|].
    rewrite undo_index, IHi.
    destruct (Z.ltb_spec 0 (Z.max 0 (historyIndex s - Z.of_nat k))); lia.
Qed.

Lemma redo_iter_follows k s :
  follows H0 top T s ->
  follows H0 top T (Nat.iter k (redo browser) s) /\
  historyIndex (Nat.iter k (redo browser) s)
  = Z.min top (historyIndex s + Z.of_nat k).
Proof.
  intros Hs. induction k as [|k [IHf IHi]].
  - simpl. split; [exact Hs|]. destruct Hs as (_ & Hi & _). lia.
  - rewrite Nat.iter_succ. split; [apply redo_follows, IHf|].
    rewrite redo_index, IHi.
    destruct IHf as (Hh & _). rewrite Hh, <- top_last.
    destruct (Z.ltb_spec (Z.min top (historyIndex s + Z.of_nat k)) top); lia.
Qed.

Lemma undo_redo_follows k s :
  follows H0 top T s -> historyIndex s = top ->
  let s' := Nat.iter k (redo browser) (Nat.iter k (undo browser) s) in
  overlay s' = overlay s /\ history s' = history s /\
  historyIndex s' = historyIndex s.
Proof.
  intros Hs Htop s'.
  destruct (undo_iter_follows k Hs) as [Hu Hui].
  destruct (redo_iter_follows k Hu) as [Hr Hri].
  fold s' in Hr, Hri. rewrite Hui in Hri.
  assert (Hend : historyIndex s' = top).
  { rewrite Hri. destruct Hs as (_ & Hi & _). lia. }
  destruct Hr as (Hh & _ & _ & Ht), Hs as (Hh' & _ & _ & Ht').
  rewrite (Ht Hend), (Ht' Htop), Hh, Hh', Hend, Htop. auto.
Qed.
End UndoRedo.

(** Right after a snapshot, [k] undos followed by [k] redos give back the
    overlay, the history and the index. *)
Lemma undo_redo_after_snapshot {num} `{JSNumber num} (browser : Browser num)
    (s : ForgeCanvas num) (k : nat) :
  history_ok s ->
  let s1 := saveState browser s in
  let s2 := Nat.iter k (redo browser) (Nat.iter k (undo browser) s1) in
  overlay s2 = overlay s1 /\ history s2 = history s1 /\
  historyIndex s2 = historyIndex s1.
Proof.
  intros [Hr _] s1 s2.
  assert (Hlen : Z.of_nat (List.length (slice0 (history s) (historyIndex s + 1)))
                 = (historyIndex s + 1)%Z) by (apply slice0_length; lia).
  apply undo_redo_follows with (H0 := history s1) (top := historyIndex s1)
                              (T := overlay s1).
  - unfold s1. rewrite saveState_history, saveState_index, length_app,
      Nat2Z.inj_add, Hlen. simpl. lia.
  - unfold s1. rewrite saveState_history, saveState_index, saveState_overlay.
    remember (slice0 (history s) (historyIndex s + 1)) as kept.
    rewrite <- Hlen. apply index_last.
  - unfold follows. split; [reflexivity|]. split.
    + unfold s1. rewrite saveState_index. lia.
    + split; [apply same_size_refl | reflexivity].
  - reflexivity.
Qed.

(** C4 -- History is linear.  In every state [s] the widget can reach:
    right after a snapshot, [k] undos followed by [k] redos (for every [k])
    give back the overlay pixels, the history and the index; a snapshot
    keeps the entries up to the current index, drops those after it, appends
    the overlay and leaves nothing to redo; undo at index 0 and redo at the
    last index change nothing; and [0 <= historyIndex < history.length]
    whenever the history is not empty. *)
Theorem history_is_linear (browser : Browser R) (cb : option Handler)
    (s : ForgeCanvas R) :
  reachable browser cb s ->
  (forall k : nat,
      let s1 := saveState browser s in
      let s2 := Nat.iter k (redo browser) (Nat.iter k (undo browser) s1) in
      overlay s2 = overlay s1 /\ history s2 = history s1 /\
      historyIndex s2 = historyIndex s1) /\
  (history (saveState browser s)
   = firstn (Z.to_nat (historyIndex s + 1)) (history s) ++ [overlay s] /\
   historyIndex (saveState browser s) = (historyIndex s + 1)%Z /\
   Z.of_nat (List.length (history (saveState browser s)))
   = (historyIndex s + 2)%Z /\
   redo browser (saveState browser s) = saveState browser s) /\
  (historyIndex s = 0%Z -> undo browser s = s) /\
  (historyIndex s = (Z.of_nat (List.length (history s)) - 1)%Z ->
   redo browser s = s) /\
  (history s <> [] ->
   (0 <= historyIndex s < Z.of_nat (List.length (history s)))%Z).
Proof.
  intros Hreach. pose proof (reachable_ok Hreach) as Hok.
  destruct Hok as [Hr Hn].
  assert (Hslice : slice0 (history s) (historyIndex s + 1)
                   = firstn (Z.to_nat (historyIndex s + 1)) (history s)).
  { unfold slice0. destruct (Z.ltb_spec (historyIndex s + 1) 0); [lia|].
    rewrite Z.min_l by lia. reflexivity. }
  assert (Hlen : Z.of_nat (List.length (history (saveState browser s)))
                 = (historyIndex s + 2)%Z).
  { rewrite saveState_history, length_app, Nat2Z.inj_add,
      slice0_length by lia. simpl. lia. }
  split; [|split; [|split; [|split]]].
  - intros k. apply undo_redo_after_snapshot. split; assumption.
  - split; [rewrite saveState_history, Hslice; reflexivity|].
    split; [apply saveState_index|]. split; [exact Hlen|].
    unfold redo. rewrite Hlen, saveState_index.
    destruct (Z.ltb_spec (historyIndex s + 1) (historyIndex s + 2 - 1));
      [lia|reflexivity].
  - intros H0. unfold undo. rewrite H0. reflexivity.
  - intros Hl. unfold redo. rewrite Hl, Z.ltb_irrefl. reflexivity.
  - intros Hne. specialize (Hn Hne). lia.
Qed.

Lemma history_is_linear_witness :
  let browser := floodBrowser R in
  let s := step browser None UndoClick
             (step browser None ResetClick
                (step browser None
                   (Upload "data:image/png;base64,iVBORw0KGgo="
                      (Some tinyImage))
                   (newForgeCanvas browser (Some {| version := "4.40.0" |})
                      false false false "#000000" 4%R 100%R 0%R 400 400))) in
  (forall k : nat,
      let s1 := saveState browser s in
      let s2 := Nat.iter k (redo browser) (Nat.iter k (undo browser) s1) in
      overlay s2 = overlay s1 /\ history s2 = history s1 /\
      historyIndex s2 = historyIndex s1) /\
  (history (saveState browser s)
   = firstn (Z.to_nat (historyIndex s + 1)) (history s) ++ [overlay s] /\
   historyIndex (saveState browser s) = (historyIndex s + 1)%Z /\
   Z.of_nat (List.length (history (saveState browser s)))
   = (historyIndex s + 2)%Z /\
   redo browser (saveState browser s) = saveState browser s) /\
  (historyIndex s = 0%Z -> undo browser s = s) /\
  (historyIndex s = (Z.of_nat (List.length (history s)) - 1)%Z ->
   redo browser s = s) /\
  (history s <> [] ->
   (0 <= historyIndex s < Z.of_nat (List.length (history s)))%Z).
Proof.
  intros browser s.
  apply (@history_is_linear browser None s).
  unfold s. repeat apply reachable_step. apply reachable_new.
Defined.

(** ** The binding channel *)

Lemma setValue_locked (p : Publish) (b : GradioTextAreaBind) :
  syncLock b = true -> setValue p b = b.
Proof. intros Hl. destruct p; simpl. rewrite Hl. reflexivity. Qed.

Lemma dispatch_locked (ps : list Publish) (b : GradioTextAreaBind) :
  syncLock b = true -> fold_left (fun acc q => setValue q acc) ps b = b.
Proof.
  intros Hl. induction ps as [|p ps IH]; simpl; [reflexivity|].
  rewrite setValue_locked by exact Hl. exact IH.
Qed.

Lemma setValue_unlocked (v : string) (ps : list Publish)
    (b : GradioTextAreaBind) :
  syncLock b = false ->
  setValue (publish v ps) b
  = {| target_value := v; syncLock := false; previousValue := v;
       written := written b ++ [v] |}.
Proof.
  intros Hl. simpl. rewrite Hl, dispatch_locked by reflexivity. reflexivity.
Qed.

Lemma observer_reports_change (cb : option Handler) (b : GradioTextAreaBind)
    (x : string) :
  attempted (observerCallback cb b) = Some x ->
  x = target_value b /\ x <> previousValue b /\ syncLock b = false.
Proof.
  unfold observerCallback.
  destruct (String.eqb_spec (target_value b) (previousValue b)) as [E|E];
    simpl; [discriminate|].
  destruct (syncLock b); simpl; [discriminate|].
  destruct cb; simpl; intros [= <-]; auto.
Qed.

(** C8 -- The channel never echoes its own writes.  Whatever the state [b]
    of the channel, the value [v] published and the writes that listeners
    attempt during the dispatch: after [setValue(v)] the observer reports
    nothing for the field as it stands, and whatever the host then writes
    into the field the observer never reports [v]; a [setValue] made while
    [syncLock] is held changes nothing (it is dropped, there is no queue);
    and one call assigns the field at most once, exactly once when the
    lock is free. *)
Theorem setValue_never_echoes (cb : option Handler) (b : GradioTextAreaBind)
    (v : string) (during_dispatch : list Publish) :
  let b' := setValue (publish v during_dispatch) b in
  attempted (observerCallback cb b') = None /\
  (forall w x : string,
      attempted (observerCallback cb (externalWrite w b')) = Some x ->
      x <> v) /\
  (syncLock b = true -> b' = b) /\
  (syncLock b = false ->
   written b' = written b ++ [v] /\ target_value b' = v /\
   syncLock b' = false) /\
  (List.length (written b') <= S (List.length (written b)))%nat.
Proof.
  intros b'. destruct (syncLock b) eqn:Hl.
  - assert (Hb : b' = b) by (apply setValue_locked, Hl).
    rewrite Hb. repeat split; try discriminate; auto.
    + destruct (attempted (observerCallback cb b)) eqn:E; [|reflexivity].
      apply observer_reports_change in E. destruct E as (_ & _ & E).
      congruence.
    + intros w x E. apply observer_reports_change in E.
      destruct E as (_ & _ & E). simpl in E. congruence.
  - assert (Hb : b' = {| target_value := v; syncLock := false;
                         previousValue := v; written := written b ++ [v] |})
      by (apply setValue_unlocked, Hl).
    rewrite Hb. repeat split; try discriminate; simpl; auto.
    + unfold observerCallback; simpl. rewrite String.eqb_refl. reflexivity.
    + intros w x E. apply observer_reports_change in E.
      destruct E as (_ & E & _). exact E.
    + rewrite length_app. simpl. lia.
Qed.

(** C3 (evaluation of the code) -- A fresh widget in a Gradio 4 page whose
    background field receives a PNG data URI, and one whose foreground
    field does.  The observer detects the change and calls [callback],
    which is not bound: the call throws, no image is adopted, no snapshot
    is taken, and [syncLock] stays held so that the next [setValue] is
    dropped.  The callbacks handed to [listen] would have adopted the
    image and taken a snapshot. *)
Lemma field_change_reaches_no_callback :
  let browser := floodBrowser R in
  let s := newForgeCanvas browser (Some {| version := "4.40.0" |})
             false false false "#000000" 4%R 100%R 0%R 400 400 in
  let v := "data:image/png;base64,iVBORw0KGgo=" in
  let image := {| naturalWidth := 2; naturalHeight := 1;
                  decodedPixels := [[(255, 0, 0, 255); (0, 0, 0, 0)]]%Z |} in
  let stuck := {| target_value := v; syncLock := true; previousValue := v;
                  written := [] |} in
  background_field_changed None v s
  = (set_backgroundGradioBind stuck s, ThrowReferenceError "callback") /\
  foreground_field_changed None v s
  = (set_foregroundGradioBind stuck s, ThrowReferenceError "callback") /\
  img (fst (background_field_changed None v s)) = None /\
  history (fst (foreground_field_changed None v s)) = [] /\
  setValue (publish "" []) stuck = stuck /\
  img (uploadBase64 browser v (Some image) s) = Some v /\
  List.length (history (uploadBase64DrawingCanvas browser v (Some image) s))
  = 1%nat.
Proof. cbv zeta. repeat split. Qed.

(** The callback handed to [listen] has no influence on the channel. *)
Lemma listen_forgets {C : Type} (callback1 callback2 : C)
    (b : GradioTextAreaBind) :
  listen callback1 b = b /\ listen callback1 b = listen callback2 b.
Proof. split; reflexivity. Qed.

(** ** [uploadBase64] outside Gradio 4 *)

(** C10 -- With a non-empty payload, if [gradio_config] was absent when the
    widget was constructed or its version does not start with ['4'],
    [uploadBase64] returns the state it was given: image, dimensions,
    overlay, history and both bound fields are untouched, whatever the
    decoder answers. *)
Theorem uploadBase64_needs_gradio4 {num} `{JSNumber num}
    (browser : Browser num) (s : ForgeCanvas num) (base64Data : string)
    (loaded : option Decoded) :
  base64Data <> "" ->
  (gradioConfig (options s) = None \/
   exists cfg, gradioConfig (options s) = Some cfg /\
               String.prefix "4" (version cfg) = false) ->
  uploadBase64 browser base64Data loaded s = s.
Proof.
  intros _ [Hc | (cfg & Hc & Hv)]; unfold uploadBase64; rewrite Hc.
  - reflexivity.
  - rewrite Hv. reflexivity.
Qed.

Lemma uploadBase64_needs_gradio4_witness :
  let browser := floodBrowser PrimFloat.float in
  let s := newForgeCanvas browser (Some {| version := "3.41.2" |})
             false false false "#000000" (lit 4) (lit 100) (lit 0) 400 400 in
  let image := {| naturalWidth := 2; naturalHeight := 1;
                  decodedPixels := [[(255, 0, 0, 255); (0, 0, 0, 0)]]%Z |} in
  uploadBase64 browser "data:image/png;base64,iVBORw0KGgo=" (Some image) s = s.
Proof.
  intros browser s image.
  apply (@uploadBase64_needs_gradio4 _ _ browser s).
  - discriminate.
  - right. exists {| version := "3.41.2" |}. split; reflexivity.
Defined.

(** ** Gestures and snapshots *)

Section Gestures.
Variable browser : Browser R.
Implicit Type s : ForgeCanvas R.

Lemma untouched_trans s1 s2 s3 :
  untouched s1 s2 -> untouched s2 s3 -> untouched s1 s3.
Proof.
  unfold untouched, same_history. intuition congruence.
Qed.

Lemma handleDraw_untouched event s :
  untouched s (handleDraw browser event s) /\
  eraseChanged (gesture (handleDraw browser event s))
  = eraseChanged (gesture s) /\
  drawing (gesture (handleDraw browser event s)) = drawing (gesture s).
Proof.
  unfold handleDraw, untouched.
  destruct (canvasPoint (clientX event) (clientY event) s) as [x y].
  frame; repeat split; auto.
Qed.

Lemma handleErase_untouched event s :
  untouched s (handleErase browser event s) /\
  eraseChanged (gesture (handleErase browser event s)) = true /\
  drawing (gesture (handleErase browser event s)) = drawing (gesture s).
Proof.
  unfold handleErase, untouched.
  destruct (canvasPoint (clientX event) (clientY event) s) as [x y].
  frame; repeat split; auto.
Qed.

Lemma brush_moves_untouched (moves : list PointerEvent) s :
  currentTool s = brush_tool ->
  let s' := fold_left (fun acc e => drawingCanvas_pointermove browser e acc)
              moves s in
  untouched s s' /\
  eraseChanged (gesture s') = eraseChanged (gesture s) /\
  drawing (gesture s') = drawing (gesture s).
Proof.
  revert s. induction moves as [|e moves IH]; intros s Ht; simpl.
  - unfold untouched, same_history. repeat split; reflexivity.
  - assert (Hm : untouched s (drawingCanvas_pointermove browser e s) /\
                 eraseChanged (gesture (drawingCanvas_pointermove browser e s))
                 = eraseChanged (gesture s) /\
                 drawing (gesture (drawingCanvas_pointermove browser e s))
                 = drawing (gesture s)).
    { unfold drawingCanvas_pointermove.
      destruct (drawing (gesture s)) eqn:Hdr.
      - rewrite Ht, <- Hdr. apply handleDraw_untouched.
      - unfold untouched, same_history. repeat split; auto. }
    destruct Hm as (Hu & He & Hd).
    assert (Ht' : currentTool (drawingCanvas_pointermove browser e s)
                  = brush_tool).
    { destruct Hu as (_ & _ & _ & -> & _). exact Ht. }
    destruct (IH _ Ht') as (Hu' & He' & Hd').
    split; [eapply untouched_trans; eassumption|].
    split; congruence.
Qed.

(** A brush gesture -- pointer down, any number of moves, pointer up or
    pointer leave -- ends without a snapshot: the history, the index and
    the foreground field are those from before the gesture. *)
Lemma brush_gesture_skips_saveState (down : PointerEvent)
    (moves : list PointerEvent) s :
  currentTool s = brush_tool ->
  eraseChanged (gesture s) = false ->
  let s1 := fold_left (fun acc e => drawingCanvas_pointermove browser e acc)
              moves (drawingCanvas_pointerdown browser down s) in
  untouched s (drawingCanvas_pointerup browser s1) /\
  untouched s (drawingCanvas_pointerleave browser s1).
Proof.
  intros Ht He s1.
  assert (Hd : untouched s (drawingCanvas_pointerdown browser down s) /\
               eraseChanged (gesture (drawingCanvas_pointerdown browser down s))
               = false).
  { unfold drawingCanvas_pointerdown.
    destruct (negb (truthy (img s)) || negb (button down =? 0)%Z
              || noScribbles (options s)).
    - unfold untouched, same_history. repeat split; auto.
    - simpl. rewrite Ht.
      match goal with
      | |- context [handleDraw browser down ?a] =>
          destruct (handleDraw_untouched down a) as (Hu & Hc & _);
          assert (Ha : untouched s a /\ eraseChanged (gesture a) = false)
      end.
      { destruct (mask (options s)); unfold untouched, same_history;
          simpl; repeat split; auto. }
      destruct Ha as [Ha1 Ha2].
      split; [eapply untouched_trans; eassumption | congruence]. }
  destruct Hd as [Hd1 Hd2].
  assert (Ht1 : currentTool (drawingCanvas_pointerdown browser down s)
                = brush_tool).
  { destruct Hd1 as (_ & _ & _ & -> & _). exact Ht. }
  destruct (brush_moves_untouched moves _ Ht1) as (Hm & Hme & _).
  fold s1 in Hm, Hme.
  assert (Hs1 : untouched s s1) by (eapply untouched_trans; eassumption).
  assert (He1 : eraseChanged (gesture s1) = false) by congruence.
  split.
  - eapply untouched_trans; [exact Hs1|].
    unfold drawingCanvas_pointerup.
    destruct (drawing (gesture s1)); simpl; [rewrite He1|];
      unfold untouched, same_history; repeat split; auto.
  - eapply untouched_trans; [exact Hs1|].
    unfold drawingCanvas_pointerleave.
    destruct (drawing (gesture s1)); simpl; [rewrite He1|];
      unfold untouched, same_history; repeat split; auto.
Qed.

(** The overlay after [handleDraw] with a hard brush of positive opacity:
    one stroke over the surface saved at pointer down. *)
Lemma handleDraw_hard event s (background : ImageData) :
  tempDrawBackground (gesture s) = Some background ->
  mask (options s) = false ->
  (0 < scribbleAlpha (brush s))%R ->
  (scribbleSoftness (brush s) <= 0)%R ->
  exists c : Context2D R,
    overlay (handleDraw browser event s)
    = stroke browser c
        (tempDrawPoints (gesture s)
         ++ [canvasPoint (clientX event) (clientY event) s])
        (putImageData background (overlay s)) /\
    globalAlpha c = (scribbleAlpha (brush s) / 100)%R /\
    lineWidth c
    = (scribbleWidth (brush s) / imgScale (view s) * 20)%R /\
    globalCompositeOperation c = source_over /\
    strokeStyle c = Color (scribbleColor (brush s)).
Proof.
  intros Hb Hm Ha Hs. unfold handleDraw.
  destruct (canvasPoint (clientX event) (clientY event) s) as [x y].
  rewrite Hb. simpl. rewrite Hm.
  destruct (Rle_dec (scribbleAlpha (brush s)) 0) as [Hle|_]; [lra|].
  destruct (Rle_dec (scribbleSoftness (brush s)) 0) as [_|Hgt]; [|lra].
  eexists. split; [reflexivity|]. simpl. auto.
Qed.

(** An erase gesture that starts on a loaded image ends with a snapshot. *)
Lemma erase_gesture_calls_saveState (down : PointerEvent) s :
  currentTool s = eraser_tool ->
  truthy (img s) = true -> button down = 0%Z ->
  noScribbles (options s) = false ->
  let s1 := drawingCanvas_pointerdown browser down s in
  let s2 := drawingCanvas_pointerup browser s1 in
  history s2
  = slice0 (history s) (historyIndex s + 1) ++ [overlay s1] /\
  historyIndex s2 = (historyIndex s + 1)%Z /\
  overlay s2 = overlay s1.
Proof.
  intros Ht Hi Hb Hn s1 s2.
  assert (Hs1 : s1 = handleErase browser down
                       (set_gesture
                          {| drawing := true;
                             tempDrawPoints :=
                               [canvasPoint (clientX down) (clientY down) s];
                             tempDrawBackground := Some (overlay s);
                             lastErasePoint := lastErasePoint (gesture s);
                             eraseChanged := eraseChanged (gesture s) |} s)).
  { unfold s1, drawingCanvas_pointerdown. rewrite Hi, Hb, Hn. simpl.
    rewrite Ht. reflexivity. }
  match type of Hs1 with
  | _ = handleErase _ _ ?a =>
      destruct (handleErase_untouched down a) as (Hu & Hc & Hd)
  end.
  rewrite <- Hs1 in Hu, Hc, Hd. simpl in Hd.
  destruct Hu as ((Hh & Hx) & _). simpl in Hh, Hx.
  unfold s2, drawingCanvas_pointerup. rewrite Hd. simpl. rewrite Hc.
  cbn [history historyIndex set_gesture overlay dom bitmap drawingCanvas].
  match goal with
  | |- context [saveState browser ?a] =>
      pose proof (saveState_history browser a) as Sh;
      pose proof (saveState_index browser a) as Si;
      pose proof (saveState_overlay browser a) as So
  end.
  simpl in Sh, Si, So. unfold overlay in *. simpl in *.
  rewrite Sh, Si, So, Hh, Hx. auto.
Qed.
End Gestures.

Lemma eraserButton_click_plain (s : ForgeCanvas R) :
  mask (options s) = false ->
  eraserButton_click s
  = set_currentTool
      (match currentTool s with
       | eraser_tool => brush_tool
       | brush_tool => eraser_tool
       end) s.
Proof.
  intros Hm. unfold eraserButton_click. state_simpl. rewrite Hm.
  reflexivity.
Qed.

Lemma pointerdown_brush (browser : Browser R) (down : PointerEvent)
    (s : ForgeCanvas R) :
  truthy (img s) = true -> button down = 0%Z ->
  noScribbles (options s) = false ->
  currentTool s = brush_tool -> mask (options s) = false ->
  drawingCanvas_pointerdown browser down s
  = handleDraw browser down
      (set_gesture
         {| drawing := true;
            tempDrawPoints := [canvasPoint (clientX down) (clientY down) s];
            tempDrawBackground := Some (overlay s);
            lastErasePoint := lastErasePoint (gesture s);
            eraseChanged := eraseChanged (gesture s) |} s).
Proof.
  intros Hi Hb Hn Ht Hm. unfold drawingCanvas_pointerdown.
  rewrite Hi, Hb, Hn. cbn [negb orb Z.eqb]. state_simpl.
  rewrite Ht, Hm. reflexivity.
Qed.

Lemma handleDraw_keeps_background (browser : Browser R) event
    (s : ForgeCanvas R) :
  tempDrawBackground (gesture (handleDraw browser event s))
  = tempDrawBackground (gesture s) /\
  view (handleDraw browser event s) = view s.
Proof.
  unfold handleDraw.
  destruct (canvasPoint (clientX event) (clientY event) s) as [x y].
  state_simpl. split_ifs; state_simpl; auto.
Qed.

Lemma pointerup_quiet (browser : Browser R) (s : ForgeCanvas R) :
  eraseChanged (gesture s) = false ->
  overlay (drawingCanvas_pointerup browser s) = overlay s /\
  overlay (drawingCanvas_pointerleave browser s) = overlay s.
Proof.
  intros He. unfold drawingCanvas_pointerup, drawingCanvas_pointerleave.
  cbv zeta. destruct (drawing (gesture s)); [|split; reflexivity].
  cbn [gesture set_gesture eraseChanged]. rewrite He. split; reflexivity.
Qed.

(** What [handleDraw] leaves on the drawing canvas with a hard brush of
    positive opacity, and what it keeps. *)
Lemma handleDraw_hard_canvas (browser : Browser R) event (s : ForgeCanvas R)
    (background : ImageData) :
  tempDrawBackground (gesture s) = Some background ->
  mask (options s) = false ->
  (0 < scribbleAlpha (brush s))%R ->
  (scribbleSoftness (brush s) <= 0)%R ->
  let c := set_globalAlpha (scribbleAlpha (brush s) / 100)%R
             (set_globalCompositeOperation source_over
                (set_strokeStyle (Color (scribbleColor (brush s)))
                   (set_lineWidth
                      (scribbleWidth (brush s) / imgScale (view s) * 20)%R
                      (set_round (context (drawingCanvas (dom s))))))) in
  drawingCanvas (dom (handleDraw browser event s))
  = Build_Canvas
      (stroke browser c
         (tempDrawPoints (gesture s)
          ++ [canvasPoint (clientX event) (clientY event) s])
         (putImageData background (overlay s))) c.
Proof.
  intros Hb Hm Ha Hs c. unfold handleDraw.
  destruct (canvasPoint (clientX event) (clientY event) s) as [x y].
  rewrite Hb. state_simpl. rewrite Hm.
  destruct (Rle_dec (scribbleAlpha (brush s)) 0) as [Hle|_]; [lra|].
  destruct (Rle_dec (scribbleSoftness (brush s)) 0) as [_|Hgt]; [|lra].
  reflexivity.
Qed.

Lemma handleDraw_points (browser : Browser R) event (s : ForgeCanvas R)
    (background : ImageData) :
  tempDrawBackground (gesture s) = Some background ->
  tempDrawPoints (gesture (handleDraw browser event s))
  = tempDrawPoints (gesture s)
    ++ [canvasPoint (clientX event) (clientY event) s] /\
  canvasStyle (dom (handleDraw browser event s)) = canvasStyle (dom s).
Proof.
  intros Hb. unfold handleDraw.
  destruct (canvasPoint (clientX event) (clientY event) s) as [x y].
  rewrite Hb. state_simpl. split_ifs; state_simpl; auto.
Qed.

(** C1 (evaluation of the code) -- A brush stroke changes the overlay and
    takes no snapshot.  On a loaded image, outside mask mode, with a hard
    brush of positive line width and an opacity above 0 and up to 100:
    pointer down, one move and pointer up leave
    on the overlay what the browser strokes along the path through the
    canvas points of the press (twice) and of the move, with the line
    width [scribbleWidth / imgScale * 20], over the surface saved at
    pointer down; yet the history, the index and the foreground field are
    those from before the gesture, so that whenever the stroke changes a
    pixel the overlay differs from the entry the history holds for it.
    The [pointerup] listener saves only when [eraseChanged] is set, and
    only [handleErase] sets it: the same press with the eraser appends a
    snapshot. *)
Theorem brush_stroke_takes_no_snapshot (browser : Browser R)
    (s0 : ForgeCanvas R) (down move : PointerEvent) :
  truthy (img s0) = true -> button down = 0%Z ->
  noScribbles (options s0) = false -> mask (options s0) = false ->
  currentTool s0 = brush_tool -> eraseChanged (gesture s0) = false ->
  (0 < scribbleAlpha (brush s0) <= 100)%R ->
  (scribbleSoftness (brush s0) <= 0)%R ->
  (0 < scribbleWidth (brush s0) / imgScale (view s0) * 20)%R ->
  let p0 := canvasPoint (clientX down) (clientY down) s0 in
  let p1 := canvasPoint (clientX move) (clientY move) s0 in
  let c := set_globalAlpha (scribbleAlpha (brush s0) / 100)%R
             (set_globalCompositeOperation source_over
                (set_strokeStyle (Color (scribbleColor (brush s0)))
                   (set_lineWidth
                      (scribbleWidth (brush s0) / imgScale (view s0) * 20)%R
                      (set_round (context (drawingCanvas (dom s0))))))) in
  let first := stroke browser c [p0; p0] (overlay s0) in
  let painted := stroke browser c [p0; p0; p1]
                   (putImageData (overlay s0) first) in
  let s1 := run browser None [PointerDown down; PointerMove move; PointerUp]
              s0 in
  let s2 := run browser None [EraserClick; PointerDown down; PointerUp] s0 in
  overlay s1 = painted /\
  history s1 = history s0 /\ historyIndex s1 = historyIndex s0 /\
  foregroundGradioBind s1 = foregroundGradioBind s0 /\
  (painted <> overlay s0 -> overlay s1 <> overlay s0) /\
  (forall entry, index (history s0) (historyIndex s0) = Some entry ->
                 painted <> entry ->
                 index (history s1) (historyIndex s1) <> Some (overlay s1)) /\
  history s2 = slice0 (history s0) (historyIndex s0 + 1) ++ [overlay s2] /\
  historyIndex s2 = (historyIndex s0 + 1)%Z.
Proof.
  intros Himg Hbtn Hnos Hmask Ht0 He0 [Halpha _] Hsoft _ p0 p1 c first
    painted s1 s2.
  assert (E1 : s1 = drawingCanvas_pointerup browser
                      (drawingCanvas_pointermove browser move
                         (drawingCanvas_pointerdown browser down s0)))
    by reflexivity.
  assert (E2 : s2 = drawingCanvas_pointerup browser
                      (drawingCanvas_pointerdown browser down
                         (eraserButton_click s0)))
    by reflexivity.
  clearbody s1 s2.
  destruct (brush_gesture_skips_saveState browser down [move] s0 Ht0 He0)
    as [((Hh & Hx) & Hf & _) _].
  cbn [fold_left] in Hh, Hx, Hf. rewrite <- E1 in Hh, Hx, Hf.
  assert (Hov : overlay s1 = painted).
  { rewrite E1.
    rewrite (pointerdown_brush browser down s0 Himg Hbtn Hnos Ht0 Hmask).
    remember (set_gesture
                {| drawing := true;
                   tempDrawPoints :=
                     [canvasPoint (clientX down) (clientY down) s0];
                   tempDrawBackground := Some (overlay s0);
                   lastErasePoint := lastErasePoint (gesture s0);
                   eraseChanged := eraseChanged (gesture s0) |} s0)
      as sB eqn:EB.
    assert (B1 : options sB = options s0) by (rewrite EB; reflexivity).
    assert (B2 : brush sB = brush s0) by (rewrite EB; reflexivity).
    assert (B3 : currentTool sB = currentTool s0)
      by (rewrite EB; reflexivity).
    assert (B4 : tempDrawBackground (gesture sB) = Some (overlay s0))
      by (rewrite EB; reflexivity).
    assert (B5 : drawing (gesture sB) = true) by (rewrite EB; reflexivity).
    assert (B6 : eraseChanged (gesture sB) = eraseChanged (gesture s0))
      by (rewrite EB; reflexivity).
    assert (B7 : drawingCanvas (dom sB) = drawingCanvas (dom s0))
      by (rewrite EB; reflexivity).
    assert (B8 : view sB = view s0) by (rewrite EB; reflexivity).
    assert (B9 : tempDrawPoints (gesture sB) = [p0])
      by (rewrite EB; reflexivity).
    assert (B10 : canvasStyle (dom sB) = canvasStyle (dom s0))
      by (rewrite EB; reflexivity).
    clear EB.
    assert (Hpt : forall x y (a b : ForgeCanvas R),
               view a = view b -> canvasStyle (dom a) = canvasStyle (dom b) ->
               canvasPoint x y a = canvasPoint x y b).
    { intros x y a b Ev Ec. unfold canvasPoint. rewrite Ev, Ec. reflexivity. }
    destruct (handleDraw_untouched browser down sB)
      as ((_ & _ & _ & HtA & _ & HoA & HbA) & HeA & HdA).
    destruct (handleDraw_keeps_background browser down sB) as [HgA HvA].
    destruct (handleDraw_points browser down sB B4) as [HpA HcA].
    assert (HcvA : drawingCanvas (dom (handleDraw browser down sB))
                   = Build_Canvas first c).
    { assert (MB : mask (options sB) = false) by (rewrite B1; exact Hmask).
      assert (AB : (0 < scribbleAlpha (brush sB))%R)
        by (rewrite B2; exact Halpha).
      assert (SB : (scribbleSoftness (brush sB) <= 0)%R)
        by (rewrite B2; exact Hsoft).
      rewrite (@handleDraw_hard_canvas browser down sB (overlay s0)
                 B4 MB AB SB).
      unfold overlay. rewrite B2, B7, B8, B9.
      rewrite (Hpt _ _ sB s0 B8 B10).
      rewrite putImageData_same_size by apply same_size_refl.
      reflexivity. }
    rewrite B9, (Hpt _ _ sB s0 B8 B10) in HpA. fold p0 in HpA.
    remember (handleDraw browser down sB) as sA eqn:EA. clear EA.
    assert (HsM : drawingCanvas_pointermove browser move sA
                  = handleDraw browser move sA).
    { unfold drawingCanvas_pointermove.
      rewrite HdA, B5, HtA, B3, Ht0. reflexivity. }
    rewrite HsM.
    assert (HvA0 : view sA = view s0) by congruence.
    assert (HcA0 : canvasStyle (dom sA) = canvasStyle (dom s0))
      by congruence.
    assert (HgA0 : tempDrawBackground (gesture sA) = Some (overlay s0))
      by congruence.
    assert (HcvM : drawingCanvas (dom (handleDraw browser move sA))
                   = Build_Canvas painted c).
    { assert (MA : mask (options sA) = false)
        by (rewrite HoA, B1; exact Hmask).
      assert (AA : (0 < scribbleAlpha (brush sA))%R)
        by (rewrite HbA, B2; exact Halpha).
      assert (SA : (scribbleSoftness (brush sA) <= 0)%R)
        by (rewrite HbA, B2; exact Hsoft).
      rewrite (@handleDraw_hard_canvas browser move sA (overlay s0)
                 HgA0 MA AA SA).
      unfold overlay. rewrite HbA, B2, HcvA, HvA0, HpA.
      rewrite (Hpt _ _ sA s0 HvA0 HcA0). reflexivity. }
    destruct (handleDraw_untouched browser move sA) as (_ & HeM & _).
    remember (handleDraw browser move sA) as sM eqn:EM. clear EM.
    assert (Hq : eraseChanged (gesture sM) = false)
      by (rewrite HeM, HeA, B6; exact He0).
    rewrite (proj1 (pointerup_quiet browser sM Hq)).
    unfold overlay. rewrite HcvM. reflexivity. }
  split; [exact Hov|]. split; [exact Hh|]. split; [exact Hx|].
  split; [exact Hf|].
  split; [intros Hne; rewrite Hov; exact Hne|].
  split.
  { intros entry Hentry Hne. rewrite Hh, Hx, Hentry, Hov.
    intros Habs. injection Habs as Habs. apply Hne. symmetry. exact Habs. }
  rewrite E2, eraserButton_click_plain, Ht0 by exact Hmask.
  destruct (@erase_gesture_calls_saveState browser down
              (set_currentTool eraser_tool s0)) as (Ea & Eb & Ec);
    [reflexivity | exact Himg | exact Hbtn | exact Hnos |].
  rewrite Ea, Eb, Ec. split; reflexivity.
Qed.

(** ** The view transform *)

Lemma Rmin_scale_bound (a b w : R) :
  (0 < w)%R -> (w * Rmin (a / w) b <= a)%R.
Proof.
  intros Hw. pose proof (Rmin_l (a / w) b) as Hl.
  apply Rmult_le_compat_l with (r := w) in Hl; [|lra].
  replace (w * (a / w))%R with a in Hl by (field; lra). exact Hl.
Qed.

(** The transform after a fit depends on the sizes of the container and
    of the image only. *)
Lemma adjust_ignores_view {num} `{JSNumber num} (s : ForgeCanvas num)
    (v : Transform num) :
  view (adjustInitialPositionAndScale (set_view v s))
  = view (adjustInitialPositionAndScale s).
Proof. reflexivity. Qed.

Lemma drawImage_view {num} `{JSNumber num} (s : ForgeCanvas num) :
  view (drawImage s) = view s /\
  originalWidth (drawImage s) = originalWidth s /\
  originalHeight (drawImage s) = originalHeight s /\
  clientWidth (dom (drawImage s)) = clientWidth (dom s) /\
  clientHeight (dom (drawImage s)) = clientHeight (dom s).
Proof. unfold drawImage. split_ifs; repeat split; reflexivity. Qed.

Lemma onImageUpload_view {num} `{JSNumber num} (browser : Browser num)
    (s : ForgeCanvas num) :
  view (onImageUpload browser s) = view s.
Proof. unfold onImageUpload. split_ifs; reflexivity. Qed.

Lemma onDrawingCanvasUpload_view {num} `{JSNumber num} (browser : Browser num)
    (s : ForgeCanvas num) :
  view (onDrawingCanvasUpload browser s) = view s.
Proof. unfold onDrawingCanvasUpload. split_ifs; reflexivity. Qed.

Lemma saveState_view {num} `{JSNumber num} (browser : Browser num)
    (s : ForgeCanvas num) :
  view (saveState browser s) = view s.
Proof. unfold saveState. rewrite onDrawingCanvasUpload_view. reflexivity. Qed.

Lemma adjust_view_ext {num} `{JSNumber num} (s1 s2 : ForgeCanvas num) :
  clientWidth (dom s1) = clientWidth (dom s2) ->
  clientHeight (dom s1) = clientHeight (dom s2) ->
  originalWidth s1 = originalWidth s2 ->
  originalHeight s1 = originalHeight s2 ->
  view (adjustInitialPositionAndScale s1)
  = view (adjustInitialPositionAndScale s2).
Proof.
  intros E1 E2 E3 E4. unfold adjustInitialPositionAndScale.
  cbn [view set_view]. rewrite E1, E2, E3, E4. reflexivity.
Qed.

Lemma view_set_dom {num} (d : Dom num) (s : ForgeCanvas num) :
  view (set_dom d s) = view s.
Proof. reflexivity. Qed.

(** The transform after an image was adopted is the fit of its natural
    size into the container. *)
Lemma uploadBase64_onload_view {num} `{JSNumber num} (browser : Browser num)
    (base64Data : string) (image : Decoded) (s : ForgeCanvas num) :
  view (uploadBase64_onload browser base64Data image s)
  = view (adjustInitialPositionAndScale
            (set_original (lit (naturalWidth image))
               (lit (naturalHeight image)) s)).
Proof.
  unfold uploadBase64_onload. cbv zeta.
  rewrite view_set_dom, saveState_view, onImageUpload_view.
  rewrite (proj1 (drawImage_view _)).
  match goal with
  | |- context [if ?c then _ else _] => destruct c
  end; apply adjust_view_ext; reflexivity.
Qed.

(** The fit of a 200x100 image into a 400x400 container. *)
Lemma fit_200x100_in_400x400 (s : ForgeCanvas R) :
  originalWidth s = 200%R -> originalHeight s = 100%R ->
  clientWidth (dom s) = 400%Z -> clientHeight (dom s) = 400%Z ->
  let v := view (adjustInitialPositionAndScale s) in
  (imgScale v = 19 / 10 /\ imgX v = 10 /\ imgY v = 105)%R.
Proof.
  intros Ew Eh Ecw Ech v.
  assert (Es : imgScale v = (19 / 10)%R).
  { unfold v, adjustInitialPositionAndScale. cbn [view set_view imgScale].
    rewrite Ew, Eh, Ecw, Ech. cbn [lit sub div Math_min RNumber].
    unfold Rmin. destruct (Rle_dec _ _); lra. }
  split; [exact Es|].
  assert (Hx : imgX v = ((IZR (clientWidth (dom s))
                          - originalWidth s * imgScale v) / 2)%R)
    by reflexivity.
  assert (Hy : imgY v = ((IZR (clientHeight (dom s))
                          - originalHeight s * imgScale v) / 2)%R)
    by reflexivity.
  rewrite Hx, Hy, Es, Ew, Eh, Ecw, Ech. split; lra.
Qed.

(** The widget that shows the 200x100 image carries the fit of that image
    as its transform. *)
Lemma wideWidget_is_fit :
  view (@widgetShowing R _ wideImage)
  = view (adjustInitialPositionAndScale (@widgetShowing R _ wideImage)).
Proof.
  unfold widgetShowing.
  match goal with
  | |- view (uploadBase64 ?b ?d (Some ?i) ?s) = _ =>
      change (uploadBase64 b d (Some i) s)
        with (uploadBase64_onload b d i s)
  end.
  rewrite uploadBase64_onload_view. apply adjust_view_ext; reflexivity.
Qed.

(** The fit of the 2x1 image into the 400x400 container, which is the
    transform of [loadedWidget]: the drawing canvas covers
    [10 .. 390] x [105 .. 295] of the container. *)
Lemma loadedWidget_view :
  (imgScale (view loadedWidget) = 190 /\
   imgX (view loadedWidget) = 10 /\ imgY (view loadedWidget) = 105)%R.
Proof.
  assert (Hfit : view loadedWidget
                 = view (adjustInitialPositionAndScale loadedWidget)).
  { unfold loadedWidget.
    match goal with
    | |- view (uploadBase64 ?b ?d (Some ?i) ?s) = _ =>
        change (uploadBase64 b d (Some i) s)
          with (uploadBase64_onload b d i s)
    end.
    rewrite uploadBase64_onload_view. apply adjust_view_ext; reflexivity. }
  rewrite Hfit.
  set (v := view (adjustInitialPositionAndScale loadedWidget)).
  assert (Ew : originalWidth loadedWidget = 2%R) by reflexivity.
  assert (Eh : originalHeight loadedWidget = 1%R) by reflexivity.
  assert (Ecw : clientWidth (dom loadedWidget) = 400%Z) by reflexivity.
  assert (Ech : clientHeight (dom loadedWidget) = 400%Z) by reflexivity.
  assert (Es : imgScale v = 190%R).
  { unfold v, adjustInitialPositionAndScale. cbn [view set_view imgScale].
    rewrite Ew, Eh, Ecw, Ech. cbn [lit sub div Math_min RNumber].
    unfold Rmin. destruct (Rle_dec _ _); lra. }
  split; [exact Es|].
  assert (Hx : imgX v = ((IZR (clientWidth (dom loadedWidget))
                          - originalWidth loadedWidget * imgScale v) / 2)%R)
    by reflexivity.
  assert (Hy : imgY v = ((IZR (clientHeight (dom loadedWidget))
                          - originalHeight loadedWidget * imgScale v) / 2)%R)
    by reflexivity.
  rewrite Hx, Hy, Es, Ew, Eh, Ecw, Ech. split; lra.
Qed.

Lemma loadedWidget_canvasPoint (x y : R) :
  canvasPoint x y loadedWidget = ((x - 10) / 190, (y - 105) / 190)%R.
Proof.
  unfold canvasPoint. cbn [sub div RNumber].
  change (box_left (canvasStyle (dom loadedWidget)))
    with (imgX (view loadedWidget)).
  change (box_top (canvasStyle (dom loadedWidget)))
    with (imgY (view loadedWidget)).
  destruct loadedWidget_view as (-> & -> & ->). reflexivity.
Qed.

Lemma brush_stroke_takes_no_snapshot_witness :
  let browser := floodBrowser R in
  let s0 := loadedWidget in
  let down := {| clientX := 105%R; clientY := 200%R; button := 0 |} in
  let move := {| clientX := 295%R; clientY := 200%R; button := 0 |} in
  let s1 := run browser None [PointerDown down; PointerMove move; PointerUp]
              s0 in
  canvasPoint 105%R 200%R s0 = (1 / 2, 1 / 2)%R /\
  canvasPoint 295%R 200%R s0 = (3 / 2, 1 / 2)%R /\
  overlay s0 = blank 2 1 /\
  history s0 = [blank 2 1] /\ historyIndex s0 = 0%Z /\
  overlay s1 = flood (blank 2 1) /\ overlay s1 <> overlay s0 /\
  history s1 = [blank 2 1] /\ historyIndex s1 = 0%Z /\
  index (history s1) (historyIndex s1) <> Some (overlay s1).
Proof.
  intros browser s0 down move s1.
  assert (Ha : (0 < scribbleAlpha (brush s0) <= 100)%R)
    by (change (0 < 100 <= 100)%R; lra).
  assert (Hs : (scribbleSoftness (brush s0) <= 0)%R)
    by (change (0 <= 0)%R; lra).
  assert (Hwd : (0 < scribbleWidth (brush s0) / imgScale (view s0) * 20)%R).
  { change (0 < 4 / imgScale (view loadedWidget) * 20)%R.
    destruct loadedWidget_view as (-> & _). lra. }
  destruct (@brush_stroke_takes_no_snapshot browser s0 down move
              eq_refl eq_refl eq_refl eq_refl eq_refl eq_refl Ha Hs Hwd)
    as (Ho & Hh & Hx & _ & Hne & Hentry & _).
  fold s1 in Ho, Hh, Hx, Hne, Hentry.
  assert (Hflood : overlay s1 = flood (blank 2 1))
    by (rewrite Ho; reflexivity).
  split.
  { unfold s0. rewrite loadedWidget_canvasPoint. f_equal; field. }
  split.
  { unfold s0. rewrite loadedWidget_canvasPoint. f_equal; field. }
  split; [reflexivity|]. split; [reflexivity|]. split; [reflexivity|].
  split; [exact Hflood|].
  split; [rewrite Hflood; discriminate|].
  split; [rewrite Hh; reflexivity|]. split; [rewrite Hx; reflexivity|].
  apply (Hentry (blank 2 1)); [reflexivity|].
  change (flood (putImageData (blank 2 1) (flood (blank 2 1))) <> blank 2 1).
  discriminate.
Defined.

(** C2 (amended) -- For positive image dimensions the fit leaves a total
    of 20 pixels per axis, 10 on each side: the scale is
    [min((containerW - 20)/imageW, (containerH - 20)/imageH)], the image is
    centred, [offsetX = (containerW - imageW*scale)/2] and likewise for Y,
    the scaled image stays at least 10 pixels inside the container on
    every side, and the center button, a container resize and an image
    load all produce this transform.  A 200x100 image in a 400x400
    container gets scale 1.9 and offset (10, 105). *)
Theorem fit_leaves_ten_pixels (browser : Browser R) (s : ForgeCanvas R) :
  (0 < originalWidth s)%R -> (0 < originalHeight s)%R ->
  let cw := IZR (clientWidth (dom s)) in
  let ch := IZR (clientHeight (dom s)) in
  let v := view (adjustInitialPositionAndScale s) in
  (imgScale v = Rmin ((cw - 20) / originalWidth s)
                     ((ch - 20) / originalHeight s) /\
   imgX v = (cw - originalWidth s * imgScale v) / 2 /\
   imgY v = (ch - originalHeight s * imgScale v) / 2)%R /\
  (10 <= imgX v /\ imgX v + originalWidth s * imgScale v <= cw - 10 /\
   10 <= imgY v /\ imgY v + originalHeight s * imgScale v <= ch - 10)%R /\
  view (centerButton_click s) = v /\
  view (container_resized (clientWidth (dom s)) (clientHeight (dom s)) s)
  = v /\
  (forall base64Data image,
      IZR (naturalWidth image) = originalWidth s ->
      IZR (naturalHeight image) = originalHeight s ->
      view (uploadBase64_onload browser base64Data image s) = v) /\
  (originalWidth s = 200 -> originalHeight s = 100 ->
   clientWidth (dom s) = 400%Z -> clientHeight (dom s) = 400%Z ->
   imgScale v = 19 / 10 /\ imgX v = 10 /\ imgY v = 105)%R.
Proof.
  intros Hw Hh cw ch v.
  assert (Hv : (imgScale v = Rmin ((cw - 20) / originalWidth s)
                                  ((ch - 20) / originalHeight s) /\
                imgX v = (cw - originalWidth s * imgScale v) / 2 /\
                imgY v = (ch - originalHeight s * imgScale v) / 2)%R).
  { repeat split; reflexivity. }
  destruct Hv as (Hs & Hx & Hy).
  assert (Bw : (originalWidth s * imgScale v <= cw - 20)%R).
  { rewrite Hs. apply Rmin_scale_bound, Hw. }
  assert (Bh : (originalHeight s * imgScale v <= ch - 20)%R).
  { rewrite Hs, Rmin_comm. apply Rmin_scale_bound, Hh. }
  split; [auto|]. split; [rewrite Hx, Hy; repeat split; lra|].
  split; [unfold centerButton_click; apply drawImage_view|].
  split.
  { unfold container_resized. rewrite (proj1 (drawImage_view _)).
    reflexivity. }
  split.
  { intros base64Data image Ew Eh. rewrite uploadBase64_onload_view.
    unfold adjustInitialPositionAndScale. cbn [lit RNumber].
    state_simpl. rewrite Ew, Eh. reflexivity. }
  intros Ew Eh Ecw Ech. apply fit_200x100_in_400x400; assumption.
Qed.

Lemma fit_leaves_ten_pixels_witness :
  let v := view (adjustInitialPositionAndScale (@widgetShowing R _ wideImage)) in
  (imgScale v = 19 / 10 /\ imgX v = 10 /\ imgY v = 105)%R.
Proof.
  intros v.
  destruct (@fit_leaves_ten_pixels (floodBrowser R)
              (@widgetShowing R _ wideImage))
    as (_ & _ & _ & _ & _ & Hex).
  - change (0 < 200)%R. lra.
  - change (0 < 100)%R. lra.
  - apply Hex; reflexivity.
Defined.

(** C2 (counterexample) -- Loading a 200x100 image into a 400x400
    container, computed in binary64 and over the reals: the transform is
    scale 1.9 and offset (10, 105), not scale 1.8 and offset (20, 110). *)
Lemma fit_margin_is_not_twenty :
  let s := @widgetShowing PrimFloat.float _ wideImage in
  let r := @widgetShowing R _ wideImage in
  view s = {| imgX := lit 10; imgY := lit 105; imgScale := dec 19 10 |} /\
  ~ (imgScale (view s) = dec 18 10 /\ imgX (view s) = lit 20 /\
     imgY (view s) = lit 110) /\
  ~ (imgScale (view r) = 18 / 10 /\ imgX (view r) = 20 /\
     imgY (view r) = 110)%R.
Proof.
  intros s r. split; [vm_compute; reflexivity|]. split.
  - intros (_ & Hx & _).
    apply (f_equal (fun x => PrimFloat.eqb x (lit 20))) in Hx.
    vm_compute in Hx. discriminate.
  - intros (_ & Hx & _). unfold r in Hx. rewrite wideWidget_is_fit in Hx.
    destruct (@fit_200x100_in_400x400 (@widgetShowing R _ wideImage))
      as (_ & Hx' & _); try reflexivity.
    rewrite Hx' in Hx. lra.
Qed.

Lemma Rmin_neg_l (a b : R) : (a < 0)%R -> (Rmin a b < 0)%R.
Proof. intros Ha. pose proof (Rmin_l a b). lra. Qed.

(** C9 (counterexample) -- Degenerate fits computed in binary64.  A fresh
    widget has image size 0x0; when its 400x400 container reports a resize,
    the transform (0, 0, 1) becomes (NaN, NaN, Infinity).  A widget that
    shows a 200x100 image and whose container shrinks to 0x0 gets scale
    -0.2 and offset (20, 10).  In neither case is the previous transform
    retained. *)
Lemma degenerate_fit_is_not_skipped :
  let fresh := newForgeCanvas (floodBrowser PrimFloat.float)
                 (Some {| version := "4.40.0" |}) false false false
                 "#000000" (lit 4) (lit 100) (lit 0) 400 400 in
  let shown := @widgetShowing PrimFloat.float _ wideImage in
  view fresh = {| imgX := lit 0; imgY := lit 0; imgScale := lit 1 |} /\
  view (container_resized 400 400 fresh)
  = {| imgX := PrimFloat.nan; imgY := PrimFloat.nan;
       imgScale := PrimFloat.infinity |} /\
  view (container_resized 400 400 fresh) <> view fresh /\
  view (container_resized 0 0 shown)
  = {| imgX := lit 20; imgY := lit 10; imgScale := dec (-2) 10 |} /\
  view (container_resized 0 0 shown) <> view shown.
Proof.
  intros fresh shown.
  assert (Hf : view (container_resized 400 400 fresh)
               = {| imgX := PrimFloat.nan; imgY := PrimFloat.nan;
                    imgScale := PrimFloat.infinity |})
    by (vm_compute; reflexivity).
  assert (Hs : view (container_resized 0 0 shown)
               = {| imgX := lit 20; imgY := lit 10;
                    imgScale := dec (-2) 10 |})
    by (vm_compute; reflexivity).
  split; [reflexivity|]. split; [exact Hf|]. split.
  - rewrite Hf. intros E.
    apply (f_equal (fun v => PrimFloat.eqb (imgScale v) (lit 1))) in E.
    vm_compute in E. discriminate.
  - split; [exact Hs|]. rewrite Hs. intros E.
    apply (f_equal (fun v => PrimFloat.ltb (imgScale v) (lit 0))) in E.
    vm_compute in E. discriminate.
Qed.

(** C9 (amended) -- There is no guard: a degenerate fit is computed like
    any other and overwrites the transform, whatever the transform was
    before.  When the container has a zero dimension and the image a
    positive size, the scale is the usual minimum and is negative, with the
    image centred by the usual formula; when the image size is 0x0 the
    division yields Infinity and the offsets NaN (binary64, 400x400
    container). *)
Theorem degenerate_fit_overwrites_view (s : ForgeCanvas R) :
  (0 < originalWidth s)%R -> (0 < originalHeight s)%R ->
  (clientWidth (dom s) = 0 \/ clientHeight (dom s) = 0)%Z ->
  let cw := IZR (clientWidth (dom s)) in
  let ch := IZR (clientHeight (dom s)) in
  let v := view (adjustInitialPositionAndScale s) in
  (imgScale v = Rmin ((cw - 20) / originalWidth s)
                     ((ch - 20) / originalHeight s) /\
   imgScale v < 0 /\
   imgX v = (cw - originalWidth s * imgScale v) / 2 /\
   imgY v = (ch - originalHeight s * imgScale v) / 2)%R /\
  (forall v0 : Transform R,
      view (adjustInitialPositionAndScale (set_view v0 s)) = v) /\
  view (centerButton_click s) = v /\
  view (adjustInitialPositionAndScale
          (newForgeCanvas (floodBrowser PrimFloat.float)
             (Some {| version := "4.40.0" |}) false false false
             "#000000" (lit 4) (lit 100) (lit 0) 400 400))
  = {| imgX := PrimFloat.nan; imgY := PrimFloat.nan;
       imgScale := PrimFloat.infinity |}.
Proof.
  intros Hw Hh Hz cw ch v.
  assert (Hs : imgScale v = Rmin ((cw - 20) / originalWidth s)
                                 ((ch - 20) / originalHeight s))
    by reflexivity.
  split; [|split; [|split]].
  - split; [exact Hs|]. split; [|split; reflexivity].
    rewrite Hs. destruct Hz as [Hz|Hz].
    + apply Rmin_neg_l. unfold cw. rewrite Hz.
      apply Rmult_neg_pos; [lra | apply Rinv_0_lt_compat, Hw].
    + rewrite Rmin_comm. apply Rmin_neg_l. unfold ch. rewrite Hz.
      apply Rmult_neg_pos; [lra | apply Rinv_0_lt_compat, Hh].
  - intros v0. reflexivity.
  - unfold centerButton_click. apply drawImage_view.
  - vm_compute. reflexivity.
Qed.

Lemma degenerate_fit_overwrites_view_witness :
  let s := container_resized 0 0 (@widgetShowing R _ wideImage) in
  (imgScale (view (adjustInitialPositionAndScale s)) < 0)%R.
Proof.
  intros s.
  destruct (@degenerate_fit_overwrites_view s) as ((_ & H & _) & _).
  - change (0 < 200)%R. lra.
  - change (0 < 100)%R. lra.
  - left. reflexivity.
  - exact H.
Defined.

(** C5 -- Zoom keeps the point under the cursor.  With an image loaded,
    no control key, a positive scale and the drawing canvas placed where
    [drawImage] puts it: after the wheel listener the scale is
    [max(0.1, scale - deltaY/1000)], hence at least 0.1; each offset is
    [cursor - (cursor - offset) * (scale'/scale)]; and the canvas point
    under the cursor is the one from before the zoom. *)
Theorem zoom_keeps_cursor_point (event : WheelEvent R) (s : ForgeCanvas R) :
  wheel_ctrlKey event = false ->
  truthy (img s) = true ->
  (0 < imgScale (view s))%R ->
  box_left (canvasStyle (dom s)) = imgX (view s) ->
  box_top (canvasStyle (dom s)) = imgY (view s) ->
  let s' := imageContainer_wheel event s in
  let px := wheel_clientX event in
  let py := wheel_clientY event in
  (imgScale (view s')
   = Rmax (1 / 10) (imgScale (view s) + deltaY event * (-1 / 1000)) /\
   1 / 10 <= imgScale (view s') /\
   imgX (view s')
   = px - (px - imgX (view s)) * (imgScale (view s') / imgScale (view s)) /\
   imgY (view s')
   = py - (py - imgY (view s)) * (imgScale (view s') / imgScale (view s)))%R
  /\
  canvasPoint px py s' = canvasPoint px py s.
Proof.
  intros Hc Hi Hpos Hl Ht s' px py.
  assert (Hs' : s' = drawImage
                  (set_view
                     {| imgX := px - (px - imgX (view s))
                                     * (Rmax (1 / 10)
                                          (imgScale (view s)
                                           + deltaY event * (-1 / 1000))
                                        / imgScale (view s));
                        imgY := py - (py - imgY (view s))
                                     * (Rmax (1 / 10)
                                          (imgScale (view s)
                                           + deltaY event * (-1 / 1000))
                                        / imgScale (view s));
                        imgScale := Rmax (1 / 10)
                                      (imgScale (view s)
                                       + deltaY event * (-1 / 1000)) |}%R s)).
  { unfold s', imageContainer_wheel. rewrite Hc, Hi. reflexivity. }
  set (k := Rmax (1 / 10) (imgScale (view s) + deltaY event * (-1 / 1000)))
    in Hs'.
  assert (Hk : (1 / 10 <= k)%R) by apply Rmax_l.
  assert (Hv : view s' = {| imgX := px - (px - imgX (view s))
                                         * (k / imgScale (view s));
                            imgY := py - (py - imgY (view s))
                                         * (k / imgScale (view s));
                            imgScale := k |}%R).
  { rewrite Hs'. apply drawImage_view. }
  assert (Hbox : box_left (canvasStyle (dom s')) = imgX (view s') /\
                 box_top (canvasStyle (dom s')) = imgY (view s')).
  { rewrite Hs'. unfold drawImage.
    cbn [img set_view]. unfold truthy in Hi.
    destruct (img s) as [src|]; [|discriminate]. rewrite Hi.
    split; reflexivity. }
  destruct Hbox as [Hbl Hbt].
  split.
  - rewrite Hv. cbn [imgX imgY imgScale]. repeat split; auto.
  - unfold canvasPoint. cbn [sub div RNumber].
    rewrite Hbl, Hbt, Hl, Ht, Hv. cbn [imgX imgY imgScale].
    f_equal; field; lra.
Qed.

Lemma zoom_keeps_cursor_point_witness :
  let s := @widgetShowing R _ wideImage in
  let event := {| wheel_ctrlKey := false; deltaY := (-100)%R;
                  wheel_clientX := 50%R; wheel_clientY := 60%R |} in
  canvasPoint 50%R 60%R (imageContainer_wheel event s)
  = canvasPoint 50%R 60%R s.
Proof.
  intros s event.
  assert (Hpos : (0 < imgScale (view s))%R).
  { unfold s. rewrite wideWidget_is_fit.
    destruct (@fit_200x100_in_400x400 (@widgetShowing R _ wideImage))
      as (-> & _); [reflexivity .. | lra]. }
  exact (proj2 (@zoom_keeps_cursor_point event s eq_refl eq_refl Hpos
                  eq_refl eq_refl)).
Defined.

(** ** The soft brush *)

Lemma Math_floor_spec (x : R) :
  (IZR (Math_floor x) <= x < IZR (Math_floor x) + 1)%R.
Proof.
  unfold Math_floor. destruct (base_Int_part x) as [H1 H2]. lra.
Qed.

Lemma Math_ceil_spec (x : R) :
  (x <= IZR (Math_ceil x) < x + 1)%R.
Proof.
  unfold Math_ceil. rewrite opp_IZR.
  destruct (Math_floor_spec (- x)) as [H1 H2]. lra.
Qed.


Lemma counter_length (n : Z) : List.length (counter n) = Z.to_nat n.
Proof. unfold counter. rewrite length_map, length_seq. reflexivity. Qed.



















(** ** The eraser *)


(** The dabs of one call of [handleErase] as the browser sees them: the
    fills follow one another on the same surface, all under the context
    state that the first dab sets. *)
Lemma fold_dab (browser : Browser R) (D : R) (dabs : list (R * R))
    (cv : Canvas R) :
  let c := set_globalCompositeOperation destination_out
             (set_fillStyle (Color "rgba(0,0,0,1)") (context cv)) in
  bitmap (fold_left (dab browser D) dabs cv)
  = fold_left
      (fun surface centre =>
         fill_arc browser c (fst centre) (snd centre) (D / 2)%R surface)
      dabs (bitmap cv) /\
  (dabs <> [] -> context (fold_left (dab browser D) dabs cv) = c).
Proof.
  revert cv. induction dabs as [|centre rest IH]; intros cv c.
  - split; [reflexivity | intros Hn; contradiction].
  - cbn [fold_left].
    destruct (IH (dab browser D cv centre)) as [Fb Fc].
    split; [exact Fb|]. intros _.
    destruct rest as [|next rest']; [reflexivity|].
    rewrite Fc by discriminate. reflexivity.
Qed.

(** What one call of [handleErase] with a positive dab diameter leaves
    on the drawing canvas. *)
Lemma handleErase_canvas (browser : Browser R) (event : PointerEvent)
    (s : ForgeCanvas R) :
  let D := (scribbleWidth (brush s) / imgScale (view s) * 20)%R in
  let p := canvasPoint (clientX event) (clientY event) s in
  let last := match lastErasePoint (gesture s) with
              | Some q => q
              | None => p
              end in
  let c := set_globalCompositeOperation destination_out
             (set_fillStyle (Color "rgba(0,0,0,1)")
                (context (drawingCanvas (dom s)))) in
  (0 < D)%R ->
  overlay (handleErase browser event s)
  = fold_left
      (fun surface centre =>
         fill_arc browser c (fst centre) (snd centre) (D / 2)%R surface)
      (eraseDabs last (fst p) (snd p) D) (overlay s) /\
  context (drawingCanvas (dom (handleErase browser event s))) = c.
Proof.
  intros D p last c HD.
  set (dabs := eraseDabs last (fst p) (snd p) D).
  assert (Hne : dabs <> []).
  { unfold dabs, eraseDabs.
    destruct (Rlt_dec _ _) as [_|Hge]; [discriminate|].
    apply Rnot_lt_le in Hge.
    match goal with
    | |- map _ (counter ?k) <> [] => set (m := k) in *
    end.
    assert (Hm : (1 <= m)%Z).
    { match type of Hge with
      | (_ <= ?d)%R => set (dist := d) in *
      end.
      destruct (Math_ceil_spec (dist / (D / 4))) as [Hc1 _]. fold m in Hc1.
      assert (Hq : (1 <= dist / (D / 4))%R).
      { apply Rmult_le_reg_r with (r := (D / 4)%R); [lra|].
        replace (dist / (D / 4) * (D / 4))%R with dist by (field; lra).
        lra. }
      assert (H0 : (0 < IZR m)%R) by lra. apply lt_IZR in H0. lia. }
    intros Habs. apply (f_equal (@List.length (R * R))) in Habs.
    rewrite length_map, counter_length in Habs. cbn in Habs. lia. }
  assert (Hcv : drawingCanvas (dom (handleErase browser event s))
                = fold_left (dab browser D) dabs (drawingCanvas (dom s))).
  { unfold handleErase. fold p. destruct p as [x y] eqn:Ep. reflexivity. }
  destruct (fold_dab browser D dabs (drawingCanvas (dom s))) as [Fb Fc].
  unfold overlay. rewrite Hcv. split; [exact Fb | exact (Fc Hne)].
Qed.

Lemma pointerup_canvas (browser : Browser R) (s : ForgeCanvas R) :
  drawingCanvas (dom (drawingCanvas_pointerup browser s))
  = drawingCanvas (dom s).
Proof.
  unfold drawingCanvas_pointerup. cbv zeta.
  destruct (drawing (gesture s)); [|reflexivity].
  cbn [gesture set_gesture eraseChanged].
  destruct (eraseChanged (gesture s)); [|reflexivity].
  unfold saveState, onDrawingCanvasUpload. state_simpl.
  destruct (negb (truthy (img s))); reflexivity.
Qed.

(** A press and release with the eraser on a loaded image leaves the
    context of the drawing canvas at [destination-out]. *)
Lemma erase_press_leaves_destination_out (browser : Browser R)
    (down : PointerEvent) (s : ForgeCanvas R) :
  currentTool s = eraser_tool ->
  truthy (img s) = true -> button down = 0%Z ->
  noScribbles (options s) = false ->
  (0 < scribbleWidth (brush s) / imgScale (view s) * 20)%R ->
  globalCompositeOperation
    (context
       (drawingCanvas
          (dom (drawingCanvas_pointerup browser
                  (drawingCanvas_pointerdown browser down s)))))
  = destination_out.
Proof.
  intros Ht Hi Hb Hn HD. rewrite pointerup_canvas.
  assert (Hs1 : drawingCanvas_pointerdown browser down s
                = handleErase browser down
                    (set_gesture
                       {| drawing := true;
                          tempDrawPoints :=
                            [canvasPoint (clientX down) (clientY down) s];
                          tempDrawBackground := Some (overlay s);
                          lastErasePoint := lastErasePoint (gesture s);
                          eraseChanged := eraseChanged (gesture s) |} s)).
  { unfold drawingCanvas_pointerdown. rewrite Hi, Hb, Hn.
    cbn [negb orb Z.eqb]. state_simpl. rewrite Ht. reflexivity. }
  rewrite Hs1.
  match goal with
  | |- context [handleErase browser down ?a] =>
      destruct (@handleErase_canvas browser down a) as [_ Hc];
        [exact HD|]
  end.
  rewrite Hc. reflexivity.
Qed.




(** ** Publishing, clearing and replacing the overlay *)

Section Publishing.
Context {num : Type} `{JSNumber num}.
Variable browser : Browser num.
Implicit Type s : ForgeCanvas num.

Lemma onDrawingCanvasUpload_eq s :
  onDrawingCanvasUpload browser s
  = set_foregroundGradioBind
      (setValue (publish (encodedOverlay browser s) [])
         (foregroundGradioBind s)) s.
Proof.
  unfold onDrawingCanvasUpload, encodedOverlay.
  destruct (truthy (img s)); reflexivity.
Qed.

Lemma onImageUpload_eq s :
  onImageUpload browser s
  = set_backgroundGradioBind
      (setValue (publish (encodedImage browser s) [])
         (backgroundGradioBind s)) s.
Proof.
  unfold onImageUpload, encodedImage.
  destruct (truthy (img s)); reflexivity.
Qed.

Lemma setValue_published (v : string) (b : GradioTextAreaBind) :
  syncLock b = false -> setValue (publish v []) b = published v b.
Proof. intros Hl. apply setValue_unlocked, Hl. Qed.

Lemma saveState_eq s :
  saveState browser s
  = set_foregroundGradioBind
      (setValue (publish (encodedOverlay browser s) [])
         (foregroundGradioBind s))
      (set_history
         (slice0 (history s) (historyIndex s + 1) ++ [overlay s])
         (historyIndex s + 1) s).
Proof. unfold saveState. rewrite onDrawingCanvasUpload_eq. reflexivity. Qed.

Lemma overlay_set_history (h : list ImageData) (i : Z) s :
  overlay (set_history h i s) = overlay s.
Proof. reflexivity. Qed.

Lemma clearRect_same_size (d : ImageData) : same_size (clearRect d) d.
Proof.
  unfold same_size, clearRect, shape. cbn [width height data].
  repeat split. rewrite map_map. apply map_ext_in. intros r _.
  apply length_map.
Qed.

Lemma same_size_sym (a b : ImageData) : same_size a b -> same_size b a.
Proof. unfold same_size. intuition congruence. Qed.

(** X1 -- Reset can be undone.  When the current history entry has the
    size of the overlay, [resetImage] clears the overlay and records the
    cleared surface as a new entry; [undo] then shows the entry that was
    current before the reset, at the index from before, and [redo] shows
    the cleared surface again. *)
Theorem reset_then_undo (s : ForgeCanvas num) (entry : ImageData) :
  history_ok s ->
  index (history s) (historyIndex s) = Some entry ->
  same_size (overlay s) entry ->
  let r := resetImage browser s in
  overlay r = clearRect (overlay s) /\
  history r
  = firstn (Z.to_nat (historyIndex s + 1)) (history s)
    ++ [clearRect (overlay s)] /\
  historyIndex r = (historyIndex s + 1)%Z /\
  overlay (undo browser r) = entry /\
  historyIndex (undo browser r) = historyIndex s /\
  overlay (redo browser (undo browser r)) = clearRect (overlay s).
Proof.
  intros [Hr _] He Hsz r.
  assert (Hi0 : (0 <= historyIndex s)%Z).
  { unfold index in He. destruct (Z.ltb_spec (historyIndex s) 0);
      [discriminate | assumption]. }
  assert (Hov : overlay r = clearRect (overlay s)).
  { unfold r, resetImage. cbv zeta. rewrite saveState_overlay.
    unfold drawImage. split_ifs; reflexivity. }
  assert (Hh : history r = slice0 (history s) (historyIndex s + 1)
                           ++ [clearRect (overlay s)]).
  { unfold r, resetImage. cbv zeta. rewrite saveState_history.
    rewrite (proj1 (drawImage_same_history _)).
    rewrite (proj2 (drawImage_same_history _)).
    f_equal. f_equal. unfold drawImage. split_ifs; reflexivity. }
  assert (Hix : historyIndex r = (historyIndex s + 1)%Z).
  { unfold r, resetImage. cbv zeta. rewrite saveState_index.
    rewrite (proj2 (drawImage_same_history _)). reflexivity. }
  assert (Hlen : Z.of_nat (List.length (slice0 (history s)
                                          (historyIndex s + 1)))
                 = (historyIndex s + 1)%Z)
    by (apply slice0_length; lia).
  assert (Hslice : slice0 (history s) (historyIndex s + 1)
                   = firstn (Z.to_nat (historyIndex s + 1)) (history s)).
  { unfold slice0. destruct (Z.ltb_spec (historyIndex s + 1) 0); [lia|].
    rewrite Z.min_l by lia. reflexivity. }
  (* undo *)
  assert (Hu_i : historyIndex (undo browser r) = historyIndex s).
  { rewrite undo_index, Hix.
    destruct (Z.ltb_spec 0 (historyIndex s + 1)); lia. }
  assert (Hu_e : index (history r) (historyIndex s) = Some entry).
  { rewrite Hh. unfold index in *.
    destruct (Z.ltb_spec (historyIndex s) 0); [lia|].
    rewrite nth_error_app1 by lia.
    unfold slice0. destruct (Z.ltb_spec (historyIndex s + 1) 0); [lia|].
    rewrite nth_error_firstn.
    destruct (Nat.ltb_spec (Z.to_nat (historyIndex s))
                (Z.to_nat (Z.min (historyIndex s + 1)
                             (Z.of_nat (List.length (history s))))));
      [exact He | lia]. }
  assert (Hu_o : overlay (undo browser r) = entry).
  { unfold undo. rewrite Hix.
    destruct (Z.ltb_spec 0 (historyIndex s + 1)); [|lia].
    rewrite restoreState_overlay with (d := entry).
    - rewrite overlay_set_history, Hov.
      apply putImageData_same_size.
      eapply same_size_trans; [apply clearRect_same_size | exact Hsz].
    - cbn [history historyIndex set_history].
      replace (historyIndex s + 1 - 1)%Z with (historyIndex s) by lia.
      exact Hu_e. }
  split; [exact Hov|]. split; [rewrite Hh, Hslice; reflexivity|].
  split; [exact Hix|]. split; [exact Hu_o|]. split; [exact Hu_i|].
  (* redo *)
  unfold redo. rewrite undo_history, Hu_i, Hh, length_app, Nat2Z.inj_add,
    Hlen. cbn [List.length].
  destruct (Z.ltb_spec (historyIndex s)
              (historyIndex s + 1 + Z.of_nat 1 - 1)); [|lia].
  rewrite restoreState_overlay with (d := clearRect (overlay s)).
  - rewrite overlay_set_history, Hu_o. apply putImageData_same_size.
    apply same_size_sym.
    eapply same_size_trans; [apply clearRect_same_size | exact Hsz].
  - cbn [history historyIndex set_history]. rewrite ?undo_history, ?Hh.
    remember (slice0 (history s) (historyIndex s + 1)) as kept.
    rewrite <- Hlen. apply index_last.
Qed.
End Publishing.

Lemma reset_then_undo_witness :
  overlay (undo (floodBrowser R) (resetImage (floodBrowser R) loadedWidget))
  = blank 2 1.
Proof.
  assert (Hok : history_ok loadedWidget)
    by (split; [cbn; lia | intros _; cbn; lia]).
  exact (proj1 (proj2 (proj2 (proj2
           (@reset_then_undo R _ (floodBrowser R) loadedWidget (blank 2 1)
              Hok eq_refl (same_size_refl _)))))).
Defined.

Section Clearing.
Context {num : Type} `{JSNumber num}.
Variable browser : Browser num.
Implicit Type s : ForgeCanvas num.

(** X2 -- Removing the image empties the widget.  With both channels
    unlocked, [removeImage] leaves no image, a transparent overlay of
    the old size, a new history entry holding that overlay, and has
    written the empty string -- not nothing -- to both bound fields; the
    transform is kept, and the upload hint is shown unless uploads are
    disabled. *)
Theorem removeImage_empties_widget (s : ForgeCanvas num) :
  syncLock (backgroundGradioBind s) = false ->
  syncLock (foregroundGradioBind s) = false ->
  let r := removeImage browser s in
  img r = None /\
  overlay r = clearRect (overlay s) /\
  history r
  = slice0 (history s) (historyIndex s + 1) ++ [clearRect (overlay s)] /\
  historyIndex r = (historyIndex s + 1)%Z /\
  foregroundGradioBind r = published "" (foregroundGradioBind s) /\
  backgroundGradioBind r = published "" (backgroundGradioBind s) /\
  view r = view s /\
  imageSrc (dom r) = "" /\
  uploadHintDisplay (dom r)
  = (if noUpload (options s) then uploadHintDisplay (dom s) else true).
Proof.
  intros Hb Hf r. unfold r, removeImage. cbv zeta.
  rewrite onImageUpload_eq, saveState_eq.
  unfold encodedOverlay, encodedImage.
  destruct (noUpload (options s)) eqn:Hn; state_simpl; rewrite Hn;
    cbn [negb]; state_simpl; cbn [truthy];
    rewrite !setValue_published by assumption;
    repeat split; reflexivity.
Qed.

(** X3 -- Replacing the overlay from outside.  With a decoded image
    [uploadBase64DrawingCanvas] clears the drawing canvas, draws the image
    with the context in the state in which the last stroke or dab left
    it, and records the result as a new history entry.  In a browser that
    composites as the canvas specification says the canvas keeps its
    size; with the context at [source-over] and full opacity an image of
    the size of the canvas is shown as it is; with the context at
    [destination-out], where the eraser leaves it, nothing is drawn: the
    overlay stays clear and the clear surface is what the history
    records.  With an empty payload the overlay is cleared and that is
    recorded.  Neither touches the image or the transform. *)
Theorem overlay_replacement (s : ForgeCanvas num) (base64Data : string)
    (image : Decoded) :
  composites_as_specified browser ->
  base64Data <> "" ->
  let c := context (drawingCanvas (dom s)) in
  let r := uploadBase64DrawingCanvas browser base64Data (Some image) s in
  let e := uploadBase64DrawingCanvas browser "" (Some image) s in
  (overlay r = context_drawImage browser c image (clearRect (overlay s)) /\
   context (drawingCanvas (dom r)) = c /\
   same_size (overlay r) (overlay s) /\
   (globalCompositeOperation c = source_over -> globalAlpha c = lit 1 ->
    same_size (overlay s) (surfaceOf image) -> overlay r = surfaceOf image) /\
   (globalCompositeOperation c = destination_out ->
    overlay r = clearRect (overlay s)) /\
   history r = slice0 (history s) (historyIndex s + 1) ++ [overlay r] /\
   historyIndex r = (historyIndex s + 1)%Z /\
   img r = img s /\ view r = view s) /\
  (overlay e = clearRect (overlay s) /\
   history e
   = slice0 (history s) (historyIndex s + 1) ++ [clearRect (overlay s)] /\
   historyIndex e = (historyIndex s + 1)%Z /\
   img e = img s /\ view e = view s).
Proof.
  intros Hspec Hd c r e.
  assert (Hr : r = saveState browser
                     (with_canvas (drawDecoded browser image) s)).
  { unfold r, uploadBase64DrawingCanvas.
    destruct (String.eqb_spec base64Data ""); [contradiction|].
    reflexivity. }
  assert (He : e = saveState browser (with_bitmap clearRect s))
    by reflexivity.
  assert (Ho : overlay r
               = context_drawImage browser c image (clearRect (overlay s))).
  { rewrite Hr, saveState_overlay. reflexivity. }
  destruct (Hspec c image (overlay s)) as (S1 & S2 & S3).
  split.
  - split; [exact Ho|].
    split; [rewrite Hr, saveState_eq; reflexivity|].
    split; [rewrite Ho; exact S1|].
    split; [intros Hop Ha Hsz; rewrite Ho; apply S2; assumption|].
    split; [intros Hop; rewrite Ho; apply S3; exact Hop|].
    rewrite Ho, Hr, saveState_eq. repeat split; reflexivity.
  - rewrite He, saveState_eq. repeat split; reflexivity.
Qed.

(** X4 -- The foreground field follows the overlay.  With the channel
    unlocked, after a snapshot, after an undo that moves the index and
    after a redo that moves it, the foreground field holds the PNG of the
    overlay now shown (the empty string when no image is shown), and that
    value is the last one written. *)
Theorem foreground_follows_overlay (s : ForgeCanvas num) :
  history_ok s ->
  syncLock (foregroundGradioBind s) = false ->
  let shows (x : ForgeCanvas num) :=
    target_value (foregroundGradioBind x) = encodedOverlay browser x /\
    written (foregroundGradioBind x)
    = written (foregroundGradioBind s) ++ [encodedOverlay browser x] in
  shows (saveState browser s) /\
  ((0 < historyIndex s)%Z -> shows (undo browser s)) /\
  ((historyIndex s < Z.of_nat (List.length (history s)) - 1)%Z ->
   shows (redo browser s)).
Proof.
  intros [Hr Hn] Hl shows.
  assert (Hrestore : forall x : ForgeCanvas num,
             foregroundGradioBind x = foregroundGradioBind s ->
             (0 <= historyIndex x < Z.of_nat (List.length (history x)))%Z ->
             shows (restoreState browser x)).
  { intros x Hx Hi. destruct (index_in_range (history x) Hi) as [d Hd].
    unfold restoreState. rewrite Hd, onDrawingCanvasUpload_eq.
    unfold shows. state_simpl. cbn [with_bitmap with_canvas].
    rewrite Hx, setValue_published by exact Hl.
    unfold encodedOverlay. state_simpl. split; reflexivity. }
  split; [|split].
  - rewrite saveState_eq. unfold shows. state_simpl.
    rewrite setValue_published by exact Hl.
    unfold encodedOverlay. state_simpl. split; reflexivity.
  - intros Hi. unfold undo.
    destruct (Z.ltb_spec 0 (historyIndex s)); [|lia].
    apply Hrestore; [reflexivity|]. cbn [history historyIndex set_history].
    lia.
  - intros Hi. unfold redo.
    destruct (Z.ltb_spec (historyIndex s)
                (Z.of_nat (List.length (history s)) - 1)); [|lia].
    apply Hrestore; [reflexivity|]. cbn [history historyIndex set_history].
    lia.
Qed.
End Clearing.

Lemma loadedWidget_history_ok : history_ok loadedWidget.
Proof. split; [cbn; lia | intros _; cbn; lia]. Qed.

Lemma removeImage_empties_widget_witness :
  img (removeImage (floodBrowser R) loadedWidget) = None.
Proof.
  exact (proj1 (removeImage_empties_widget (floodBrowser R)
                  loadedWidget eq_refl eq_refl)).
Defined.

Lemma floodBrowser_composites {num} `{JSNumber num} :
  composites_as_specified (floodBrowser num).
Proof.
  intros c image d. cbn [context_drawImage floodBrowser].
  split; [|split].
  - destruct (globalCompositeOperation c).
    + eapply same_size_trans;
        [apply putImageData_keeps_size | apply clearRect_same_size].
    + eapply same_size_trans; apply clearRect_same_size.
  - intros -> _ Hsz. apply putImageData_same_size.
    eapply same_size_trans; [apply clearRect_same_size | exact Hsz].
  - intros ->. unfold clearRect. cbn [width height data]. f_equal.
    rewrite map_map. apply map_ext. intros row. apply map_map.
Qed.

(** Eraser button, press and release on a loaded image. *)
Lemma erase_run_leaves_destination_out (browser : Browser R)
    (down : PointerEvent) (s : ForgeCanvas R) :
  mask (options s) = false -> currentTool s = brush_tool ->
  truthy (img s) = true -> button down = 0%Z ->
  noScribbles (options s) = false ->
  (0 < scribbleWidth (brush s) / imgScale (view s) * 20)%R ->
  globalCompositeOperation
    (context
       (drawingCanvas
          (dom (run browser None [EraserClick; PointerDown down; PointerUp]
                  s))))
  = destination_out.
Proof.
  intros Hm Ht Hi Hb Hn HD.
  assert (E : run browser None [EraserClick; PointerDown down; PointerUp] s
              = drawingCanvas_pointerup browser
                  (drawingCanvas_pointerdown browser down
                     (set_currentTool eraser_tool s))).
  { cbn [run fold_left step].
    rewrite (eraserButton_click_plain s Hm), Ht. reflexivity. }
  rewrite E.
  apply erase_press_leaves_destination_out; auto.
Qed.

(** The widget after the small image was loaded and the eraser was
    pressed and released on it once. *)
Lemma erased_widget_context :
  globalCompositeOperation
    (context
       (drawingCanvas
          (dom (run (floodBrowser R) None
                  [EraserClick;
                   PointerDown {| clientX := 105%R; clientY := 200%R;
                                  button := 0 |};
                   PointerUp] loadedWidget))))
  = destination_out.
Proof.
  assert (Hw : scribbleWidth (brush loadedWidget) = 4%R) by reflexivity.
  assert (HD : (0 < scribbleWidth (brush loadedWidget)
                     / imgScale (view loadedWidget) * 20)%R).
  { rewrite Hw. destruct loadedWidget_view as (-> & _). lra. }
  exact (@erase_run_leaves_destination_out (floodBrowser R)
           {| clientX := 105%R; clientY := 200%R; button := 0 |}
           loadedWidget eq_refl eq_refl eq_refl eq_refl eq_refl HD).
Qed.

Lemma clearRect_is_not_tinyImage (d : ImageData) :
  clearRect d <> surfaceOf tinyImage.
Proof.
  unfold clearRect, surfaceOf, tinyImage.
  intros Habs. apply (f_equal data) in Habs. cbn [data] in Habs.
  destruct (data d) as [|[|px row] rows]; cbn [map] in Habs;
    discriminate Habs.
Qed.

Lemma overlay_replacement_witness :
  let erased := run (floodBrowser R) None
                  [EraserClick;
                   PointerDown {| clientX := 105%R; clientY := 200%R;
                                  button := 0 |};
                   PointerUp] loadedWidget in
  overlay (uploadBase64DrawingCanvas (floodBrowser R)
             "data:image/png;base64,iVBORw0KGgo=" (Some tinyImage)
             loadedWidget)
  = surfaceOf tinyImage /\
  overlay (uploadBase64DrawingCanvas (floodBrowser R)
             "data:image/png;base64,iVBORw0KGgo=" (Some tinyImage) erased)
  = clearRect (overlay erased) /\
  overlay (uploadBase64DrawingCanvas (floodBrowser R)
             "data:image/png;base64,iVBORw0KGgo=" (Some tinyImage) erased)
  <> surfaceOf tinyImage.
Proof.
  intros erased.
  assert (Hd : "data:image/png;base64,iVBORw0KGgo=" <> "") by discriminate.
  assert (Hs : same_size (overlay loadedWidget) (surfaceOf tinyImage))
    by (repeat split).
  pose proof (proj1 (proj2 (proj2 (proj2 (proj2 (proj1
                (overlay_replacement erased tinyImage
                   floodBrowser_composites Hd))))))
                erased_widget_context) as Hclear.
  split.
  - exact (proj1 (proj2 (proj2 (proj2 (proj1
             (overlay_replacement loadedWidget tinyImage
                floodBrowser_composites Hd))))) eq_refl eq_refl Hs).
  - split; [exact Hclear|].
    rewrite Hclear. apply clearRect_is_not_tinyImage.
Defined.

Lemma foreground_follows_overlay_witness :
  target_value (foregroundGradioBind (saveState (floodBrowser R) loadedWidget))
  = encodedOverlay (floodBrowser R) (saveState (floodBrowser R) loadedWidget).
Proof.
  exact (proj1 (proj1
           (foreground_follows_overlay (floodBrowser R)
              loadedWidget_history_ok eq_refl))).
Defined.

Section Loading.
Context {num : Type} `{JSNumber num}.
Variable browser : Browser num.
Implicit Type s : ForgeCanvas num.

Lemma adjust_eq s :
  adjustInitialPositionAndScale s
  = set_view (view (adjustInitialPositionAndScale s)) s.
Proof. reflexivity. Qed.

Lemma drawImage_shown s (src : string) :
  img s = Some src -> String.eqb src "" = false ->
  drawImage s
  = set_dom
      (let box := {| box_left := imgX (view s); box_top := imgY (view s);
                     box_width := mul (originalWidth s) (imgScale (view s));
                     box_height := mul (originalHeight s)
                                     (imgScale (view s)) |} in
       Build_Dom (clientWidth (dom s)) (clientHeight (dom s))
         (drawingCanvas (dom s)) box src box true
         (uploadHintDisplay (dom s))) s.
Proof. intros Hi Hs. unfold drawImage. rewrite Hi, Hs. reflexivity. Qed.

Lemma drawImage_hidden s :
  img s = None ->
  drawImage s
  = set_dom
      (Build_Dom (clientWidth (dom s)) (clientHeight (dom s))
         (drawingCanvas (dom s)) (canvasStyle (dom s)) ""
         (imageStyle (dom s)) false (uploadHintDisplay (dom s))) s.
Proof. intros Hi. unfold drawImage. rewrite Hi. reflexivity. Qed.

(** X5 -- What a successful load establishes.  In a Gradio 4 page, with a
    non-empty payload that decodes and with both channels unlocked,
    [uploadBase64] adopts the payload as the image and its natural size as
    the original size; the drawing canvas has the natural size of the
    image -- it is blank when the size changed and keeps the scribbles it
    had when the size is the same; the overlay is recorded as a new
    history entry; the drawing canvas is placed at the offset and scaled
    size of the image; the upload hint is hidden; and both fields hold the
    freshly encoded image and overlay. *)
Theorem upload_establishes (s : ForgeCanvas num) (cfg : GradioConfig)
    (base64Data : string) (image : Decoded) :
  gradioConfig (options s) = Some cfg ->
  String.prefix "4" (version cfg) = true ->
  base64Data <> "" ->
  syncLock (backgroundGradioBind s) = false ->
  syncLock (foregroundGradioBind s) = false ->
  let r := uploadBase64 browser base64Data (Some image) s in
  let same := ((width (overlay s) =? naturalWidth image)
               && (height (overlay s) =? naturalHeight image))%Z in
  img r = Some base64Data /\
  originalWidth r = lit (naturalWidth image) /\
  originalHeight r = lit (naturalHeight image) /\
  overlay r
  = (if same then overlay s
     else blank (naturalWidth image) (naturalHeight image)) /\
  width (overlay r) = naturalWidth image /\
  height (overlay r) = naturalHeight image /\
  history r = slice0 (history s) (historyIndex s + 1) ++ [overlay r] /\
  historyIndex r = (historyIndex s + 1)%Z /\
  canvasStyle (dom r)
  = {| box_left := imgX (view r); box_top := imgY (view r);
       box_width := mul (originalWidth r) (imgScale (view r));
       box_height := mul (originalHeight r) (imgScale (view r)) |} /\
  uploadHintDisplay (dom r) = false /\
  target_value (backgroundGradioBind r) = encodedImage browser r /\
  target_value (foregroundGradioBind r) = encodedOverlay browser r.
Proof.
  intros Hc Hv Hd Hb Hf r same.
  assert (Hne : String.eqb base64Data "" = false)
    by (destruct (String.eqb_spec base64Data ""); [contradiction|reflexivity]).
  assert (Hr : r = uploadBase64_onload browser base64Data image s).
  { unfold r, uploadBase64. rewrite Hc, Hv, Hne. reflexivity. }
  assert (Hcond : (negb (width (overlay s) =? naturalWidth image)%Z
                   || negb (height (overlay s) =? naturalHeight image)%Z)
                  = negb same).
  { unfold same.
    destruct (width (overlay s) =? naturalWidth image)%Z,
             (height (overlay s) =? naturalHeight image)%Z; reflexivity. }
  assert (Hsize : same = true ->
                  width (overlay s) = naturalWidth image /\
                  height (overlay s) = naturalHeight image).
  { unfold same. intros E. apply andb_prop in E. destruct E as [E1 E2].
    apply Z.eqb_eq in E1, E2. auto. }
  rewrite Hr. unfold uploadBase64_onload. cbv zeta.
  change (overlay (set_original (lit (naturalWidth image))
                     (lit (naturalHeight image))
                     (set_img (Some base64Data) s)))
    with (overlay s).
  rewrite Hcond. clear Hcond Hr.
  remember (if negb same
            then resizeCanvas (naturalWidth image) (naturalHeight image)
                   (set_original (lit (naturalWidth image))
                      (lit (naturalHeight image))
                      (set_img (Some base64Data) s))
            else set_original (lit (naturalWidth image))
                   (lit (naturalHeight image))
                   (set_img (Some base64Data) s)) as s3 eqn:E3.
  assert (F1 : img s3 = Some base64Data)
    by (rewrite E3; destruct same; reflexivity).
  assert (F2 : originalWidth s3 = lit (naturalWidth image))
    by (rewrite E3; destruct same; reflexivity).
  assert (F3 : originalHeight s3 = lit (naturalHeight image))
    by (rewrite E3; destruct same; reflexivity).
  assert (F4 : overlay s3
               = if same then overlay s
                 else blank (naturalWidth image) (naturalHeight image))
    by (rewrite E3; destruct same; reflexivity).
  assert (F5 : history s3 = history s)
    by (rewrite E3; destruct same; reflexivity).
  assert (F6 : historyIndex s3 = historyIndex s)
    by (rewrite E3; destruct same; reflexivity).
  assert (F7 : backgroundGradioBind s3 = backgroundGradioBind s)
    by (rewrite E3; destruct same; reflexivity).
  assert (F8 : foregroundGradioBind s3 = foregroundGradioBind s)
    by (rewrite E3; destruct same; reflexivity).
  clear E3.
  assert (F9 : width (overlay s3) = naturalWidth image /\
               height (overlay s3) = naturalHeight image).
  { rewrite F4. destruct same; [apply Hsize; reflexivity|].
    split; reflexivity. }
  rewrite saveState_eq, onImageUpload_eq.
  rewrite (@drawImage_shown (adjustInitialPositionAndScale s3) base64Data)
    by (first [exact F1 | exact Hne]).
  rewrite adjust_eq.
  remember (view (adjustInitialPositionAndScale s3)) as v4 eqn:E4. clear E4.
  unfold encodedOverlay, encodedImage. cbv zeta. state_simpl.
  rewrite F1. cbn [truthy]. rewrite Hne. cbn [negb].
  rewrite F7, F8, !setValue_published by assumption.
  cbn [target_value published]. unfold overlay. state_simpl.
  change (bitmap (drawingCanvas (dom s3))) with (overlay s3).
  change (bitmap (drawingCanvas (dom s))) with (overlay s).
  rewrite F2, F3, F5, F6. destruct F9 as [F9 F10].
  rewrite F9, F10, F4.
  repeat split; reflexivity.
Qed.

(** X6 -- An empty payload unloads the image.  In a Gradio 4 page, with
    both channels unlocked, [uploadBase64('')] leaves no image, a blank
    1x1 drawing canvas with a fresh context, a new history entry holding
    that blank surface, a hidden image element and the empty string in
    both fields; the remembered original size is not reset. *)
Theorem empty_upload_unloads (s : ForgeCanvas num) (cfg : GradioConfig)
    (loaded : option Decoded) :
  gradioConfig (options s) = Some cfg ->
  String.prefix "4" (version cfg) = true ->
  syncLock (backgroundGradioBind s) = false ->
  syncLock (foregroundGradioBind s) = false ->
  let r := uploadBase64 browser "" loaded s in
  img r = None /\
  drawingCanvas (dom r) = Build_Canvas (blank 1 1) defaultContext /\
  history r = slice0 (history s) (historyIndex s + 1) ++ [blank 1 1] /\
  historyIndex r = (historyIndex s + 1)%Z /\
  imageDisplay (dom r) = false /\ imageSrc (dom r) = "" /\
  foregroundGradioBind r = published "" (foregroundGradioBind s) /\
  backgroundGradioBind r = published "" (backgroundGradioBind s) /\
  originalWidth r = originalWidth s /\ originalHeight r = originalHeight s.
Proof.
  intros Hc Hv Hb Hf r. unfold r, uploadBase64. rewrite Hc, Hv.
  cbn [negb String.eqb]. cbv zeta.
  rewrite saveState_eq, onImageUpload_eq.
  rewrite drawImage_hidden by reflexivity.
  rewrite adjust_eq.
  remember (view (adjustInitialPositionAndScale
                    (resizeCanvas 1 1 (set_img None s)))) as v4 eqn:E4.
  clear E4.
  unfold encodedOverlay, encodedImage, resizeCanvas. state_simpl.
  cbn [truthy].
  rewrite !setValue_published by assumption.
  repeat split; reflexivity.
Qed.
End Loading.

Lemma upload_establishes_witness :
  img loadedWidget = Some "data:image/png;base64,iVBORw0KGgo=".
Proof.
  assert (Hd : "data:image/png;base64,iVBORw0KGgo=" <> "") by discriminate.
  exact (proj1
           (upload_establishes (floodBrowser R)
              (newForgeCanvas (floodBrowser R)
                 (Some {| version := "4.40.0" |})
                 false false false "#000000" 4%R 100%R 0%R 400 400)
              tinyImage
              (cfg := {| version := "4.40.0" |})
              eq_refl eq_refl Hd eq_refl eq_refl)).
Defined.

Lemma empty_upload_unloads_witness :
  img (uploadBase64 (floodBrowser R) "" None loadedWidget) = None.
Proof.
  exact (proj1
           (empty_upload_unloads (floodBrowser R) loadedWidget None
              (cfg := {| version := "4.40.0" |})
              eq_refl eq_refl eq_refl eq_refl)).
Defined.

(** ** Wheel input and single-pass strokes *)

(** X7 -- The wheel with the control key held changes the brush width and
    nothing else, and leaves a number in it.  While the width is a number
    the new width is [max(1, width - deltaY/100)], never below 1.  Once
    the width slider has stored its string the operands of [+] are
    concatenated: the new width is [max(1, n)] for the number [n] that the
    text followed by the change reads as, not the sum; in binary64, when
    that text is no number the new width is NaN.  Without the control key
    and without an image the wheel changes nothing at all. *)
Theorem wheel_brush_width (event : WheelEvent R) (s : ForgeCanvas R)
    (event64 : WheelEvent PrimFloat.float)
    (s64 : ForgeCanvas PrimFloat.float) (text : SliderText R)
    (text64 : SliderText PrimFloat.float) :
  (wheel_ctrlKey event = true ->
   let r := imageContainer_wheel event s in
   r = set_scribbleWidthText None
         (set_brush
            {| scribbleColor := scribbleColor (brush s);
               scribbleWidth := scribbleWidth (brush r);
               scribbleAlpha := scribbleAlpha (brush s);
               scribbleSoftness := scribbleSoftness (brush s) |} s) /\
   (scribbleWidthText s = None ->
    scribbleWidth (brush r)
    = Rmax 1 (scribbleWidth (brush s) + deltaY event * (-1 / 100))%R /\
    (1 <= scribbleWidth (brush r))%R /\
    (0 <= deltaY event -> 1 <= scribbleWidth (brush s) ->
     scribbleWidth (brush r) <= scribbleWidth (brush s))%R) /\
   (scribbleWidthText s = Some text ->
    scribbleWidth (brush r)
    = Rmax 1 (slider_plus text (deltaY event * (-1 / 100)))%R) /\
   scribbleWidth (brush (imageContainer_wheel event
                           (scribbleWidth_input text s)))
   = Rmax 1 (slider_plus text (deltaY event * (-1 / 100)))%R) /\
  (wheel_ctrlKey event64 = true ->
   scribbleWidthText s64 = Some text64 ->
   PrimFloat.is_nan
     (slider_plus text64 (mul (deltaY event64) (dec (-1) 100))) = true ->
   PrimFloat.is_nan
     (scribbleWidth (brush (imageContainer_wheel event64 s64))) = true) /\
  (wheel_ctrlKey event = false -> truthy (img s) = false ->
   imageContainer_wheel event s = s).
Proof.
  split; [|split].
  - intros Hc r.
    assert (Hr : r = set_scribbleWidthText None
                       (set_brush
                          {| scribbleColor := scribbleColor (brush s);
                             scribbleWidth :=
                               Rmax 1
                                 match scribbleWidthText s with
                                 | None =>
                                     (scribbleWidth (brush s)
                                      + deltaY event * (-1 / 100))%R
                                 | Some t =>
                                     slider_plus t
                                       (deltaY event * (-1 / 100))%R
                                 end;
                             scribbleAlpha := scribbleAlpha (brush s);
                             scribbleSoftness :=
                               scribbleSoftness (brush s) |} s)).
    { unfold r, imageContainer_wheel. rewrite Hc. reflexivity. }
    split; [rewrite Hr at 1; rewrite Hr; reflexivity|].
    split; [|split].
    + intros Hn. rewrite Hr, Hn.
      cbn [brush set_brush set_scribbleWidthText scribbleWidth].
      split; [reflexivity|]. split; [apply Rmax_l|].
      intros Hd Hw. apply Rmax_lub; lra.
    + intros Ht. rewrite Hr, Ht. reflexivity.
    + unfold imageContainer_wheel. rewrite Hc. reflexivity.
  - intros Hc Ht Hnan. unfold imageContainer_wheel. rewrite Hc, Ht.
    cbn [brush set_brush set_scribbleWidthText scribbleWidth].
    cbn [Math_max FloatNumber]. unfold float_max. rewrite Hnan.
    rewrite orb_true_r. reflexivity.
  - intros Hc Hi. unfold imageContainer_wheel. rewrite Hc, Hi. reflexivity.
Qed.

Section SinglePass.
Variable browser : Browser R.
Implicit Type s : ForgeCanvas R.

(** The context with which [handleDraw] starts its strokes. *)
Lemma handleDraw_mask event s (background : ImageData) :
  tempDrawBackground (gesture s) = Some background ->
  mask (options s) = true ->
  overlay (handleDraw browser event s)
  = stroke browser
      (set_strokeStyle contrastPattern
         (set_lineWidth
            (scribbleWidth (brush s) / imgScale (view s) * 20)%R
            (set_round (context (drawingCanvas (dom s))))))
      (tempDrawPoints (gesture s)
       ++ [canvasPoint (clientX event) (clientY event) s])
      (putImageData background (overlay s)).
Proof.
  intros Hb Hm. unfold handleDraw.
  destruct (canvasPoint (clientX event) (clientY event) s) as [x y].
  rewrite Hb. state_simpl. rewrite Hm. reflexivity.
Qed.

Lemma handleDraw_transparent event s (background : ImageData) :
  tempDrawBackground (gesture s) = Some background ->
  mask (options s) = false ->
  (scribbleAlpha (brush s) <= 0)%R ->
  overlay (handleDraw browser event s)
  = stroke browser
      (set_globalAlpha 1%R
         (set_globalCompositeOperation destination_out
            (set_strokeStyle (Color (scribbleColor (brush s)))
               (set_lineWidth
                  (scribbleWidth (brush s) / imgScale (view s) * 20)%R
                  (set_round (context (drawingCanvas (dom s))))))))
      (tempDrawPoints (gesture s)
       ++ [canvasPoint (clientX event) (clientY event) s])
      (putImageData background (overlay s)).
Proof.
  intros Hb Hm Ha. unfold handleDraw.
  destruct (canvasPoint (clientX event) (clientY event) s) as [x y].
  rewrite Hb. state_simpl. rewrite Hm.
  destruct (Rle_dec (scribbleAlpha (brush s)) 0) as [_|Hn]; [|lra].
  reflexivity.
Qed.

(** X8 -- A brush with opacity zero erases.  Outside mask mode, when
    [scribbleAlpha <= 0], [handleDraw] makes exactly one stroke over the
    surface saved at pointer down, with compositing [destination-out] and
    full opacity, whatever the colour and the softness are: the result
    does not depend on [scribbleSoftness], and the width of the line is
    [scribbleWidth / imgScale * 20]. *)
Theorem zero_alpha_brush_erases event s (background : ImageData)
    (softness : R) :
  tempDrawBackground (gesture s) = Some background ->
  mask (options s) = false ->
  (scribbleAlpha (brush s) <= 0)%R ->
  let s' := set_brush
              {| scribbleColor := scribbleColor (brush s);
                 scribbleWidth := scribbleWidth (brush s);
                 scribbleAlpha := scribbleAlpha (brush s);
                 scribbleSoftness := softness |} s in
  (exists c : Context2D R,
      overlay (handleDraw browser event s)
      = stroke browser c
          (tempDrawPoints (gesture s)
           ++ [canvasPoint (clientX event) (clientY event) s])
          (putImageData background (overlay s)) /\
      globalCompositeOperation c = destination_out /\
      globalAlpha c = 1%R /\
      lineWidth c = (scribbleWidth (brush s) / imgScale (view s) * 20)%R /\
      lineCap c = shape_round /\ lineJoin c = shape_round) /\
  overlay (handleDraw browser event s')
  = overlay (handleDraw browser event s).
Proof.
  intros Hb Hm Ha s'. split.
  - eexists. split; [apply handleDraw_transparent; assumption|].
    repeat split; reflexivity.
  - rewrite (@handleDraw_transparent event s' background),
            (@handleDraw_transparent event s background);
      try assumption; reflexivity.
Qed.

(** X9 -- In mask mode every brush stroke that starts with a pointer
    down paints the contrast pattern with [source-over], whatever the
    colour, opacity and softness are and whatever compositing mode an
    earlier erase left in the context. *)
Theorem mask_stroke_paints_pattern (event : PointerEvent) s :
  mask (options s) = true ->
  truthy (img s) = true -> button event = 0%Z ->
  noScribbles (options s) = false ->
  currentTool s = brush_tool ->
  exists c : Context2D R,
    overlay (drawingCanvas_pointerdown browser event s)
    = stroke browser c
        [canvasPoint (clientX event) (clientY event) s;
         canvasPoint (clientX event) (clientY event) s]
        (overlay s) /\
    context (drawingCanvas (dom (drawingCanvas_pointerdown browser event s)))
    = c /\
    strokeStyle c = contrastPattern /\
    globalCompositeOperation c = source_over /\
    globalAlpha c = globalAlpha (context (drawingCanvas (dom s))) /\
    lineWidth c = (scribbleWidth (brush s) / imgScale (view s) * 20)%R.
Proof.
  intros Hm Hi Hb Hn Ht.
  assert (Hd : drawingCanvas_pointerdown browser event s
               = handleDraw browser event
                   (with_context
                      (fun c => set_strokeStyle contrastPattern
                                  (set_globalCompositeOperation source_over
                                     c))
                      (set_gesture
                         {| drawing := true;
                            tempDrawPoints :=
                              [canvasPoint (clientX event) (clientY event) s];
                            tempDrawBackground := Some (overlay s);
                            lastErasePoint := lastErasePoint (gesture s);
                            eraseChanged := eraseChanged (gesture s) |}
                         s))).
  { unfold drawingCanvas_pointerdown. rewrite Hi, Hb, Hn.
    cbn [negb orb Z.eqb]. state_simpl. rewrite Ht, Hm. reflexivity. }
  rewrite Hd.
  eexists. split; [|split].
  - rewrite handleDraw_mask with (background := overlay s);
      [|reflexivity|exact Hm].
    unfold canvasPoint. state_simpl.
    rewrite putImageData_same_size by apply same_size_refl.
    reflexivity.
  - unfold handleDraw.
    destruct (canvasPoint (clientX event) (clientY event) _) as [x y].
    state_simpl. rewrite Hm. reflexivity.
  - repeat split; reflexivity.
Qed.

(** X10 -- A stroke is redrawn from the surface saved at pointer down.
    When that surface has the size of the drawing canvas, what
    [handleDraw] leaves on the overlay does not depend on what the overlay
    showed before the call, so the segments drawn so far are never
    composited twice. *)
Theorem handleDraw_starts_from_background event s
    (background other : ImageData) :
  tempDrawBackground (gesture s) = Some background ->
  same_size (overlay s) background ->
  same_size other background ->
  overlay (handleDraw browser event (with_bitmap (fun _ => other) s))
  = overlay (handleDraw browser event s).
Proof.
  intros Hb Hs Ho. unfold handleDraw.
  change (canvasPoint (clientX event) (clientY event)
            (with_bitmap (fun _ => other) s))
    with (canvasPoint (clientX event) (clientY event) s).
  destruct (canvasPoint (clientX event) (clientY event) s) as [x y].
  state_simpl. rewrite Hb.
  assert (E1 : putImageData background other = background)
    by (apply putImageData_same_size; assumption).
  assert (E2 : putImageData background (bitmap (drawingCanvas (dom s)))
               = background)
    by (apply putImageData_same_size; assumption).
  split_ifs; unfold overlay, stroke_with; state_simpl;
    rewrite E1, E2; reflexivity.
Qed.
End SinglePass.

Lemma zero_alpha_brush_erases_witness :
  let s := set_gesture
             {| drawing := true; tempDrawPoints := [(0, 0)%R];
                tempDrawBackground := Some (blank 2 1);
                lastErasePoint := None; eraseChanged := false |}
             (set_brush
                {| scribbleColor := "#ff0000"; scribbleWidth := 4%R;
                   scribbleAlpha := 0%R; scribbleSoftness := 30%R |}
                loadedWidget) in
  let event := {| clientX := 30%R; clientY := 40%R; button := 0 |} in
  overlay (handleDraw (floodBrowser R) event
             (set_brush
                {| scribbleColor := scribbleColor (brush s);
                   scribbleWidth := scribbleWidth (brush s);
                   scribbleAlpha := scribbleAlpha (brush s);
                   scribbleSoftness := 77%R |} s))
  = overlay (handleDraw (floodBrowser R) event s).
Proof.
  intros s event.
  assert (Ha : (scribbleAlpha (brush s) <= 0)%R) by (simpl; lra).
  exact (proj2 (zero_alpha_brush_erases (floodBrowser R) event s 77%R
                  (background := blank 2 1) eq_refl eq_refl Ha)).
Defined.

Lemma mask_stroke_paints_pattern_witness :
  let event := {| clientX := 30%R; clientY := 40%R; button := 0 |} in
  exists c : Context2D R,
    context (drawingCanvas
               (dom (drawingCanvas_pointerdown (floodBrowser R) event
                       maskWidget)))
    = c /\
    strokeStyle c = contrastPattern /\
    globalCompositeOperation c = source_over.
Proof.
  intros event.
  destruct (mask_stroke_paints_pattern (floodBrowser R) event maskWidget
              eq_refl eq_refl eq_refl eq_refl eq_refl)
    as (c & _ & Hc & Hs & Ho & _).
  exists c. auto.
Defined.

Lemma handleDraw_starts_from_background_witness :
  let s := set_gesture
             {| drawing := true; tempDrawPoints := [(0, 0)%R];
                tempDrawBackground := Some (blank 2 1);
                lastErasePoint := None; eraseChanged := false |}
             loadedWidget in
  let event := {| clientX := 30%R; clientY := 40%R; button := 0 |} in
  overlay (handleDraw (floodBrowser R) event
             (with_bitmap (fun _ => flood (blank 2 1)) s))
  = overlay (handleDraw (floodBrowser R) event s).
Proof.
  intros s event.
  assert (H1 : same_size (overlay s) (blank 2 1)) by (repeat split).
  assert (H2 : same_size (flood (blank 2 1)) (blank 2 1)) by (repeat split).
  exact (handleDraw_starts_from_background (floodBrowser R) event s
           eq_refl H1 H2).
Defined.

(** ** A locked channel *)

Lemma frozen_refl (b : GradioTextAreaBind) : frozen b b.
Proof. intros Hl. auto. Qed.

Lemma frozen_trans (a b c : GradioTextAreaBind) :
  frozen a b -> frozen b c -> frozen a c.
Proof.
  unfold frozen. intros Hab Hbc Hl.
  destruct (Hab Hl) as [Hb Hw]. destruct (Hbc Hb) as [Hc Hw'].
  split; congruence.
Qed.

Lemma frozen_setValue (p : Publish) (b : GradioTextAreaBind) :
  frozen b (setValue p b).
Proof. intros Hl. rewrite setValue_locked by exact Hl. auto. Qed.

Lemma frozen_observer (cb : option Handler) (v : string)
    (b : GradioTextAreaBind) :
  frozen b (after (observerCallback cb (externalWrite v b))).
Proof.
  intros Hl. unfold observerCallback. cbn [externalWrite target_value
    previousValue syncLock written].
  destruct (String.eqb v (previousValue b)); cbn [after]; [auto|].
  rewrite Hl. cbn [after syncLock written]. auto.
Qed.

Lemma channels_frozen_refl {num} (s : ForgeCanvas num) : channels_frozen s s.
Proof. split; apply frozen_refl. Qed.

Lemma channels_frozen_trans {num} (a b c : ForgeCanvas num) :
  channels_frozen a b -> channels_frozen b c -> channels_frozen a c.
Proof.
  intros [H1 H2] [H3 H4]. split; eapply frozen_trans; eassumption.
Qed.

(** States with the same two channels. *)
Lemma channels_frozen_same {num} (s s' : ForgeCanvas num) :
  backgroundGradioBind s' = backgroundGradioBind s ->
  foregroundGradioBind s' = foregroundGradioBind s ->
  channels_frozen s s'.
Proof. intros Hb Hf. split; [rewrite Hb | rewrite Hf]; apply frozen_refl. Qed.

Section FrozenGeneric.
Context {num : Type} `{JSNumber num}.
Variable browser : Browser num.
Implicit Type s : ForgeCanvas num.

Lemma frozen_onImageUpload s : channels_frozen s (onImageUpload browser s).
Proof.
  rewrite onImageUpload_eq. split; [apply frozen_setValue | apply frozen_refl].
Qed.

Lemma frozen_onDrawingCanvasUpload s :
  channels_frozen s (onDrawingCanvasUpload browser s).
Proof.
  rewrite onDrawingCanvasUpload_eq.
  split; [apply frozen_refl | apply frozen_setValue].
Qed.

Lemma frozen_saveState s : channels_frozen s (saveState browser s).
Proof.
  rewrite saveState_eq. split; [apply frozen_refl | apply frozen_setValue].
Qed.

Lemma frozen_restoreState s : channels_frozen s (restoreState browser s).
Proof.
  unfold restoreState.
  destruct (index (history s) (historyIndex s));
    [|apply channels_frozen_refl].
  eapply channels_frozen_trans; [|apply frozen_onDrawingCanvasUpload].
  apply channels_frozen_same; reflexivity.
Qed.

Lemma frozen_undo s : channels_frozen s (undo browser s).
Proof.
  unfold undo. destruct (0 <? historyIndex s)%Z;
    [|apply channels_frozen_refl].
  eapply channels_frozen_trans; [|apply frozen_restoreState].
  apply channels_frozen_same; reflexivity.
Qed.

Lemma frozen_redo s : channels_frozen s (redo browser s).
Proof.
  unfold redo.
  destruct (historyIndex s <? Z.of_nat (List.length (history s)) - 1)%Z;
    [|apply channels_frozen_refl].
  eapply channels_frozen_trans; [|apply frozen_restoreState].
  apply channels_frozen_same; reflexivity.
Qed.

Lemma frozen_adjust s : channels_frozen s (adjustInitialPositionAndScale s).
Proof. apply channels_frozen_same; reflexivity. Qed.

Lemma frozen_drawImage s : channels_frozen s (drawImage s).
Proof.
  apply channels_frozen_same; unfold drawImage; split_ifs; reflexivity.
Qed.

Lemma frozen_fit s :
  channels_frozen s
    (onImageUpload browser (drawImage (adjustInitialPositionAndScale s))).
Proof.
  eapply channels_frozen_trans; [apply frozen_adjust|].
  eapply channels_frozen_trans;
    [apply frozen_drawImage | apply frozen_onImageUpload].
Qed.

Lemma frozen_set_dom d s : channels_frozen s (set_dom d s).
Proof. apply channels_frozen_same; reflexivity. Qed.

Lemma frozen_set_img v s : channels_frozen s (set_img v s).
Proof. apply channels_frozen_same; reflexivity. Qed.

Lemma frozen_set_original w h s : channels_frozen s (set_original w h s).
Proof. apply channels_frozen_same; reflexivity. Qed.

Lemma frozen_resizeCanvas w h s : channels_frozen s (resizeCanvas w h s).
Proof. apply channels_frozen_same; reflexivity. Qed.

Lemma frozen_uploadBase64_onload base64Data image s :
  channels_frozen s (uploadBase64_onload browser base64Data image s).
Proof.
  unfold uploadBase64_onload. cbv zeta.
  eapply channels_frozen_trans; [|apply frozen_set_dom].
  eapply channels_frozen_trans; [|apply frozen_saveState].
  eapply channels_frozen_trans; [|apply frozen_fit].
  assert (H2 : channels_frozen s
                 (set_original (lit (naturalWidth image))
                    (lit (naturalHeight image))
                    (set_img (Some base64Data) s))).
  { eapply channels_frozen_trans;
      [apply frozen_set_img | apply frozen_set_original]. }
  match goal with
  | |- channels_frozen _ (if ?c then _ else _) => destruct c
  end; [|exact H2].
  eapply channels_frozen_trans; [exact H2 | apply frozen_resizeCanvas].
Qed.

Lemma frozen_uploadBase64 base64Data loaded s :
  channels_frozen s (uploadBase64 browser base64Data loaded s).
Proof.
  unfold uploadBase64.
  destruct (match gradioConfig (options s) with
            | Some cfg => negb (String.prefix "4" (version cfg))
            | None => false
            end); [apply channels_frozen_refl|].
  destruct (match gradioConfig (options s) with
            | Some _ => false
            | None => true
            end); [apply channels_frozen_refl|].
  destruct (negb (String.eqb base64Data "")).
  - destruct loaded as [image|];
      [apply frozen_uploadBase64_onload | apply channels_frozen_refl].
  - cbv zeta.
    eapply channels_frozen_trans; [|apply frozen_saveState].
    eapply channels_frozen_trans; [|apply frozen_fit].
    eapply channels_frozen_trans;
      [apply frozen_set_img | apply frozen_resizeCanvas].
Qed.

Lemma frozen_resetImage s : channels_frozen s (resetImage browser s).
Proof.
  unfold resetImage. cbv zeta.
  eapply channels_frozen_trans; [|apply frozen_saveState].
  eapply channels_frozen_trans; [|apply frozen_drawImage].
  apply channels_frozen_same; reflexivity.
Qed.

Lemma frozen_removeImage s : channels_frozen s (removeImage browser s).
Proof.
  unfold removeImage. cbv zeta.
  eapply channels_frozen_trans; [|apply frozen_onImageUpload].
  match goal with
  | |- channels_frozen _ (if ?c then ?a else ?b) =>
      assert (Hk : channels_frozen s b);
      [|destruct c; [|exact Hk];
        eapply channels_frozen_trans;
          [exact Hk | apply channels_frozen_same; reflexivity]]
  end.
  eapply channels_frozen_trans; [|apply frozen_saveState].
  apply channels_frozen_same; reflexivity.
Qed.

Lemma frozen_wheel event s : channels_frozen s (imageContainer_wheel event s).
Proof.
  unfold imageContainer_wheel.
  destruct (wheel_ctrlKey event);
    [apply channels_frozen_same; reflexivity|].
  destruct (negb (truthy (img s))); [apply channels_frozen_refl|].
  eapply channels_frozen_trans; [|apply frozen_drawImage].
  apply channels_frozen_same; reflexivity.
Qed.

Lemma frozen_field_changed cb v s :
  channels_frozen s (fst (background_field_changed cb v s)) /\
  channels_frozen s (fst (foreground_field_changed cb v s)).
Proof.
  unfold background_field_changed, foreground_field_changed.
  cbn [fst]. split; split;
    first [apply frozen_observer | apply frozen_refl].
Qed.
End FrozenGeneric.

Section FrozenMachine.
Variable browser : Browser R.
Variable cb : option Handler.
Implicit Type s : ForgeCanvas R.

Lemma untouched_frozen s s' : untouched s s' -> channels_frozen s s'.
Proof.
  intros (_ & Hf & Hb & _). apply channels_frozen_same; assumption.
Qed.

Lemma frozen_pointerup s :
  channels_frozen s (drawingCanvas_pointerup browser s) /\
  channels_frozen s (drawingCanvas_pointerleave browser s).
Proof.
  unfold drawingCanvas_pointerup, drawingCanvas_pointerleave. cbv zeta.
  destruct (drawing (gesture s));
    [|split; apply channels_frozen_refl].
  cbn [gesture set_gesture eraseChanged].
  destruct (eraseChanged (gesture s));
    [|split; apply channels_frozen_same; reflexivity].
  split;
    (eapply channels_frozen_trans;
       [|apply channels_frozen_same; reflexivity];
     eapply channels_frozen_trans; [|apply frozen_saveState];
     apply channels_frozen_same; reflexivity).
Qed.

Lemma frozen_pointerdown event s :
  channels_frozen s (drawingCanvas_pointerdown browser event s).
Proof.
  unfold drawingCanvas_pointerdown.
  destruct (negb (truthy (img s)) || negb (button event =? 0)%Z
            || noScribbles (options s)); [apply channels_frozen_refl|].
  cbv zeta. cbn [currentTool set_gesture].
  destruct (currentTool s).
  - eapply channels_frozen_trans;
      [|apply untouched_frozen, handleDraw_untouched].
    cbn [options set_gesture].
    destruct (mask (options s)); apply channels_frozen_same; reflexivity.
  - eapply channels_frozen_trans;
      [|apply untouched_frozen, handleErase_untouched].
    apply channels_frozen_same; reflexivity.
Qed.

Lemma frozen_pointermove event s :
  channels_frozen s (drawingCanvas_pointermove browser event s).
Proof.
  unfold drawingCanvas_pointermove.
  destruct (drawing (gesture s)); [|apply channels_frozen_refl].
  destruct (currentTool s); apply untouched_frozen;
    [apply handleDraw_untouched | apply handleErase_untouched].
Qed.

Lemma frozen_step e s : channels_frozen s (step browser cb e s).
Proof.
  destruct e; cbn [step].
  - apply frozen_pointerdown.
  - apply frozen_pointermove.
  - apply frozen_pointerup.
  - apply frozen_pointerup.
  - unfold eraserButton_click. cbv zeta.
    match goal with
    | |- channels_frozen _ (if ?c then _ else _) => destruct c
    end; apply channels_frozen_same; reflexivity.
  - apply frozen_wheel.
  - unfold container_resized.
    eapply channels_frozen_trans; [|apply frozen_drawImage].
    apply channels_frozen_same; reflexivity.
  - unfold centerButton_click.
    eapply channels_frozen_trans; [|apply frozen_drawImage].
    apply channels_frozen_same; reflexivity.
  - apply frozen_resetImage.
  - apply frozen_removeImage.
  - apply frozen_undo.
  - apply frozen_redo.
  - unfold handleFileUpload. destruct (negb (noUpload (options s)));
      [apply frozen_uploadBase64 | apply channels_frozen_refl].
  - apply frozen_field_changed.
  - apply frozen_field_changed.
Qed.

Lemma frozen_run events s : channels_frozen s (run browser cb events s).
Proof.
  revert s. induction events as [|e events IH]; intros s.
  - apply channels_frozen_refl.
  - cbn [run fold_left]. eapply channels_frozen_trans;
      [apply frozen_step | apply IH].
Qed.
End FrozenMachine.

(** X11 -- A locked channel is dead, and an assignment does not lock it.
    Whatever the observers' [callback] is bound to: once [syncLock] of a
    channel is held between two inputs -- as the observer's failed call
    leaves it -- no sequence of inputs releases it and the widget never
    assigns that field again.  An assignment of the field by the host
    page starts no observer: it leaves the lock as it is, and with the
    lock free the next publication of the widget is written to the field
    as before. *)
Theorem locked_channel_is_dead (browser : Browser R) (cb : option Handler)
    (events : list Event) (s : ForgeCanvas R) :
  (syncLock (backgroundGradioBind s) = true ->
   syncLock (backgroundGradioBind (run browser cb events s)) = true /\
   written (backgroundGradioBind (run browser cb events s))
   = written (backgroundGradioBind s)) /\
  (syncLock (foregroundGradioBind s) = true ->
   syncLock (foregroundGradioBind (run browser cb events s)) = true /\
   written (foregroundGradioBind (run browser cb events s))
   = written (foregroundGradioBind s)) /\
  (forall v : string,
      let a := background_field_assigned v s in
      syncLock (backgroundGradioBind a) = syncLock (backgroundGradioBind s) /\
      written (backgroundGradioBind a) = written (backgroundGradioBind s) /\
      (syncLock (backgroundGradioBind s) = false ->
       backgroundGradioBind (onImageUpload browser a)
       = published (encodedImage browser s) (backgroundGradioBind s))) /\
  (forall v : string,
      let a := foreground_field_assigned v s in
      syncLock (foregroundGradioBind a) = syncLock (foregroundGradioBind s) /\
      written (foregroundGradioBind a) = written (foregroundGradioBind s) /\
      (syncLock (foregroundGradioBind s) = false ->
       foregroundGradioBind (onDrawingCanvasUpload browser a)
       = published (encodedOverlay browser s) (foregroundGradioBind s))).
Proof.
  destruct (frozen_run browser cb events s) as [Hb Hf].
  split; [exact Hb|]. split; [exact Hf|]. split.
  - intros v a. split; [reflexivity|]. split; [reflexivity|].
    intros Hl. unfold a. rewrite onImageUpload_eq.
    unfold background_field_assigned. state_simpl.
    rewrite setValue_published by exact Hl. reflexivity.
  - intros v a. split; [reflexivity|]. split; [reflexivity|].
    intros Hl. unfold a. rewrite onDrawingCanvasUpload_eq.
    unfold foreground_field_assigned. state_simpl.
    rewrite setValue_published by exact Hl. reflexivity.
Qed.

(** ** Layout, buttons, dragging and pasting *)

(** X12 -- The saved layout is never lost.  Starting from a container
    that is not maximized, after any sequence of clicks on the maximize
    and minimize buttons: if the widget is not maximized the six style
    properties of the container are the ones it started with, and if it is
    maximized they are the full-screen values and the saved state is the
    starting style.  In particular a second maximize does not overwrite
    the saved state, and minimize undoes maximize. *)
Theorem layout_is_restored (clicks : list LayoutClick) (l0 : Layout) :
  maximized l0 = false ->
  let l := fold_left (fun acc c => layout_click c acc) clicks l0 in
  (maximized l = false -> container_style l = container_style l0) /\
  (maximized l = true ->
   container_style l = fullscreen /\
   originalState l = Some (container_style l0)) /\
  container_style (minimize (maximize l0)) = container_style l0 /\
  maximize (maximize l0) = maximize l0 /\
  minimize l0 = l0.
Proof.
  intros H0 l.
  assert (Inv : forall cs m,
             (maximized m = false -> container_style m = container_style l0) ->
             (maximized m = true ->
              container_style m = fullscreen /\
              originalState m = Some (container_style l0)) ->
             let m' := fold_left (fun acc c => layout_click c acc) cs m in
             (maximized m' = false ->
              container_style m' = container_style l0) /\
             (maximized m' = true ->
              container_style m' = fullscreen /\
              originalState m' = Some (container_style l0))).
  { induction cs as [|c cs IH]; intros m Hf Ht; cbn [fold_left].
    - split; assumption.
    - apply IH.
      + destruct c; cbn [layout_click]; unfold maximize, minimize.
        * destruct (maximized m) eqn:E; cbn [maximized container_style];
            [rewrite E; discriminate | discriminate].
        * destruct (maximized m) eqn:E; cbn [negb maximized container_style].
          -- intros _. destruct (Ht eq_refl) as [_ ->]. reflexivity.
          -- intros _. apply Hf. reflexivity.
      + destruct c; cbn [layout_click]; unfold maximize, minimize.
        * destruct (maximized m) eqn:E;
            cbn [maximized container_style originalState].
          -- intros _. apply Ht. reflexivity.
          -- intros _. rewrite (Hf eq_refl). auto.
        * destruct (maximized m) eqn:E; cbn [negb maximized];
            [discriminate | rewrite E; discriminate]. }
  destruct (Inv clicks l0) as [I1 I2]; [auto | rewrite H0; discriminate |].
  split; [exact I1|]. split; [exact I2|].
  unfold minimize, maximize. rewrite H0. cbn. auto.
Qed.

Lemma layout_is_restored_witness :
  let l0 := {| maximized := false; originalState := None;
               container_style :=
                 {| style_width := ""; style_height := "512px";
                    style_top := ""; style_left := "";
                    style_position := ""; style_zIndex := "" |};
               maxButton_display := "inline-block";
               minButton_display := "none" |} in
  container_style (minimize (maximize l0)) = container_style l0.
Proof.
  intros l0.
  exact (proj1 (proj2 (proj2
           (layout_is_restored [MaxClick; MaxClick; MinClick] l0 eq_refl)))).
Defined.

(** X13 -- A disabled button is a button that would do nothing.  The undo
    button is disabled by [updateUndoRedoButtons] exactly when [undo] would
    leave the index where it is, and the redo button exactly when [redo]
    would; for a well-formed history the redo button is disabled exactly
    at the last entry. *)
Theorem buttons_match_history {num} `{JSNumber num} (browser : Browser num)
    (s : ForgeCanvas num) :
  (fst (updateUndoRedoButtons s) = true <->
   historyIndex (undo browser s) = historyIndex s) /\
  (snd (updateUndoRedoButtons s) = true <->
   historyIndex (redo browser s) = historyIndex s) /\
  (history_ok s ->
   (snd (updateUndoRedoButtons s) = true <->
    historyIndex s = (Z.of_nat (List.length (history s)) - 1)%Z)).
Proof.
  unfold updateUndoRedoButtons. cbn [fst snd].
  rewrite undo_index, redo_index.
  split; [|split].
  - destruct (Z.leb_spec (historyIndex s) 0),
      (Z.ltb_spec 0 (historyIndex s)); split; intros; try lia;
      try reflexivity; try discriminate.
  - destruct (Z.leb_spec (Z.of_nat (List.length (history s)) - 1)
                (historyIndex s)),
      (Z.ltb_spec (historyIndex s)
         (Z.of_nat (List.length (history s)) - 1)); split; intros; try lia;
      try reflexivity; try discriminate.
  - intros [Hr _].
    destruct (Z.leb_spec (Z.of_nat (List.length (history s)) - 1)
                (historyIndex s)); split; intros; try lia;
      try reflexivity; try discriminate.
Qed.

(** ** Dragging the image *)

Lemma pan_only_refl {num} (s : ForgeCanvas num) : pan_only s s.
Proof. unfold pan_only, untouched, same_history. repeat split. Qed.

Lemma pan_only_trans {num} (s1 s2 s3 : ForgeCanvas num) :
  pan_only s1 s2 -> pan_only s2 s3 -> pan_only s1 s3.
Proof.
  unfold pan_only, untouched, same_history.
  intros H12 H23. decompose [and] H12. decompose [and] H23.
  repeat split; congruence.
Qed.

Lemma drawImage_set_view_pans {num} `{JSNumber num} (x y : num)
    (s : ForgeCanvas num) :
  pan_only s
    (drawImage (set_view {| imgX := x; imgY := y;
                            imgScale := imgScale (view s) |} s)).
Proof.
  unfold pan_only, untouched, same_history, drawImage.
  state_simpl.
  destruct (img s) as [src|] eqn:Ei;
    [destruct (negb (String.eqb src ""))|];
    state_simpl; rewrite ?Ei; repeat split.
Qed.

Lemma container_step_pans {num} `{JSNumber num} (i : ContainerInput num)
    (s : ForgeCanvas num) (p : Pointer num) :
  (dragging p = true -> offsetX p <> None /\ offsetY p <> None) ->
  pan_only s (fst (container_step i (s, p))) /\
  (dragging (snd (container_step i (s, p))) = true ->
   offsetX (snd (container_step i (s, p))) <> None /\
   offsetY (snd (container_step i (s, p))) <> None).
Proof.
  intros Hp. destruct i as [event|event| | | |]; cbn [container_step fst snd].
  - unfold imageContainer_pointerdown.
    destruct ((container_button event =? 2)%Z && _); cbn [fst snd].
    + split; [apply pan_only_refl|]. cbn. intros _. split; discriminate.
    + split; [apply pan_only_refl | exact Hp].
  - unfold imageContainer_pointermove.
    destruct (dragging p) eqn:Ed.
    2:{ split; [apply pan_only_refl|]. cbn [snd]. rewrite Ed. discriminate. }
    destruct (Hp eq_refl) as [A B].
    destruct (offsetX p) as [ox|] eqn:Ex; [|congruence].
    destruct (offsetY p) as [oy|] eqn:Ey; [|congruence].
    cbn [fst snd]. split; [apply drawImage_set_view_pans|].
    cbn. intros _. rewrite ?Ex, ?Ey. split; discriminate.
  - split; [apply pan_only_refl|].
    unfold imageContainer_pointerup, handleDragEnd.
    destruct (dragging p) eqn:Ed; cbn; [discriminate | rewrite Ed; discriminate].
  - split; [apply pan_only_refl|].
    unfold imageContainer_pointerleave, handleDragEnd.
    destruct (dragging p) eqn:Ed; cbn; [discriminate | rewrite Ed; discriminate].
  - split; [apply pan_only_refl|]. cbn. exact Hp.
  - split; [apply pan_only_refl|]. cbn. exact Hp.
Qed.

Lemma container_step_idle {num} `{JSNumber num} (i : ContainerInput num)
    (s : ForgeCanvas num) (p : Pointer num) :
  dragging p = false ->
  (forall event, i = ContainerDown event -> container_button event <> 2%Z) ->
  fst (container_step i (s, p)) = s /\
  dragging (snd (container_step i (s, p))) = false.
Proof.
  intros Hd Hb. destruct i as [event|event| | | |]; cbn [container_step fst snd].
  - unfold imageContainer_pointerdown.
    destruct (Z.eqb_spec (container_button event) 2) as [E|E].
    + destruct (Hb event eq_refl E).
    + cbn. auto.
  - unfold imageContainer_pointermove. rewrite Hd. cbn. auto.
  - unfold imageContainer_pointerup. rewrite Hd. auto.
  - unfold imageContainer_pointerleave. rewrite Hd. cbn. auto.
  - cbn. auto.
  - cbn. auto.
Qed.

(** X14 -- Dragging only pans.  From a widget whose pointer fields are as
    the constructor leaves them, after the image container's own pointer,
    enter, leave and context-menu listeners have run in any order and any
    number of times: the history, its
    index, the overlay, the gesture, both channels, the tool, the image,
    its natural size and the scale are what they were -- only the offsets
    and the placement can differ; whenever [dragging] is set both grab
    offsets have been assigned, so the move listener never subtracts
    [undefined]; and when no pointer press comes from the right button the
    widget is left as it was. *)
Theorem dragging_only_pans {num} `{JSNumber num}
    (inputs : list (ContainerInput num)) (s : ForgeCanvas num) :
  let sp := container_run inputs (s, newPointer) in
  pan_only s (fst sp) /\
  (dragging (snd sp) = true ->
   offsetX (snd sp) <> None /\ offsetY (snd sp) <> None) /\
  ((forall event, In (ContainerDown event) inputs ->
                  container_button event <> 2%Z) ->
   fst sp = s /\ dragging (snd sp) = false).
Proof.
  intros sp.
  assert (Inv : forall inputs0 s0 p0,
             (dragging p0 = true -> offsetX p0 <> None /\ offsetY p0 <> None) ->
             pan_only s0 (fst (container_run inputs0 (s0, p0))) /\
             (dragging (snd (container_run inputs0 (s0, p0))) = true ->
              offsetX (snd (container_run inputs0 (s0, p0))) <> None /\
              offsetY (snd (container_run inputs0 (s0, p0))) <> None)).
  { induction inputs0 as [|i rest IH]; intros s0 p0 Hp.
    - split; [apply pan_only_refl | exact Hp].
    - unfold container_run. cbn [fold_left].
      destruct (@container_step_pans _ _ i s0 p0 Hp) as [P1 P2].
      destruct (container_step i (s0, p0)) as [s1 p1] eqn:E1.
      cbn [fst snd] in P1, P2.
      destruct (IH s1 p1 P2) as [Q1 Q2].
      split; [exact (pan_only_trans P1 Q1) | exact Q2]. }
  assert (Idle : forall inputs0 s0 p0,
             dragging p0 = false ->
             (forall event, In (ContainerDown event) inputs0 ->
                            container_button event <> 2%Z) ->
             fst (container_run inputs0 (s0, p0)) = s0 /\
             dragging (snd (container_run inputs0 (s0, p0))) = false).
  { induction inputs0 as [|i rest IH]; intros s0 p0 Hd Hb.
    - cbn. auto.
    - unfold container_run. cbn [fold_left].
      destruct (@container_step_idle _ _ i s0 p0 Hd) as [P1 P2].
      { intros event ->. apply Hb. left. reflexivity. }
      destruct (container_step i (s0, p0)) as [s1 p1] eqn:E1.
      cbn [fst snd] in P1, P2. subst s1.
      apply IH; [exact P2|]. intros event Hin. apply Hb. right. exact Hin. }
  destruct (Inv inputs s newPointer) as [I1 I2]; [discriminate|].
  split; [exact I1|]. split; [exact I2|].
  intros Hb. apply Idle; [reflexivity | exact Hb].
Qed.

Lemma Rltb_true (x y : R) : Rltb x y = true <-> (x < y)%R.
Proof.
  unfold Rltb. destruct (Rlt_dec x y); split; intros; auto;
    try discriminate; try contradiction.
Qed.

Lemma isInsideImage_true (x y : R) (s : ForgeCanvas R) :
  isInsideImage x y s = true <->
  (imgX (view s) < x < imgX (view s) + originalWidth s * imgScale (view s) /\
   imgY (view s) < y < imgY (view s) + originalHeight s * imgScale (view s))%R.
Proof.
  unfold isInsideImage. cbn [ltb add mul RNumber].
  rewrite !andb_true_iff, !Rltb_true. tauto.
Qed.

(** X15 -- The image is grabbed where it is shown.  With a positive scale
    and the drawing canvas placed where [drawImage] puts it,
    [isInsideImage] accepts a point exactly when the canvas point under it
    lies strictly inside the image; with a scale of zero, or an image of
    width or height zero, it accepts no point, and so it does in a widget
    that has not loaded an image yet: no drag can start there. *)
Theorem isInsideImage_is_the_picture (x y : R) (s : ForgeCanvas R) :
  ((0 < imgScale (view s))%R ->
   box_left (canvasStyle (dom s)) = imgX (view s) ->
   box_top (canvasStyle (dom s)) = imgY (view s) ->
   (isInsideImage x y s = true <->
    (0 < fst (canvasPoint x y s) < originalWidth s /\
     0 < snd (canvasPoint x y s) < originalHeight s)%R)) /\
  (imgScale (view s) = 0%R \/ originalWidth s = 0%R
   \/ originalHeight s = 0%R ->
   isInsideImage x y s = false) /\
  (forall (browser : Browser R) cfg nu ns m col w a so cw ch,
      isInsideImage x y (newForgeCanvas browser cfg nu ns m col w a so cw ch)
      = false).
Proof.
  assert (Hzero : forall s0 : ForgeCanvas R,
             imgScale (view s0) = 0%R \/ originalWidth s0 = 0%R
             \/ originalHeight s0 = 0%R ->
             isInsideImage x y s0 = false).
  { intros s0 Hz. destruct (isInsideImage x y s0) eqn:E; [|reflexivity].
    apply isInsideImage_true in E. destruct E as [[X1 X2] [Y1 Y2]].
    destruct Hz as [Hz|[Hz|Hz]]; rewrite Hz in *; lra. }
  split; [|split].
  - intros Hpos Hl Ht. rewrite isInsideImage_true.
    unfold canvasPoint. cbn [fst snd sub div RNumber]. rewrite Hl, Ht.
    set (k := imgScale (view s)) in *.
    set (W := originalWidth s). set (Hh := originalHeight s).
    set (a := imgX (view s)). set (b := imgY (view s)).
    assert (Ex : (x - a = (x - a) / k * k)%R) by (field; lra).
    assert (Ey : (y - b = (y - b) / k * k)%R) by (field; lra).
    set (u := ((x - a) / k)%R) in *. set (v := ((y - b) / k)%R) in *.
    split.
    + intros [[X1 X2] [Y1 Y2]].
      assert (0 < u * k)%R by lra. assert (u * k < W * k)%R by lra.
      assert (0 < v * k)%R by lra. assert (v * k < Hh * k)%R by lra.
      repeat split; nra.
    + intros [[X1 X2] [Y1 Y2]].
      assert (0 < u * k)%R by nra. assert (u * k < W * k)%R by nra.
      assert (0 < v * k)%R by nra. assert (v * k < Hh * k)%R by nra.
      repeat split; lra.
  - apply Hzero.
  - intros browser cfg nu ns m col w a so cw ch. apply Hzero.
    right. left. reflexivity.
Qed.

Lemma isInsideImage_is_the_picture_witness :
  isInsideImage 50%R 150%R (@widgetShowing R _ wideImage) = true <->
  (0 < fst (canvasPoint 50%R 150%R (@widgetShowing R _ wideImage)) < 200 /\
   0 < snd (canvasPoint 50%R 150%R (@widgetShowing R _ wideImage)) < 100)%R.
Proof.
  assert (Hpos : (0 < imgScale (view (@widgetShowing R _ wideImage)))%R).
  { rewrite wideWidget_is_fit.
    destruct (@fit_200x100_in_400x400 (@widgetShowing R _ wideImage))
      as (-> & _); [reflexivity .. | lra]. }
  exact (proj1 (@isInsideImage_is_the_picture 50%R 150%R _)
           Hpos eq_refl eq_refl).
Defined.

(** X16 -- A drag keeps the grabbed point under the pointer.  When the
    right button goes down inside a shown image, the press itself changes
    nothing in the widget; after the next move the canvas point under the
    pointer is the canvas point that was under it at the press, whatever
    the scale; the widget is otherwise as [pan_only] says; the move is
    flagged in [draggedJustNow]; and once the button is released a further
    move changes nothing. *)
Theorem drag_keeps_grab_point (down move later : ContainerEvent R)
    (s : ForgeCanvas R) (p : Pointer R) :
  container_button down = 2%Z ->
  isInsideImage (container_clientX down) (container_clientY down) s = true ->
  truthy (img s) = true ->
  box_left (canvasStyle (dom s)) = imgX (view s) ->
  box_top (canvasStyle (dom s)) = imgY (view s) ->
  let sp1 := imageContainer_pointerdown down (s, p) in
  let sp2 := imageContainer_pointermove move sp1 in
  let released := (fst sp2, imageContainer_pointerup (snd sp2)) in
  fst sp1 = s /\ dragging (snd sp1) = true /\
  canvasPoint (container_clientX move) (container_clientY move) (fst sp2)
  = canvasPoint (container_clientX down) (container_clientY down) s /\
  pan_only s (fst sp2) /\
  draggedJustNow (snd sp2) = true /\
  imageContainer_pointermove later released = released.
Proof.
  intros Hb Hin Hi Hl Ht sp1 sp2 released.
  assert (E1 : sp1 = (s, {| dragging := true;
                            offsetX := Some (container_clientX down
                                             - imgX (view s))%R;
                            offsetY := Some (container_clientY down
                                             - imgY (view s))%R;
                            draggedJustNow := draggedJustNow p;
                            pointerInsideContainer :=
                              pointerInsideContainer p |})).
  { unfold sp1, imageContainer_pointerdown. rewrite Hb, Hin. reflexivity. }
  set (x' := (container_clientX move
              - (container_clientX down - imgX (view s)))%R).
  set (y' := (container_clientY move
              - (container_clientY down - imgY (view s)))%R).
  assert (E2 : fst sp2 = drawImage
                           (set_view {| imgX := x'; imgY := y';
                                        imgScale := imgScale (view s) |} s)).
  { unfold sp2. rewrite E1. reflexivity. }
  assert (E3 : snd sp2 = {| dragging := true;
                            offsetX := Some (container_clientX down
                                             - imgX (view s))%R;
                            offsetY := Some (container_clientY down
                                             - imgY (view s))%R;
                            draggedJustNow := true;
                            pointerInsideContainer :=
                              pointerInsideContainer p |}).
  { unfold sp2. rewrite E1. reflexivity. }
  assert (Hv : view (fst sp2) = {| imgX := x'; imgY := y';
                                   imgScale := imgScale (view s) |}).
  { rewrite E2. apply drawImage_view. }
  assert (Hbox : box_left (canvasStyle (dom (fst sp2))) = x' /\
                 box_top (canvasStyle (dom (fst sp2))) = y').
  { rewrite E2. unfold drawImage. cbn [img set_view]. unfold truthy in Hi.
    destruct (img s) as [src|]; [|discriminate]. rewrite Hi.
    split; reflexivity. }
  destruct Hbox as [Hbl Hbt].
  split; [rewrite E1; reflexivity|].
  split; [rewrite E1; reflexivity|].
  split.
  { unfold canvasPoint. cbn [sub div RNumber].
    rewrite Hbl, Hbt, Hl, Ht, Hv. cbn [imgX imgY imgScale].
    unfold x', y'. f_equal; f_equal; ring. }
  split; [rewrite E2; apply drawImage_set_view_pans|].
  split; [rewrite E3; reflexivity|].
  unfold released. rewrite E3. reflexivity.
Qed.

Lemma drag_keeps_grab_point_witness :
  let s := @widgetShowing R _ wideImage in
  let down := {| container_clientX := 50%R; container_clientY := 150%R;
                 container_button := 2 |} in
  let move := {| container_clientX := 80%R; container_clientY := 130%R;
                 container_button := 2 |} in
  canvasPoint 80%R 130%R
    (fst (imageContainer_pointermove move
            (imageContainer_pointerdown down (s, newPointer))))
  = canvasPoint 50%R 150%R s.
Proof.
  intros s down move.
  assert (Hin : isInsideImage 50%R 150%R s = true).
  { apply isInsideImage_true. unfold s. rewrite wideWidget_is_fit.
    destruct (@fit_200x100_in_400x400 (@widgetShowing R _ wideImage))
      as (-> & -> & ->); [reflexivity .. |].
    change (originalWidth (@widgetShowing R _ wideImage)) with 200%R.
    change (originalHeight (@widgetShowing R _ wideImage)) with 100%R.
    lra. }
  exact (proj1 (proj2 (proj2
           (@drag_keeps_grab_point down move move s newPointer
              eq_refl Hin eq_refl eq_refl eq_refl)))).
Defined.

(** ** Pasting and dropping *)

(** X17 -- One image per paste or drop.  [handlePaste] hands over the file
    of the first clipboard item whose type mentions [image], and nothing
    else: items before it and after it are ignored, an item without a file
    loads nothing, and so does a clipboard without an image.  The document
    listener pastes only while the pointer is inside the container, a drop
    takes the first file only, and with [noUpload] neither changes the
    widget. *)
Theorem paste_takes_first_image (browser : Browser R)
    (items : list ClipboardItem) (files : list (string * option Decoded))
    (s : ForgeCanvas R) (p : Pointer R) :
  handlePaste browser items s
  = match find (fun item => mentions_image (item_type item)) items with
    | Some item =>
        match getAsFile item with
        | Some (dataURL, decoded) =>
            handleFileUpload browser dataURL decoded s
        | None => s
        end
    | None => s
    end /\
  (pointerInsideContainer p = false ->
   document_paste browser items (s, p) = (s, p)) /\
  imageContainer_drop browser files s
  = imageContainer_drop browser (firstn 1 files) s /\
  (noUpload (options s) = true ->
   handlePaste browser items s = s /\ imageContainer_drop browser files s = s).
Proof.
  assert (Hfind : handlePaste browser items s
                  = match find (fun item => mentions_image (item_type item))
                            items with
                    | Some item =>
                        match getAsFile item with
                        | Some (dataURL, decoded) =>
                            handleFileUpload browser dataURL decoded s
                        | None => s
                        end
                    | None => s
                    end).
  { induction items as [|item rest IH]; cbn [handlePaste find].
    - reflexivity.
    - destruct (mentions_image (item_type item)); [reflexivity | exact IH]. }
  split; [exact Hfind|].
  split.
  { intros Hp. unfold document_paste. cbn [snd]. rewrite Hp. reflexivity. }
  split.
  { destruct files as [|[d dec] rest]; reflexivity. }
  intros Hn. split.
  - rewrite Hfind.
    destruct (find _ items) as [item|]; [|reflexivity].
    destruct (getAsFile item) as [[d dec]|]; [|reflexivity].
    unfold handleFileUpload. rewrite Hn. reflexivity.
  - destruct files as [|[d dec] rest]; [reflexivity|].
    cbn [imageContainer_drop]. unfold handleFileUpload. rewrite Hn.
    reflexivity.
Qed.

(** ** The progress bar *)

Lemma Qfloor_div60 (q : Q) :
  Qround.Qfloor (QArith_base.Qdiv q (Qlit 60)) = (Qround.Qfloor q / 60)%Z.
Proof.
  destruct q as [a b].
  unfold QArith_base.Qdiv, QArith_base.Qinv, Qlit, QArith_base.inject_Z,
    QArith_base.Qmult, Qround.Qfloor.
  cbn [QArith_base.Qnum QArith_base.Qden].
  rewrite Z.mul_1_r, Pos2Z.inj_mul, Z.div_div; [reflexivity | lia | lia].
Qed.

Lemma Qgtb_floor (q : Q) (n : Z) :
  (Qgtb q (Qlit n) = true -> n <= Qround.Qfloor q)%Z /\
  (Qgtb q (Qlit n) = false -> Qround.Qfloor q <= n)%Z.
Proof.
  destruct q as [a b].
  unfold Qgtb, QArith_base.Qle_bool, Qlit, QArith_base.inject_Z,
    Qround.Qfloor.
  cbn [QArith_base.Qnum QArith_base.Qden].
  destruct (Z.leb_spec (a * 1) (n * Z.pos b)) as [Hle|Hlt]; cbn [negb];
    split; intros E; try discriminate.
  - apply Z.div_le_upper_bound; lia.
  - apply Z.div_le_lower_bound; lia.
Qed.

Lemma pad2_length (x : Z) :
  (0 <= x < 100)%Z -> String.length (pad2 x) = 2%nat.
Proof.
  intros Hx.
  assert (All : forallb (fun n => Nat.eqb (String.length (pad2 (Z.of_nat n))) 2)
                  (seq 0 100) = true) by (vm_compute; reflexivity).
  rewrite forallb_forall in All.
  specialize (All (Z.to_nat x)).
  rewrite Z2Nat.id in All by lia.
  apply Nat.eqb_eq, All, in_seq. lia.
Qed.

Lemma append_length (a b : string) :
  String.length (a ++ b)%string = (String.length a + String.length b)%nat.
Proof. induction a as [|c a IH]; cbn; [reflexivity | rewrite IH; reflexivity]. Qed.

(** X18 -- What [formatTime] shows.  With [t] the whole seconds of
    [secs]: above an hour the three fields are [t / 3600],
    [t / 60 mod 60] and [t mod 60], which add up to [t] again, and below
    a hundred hours the text has eight characters; above a minute and up
    to an hour the fields are [t / 60], between 1 and 60, and
    [t mod 60], and the text has five characters; otherwise the text is
    [t] followed by [s].  The comparisons are strict: an hour sharp is
    shown as sixty minutes and a minute sharp as sixty seconds. *)
Theorem formatTime_shows_whole_seconds (secs : Q) :
  let t := Qround.Qfloor secs in
  (Qgtb secs (Qlit 3600) = true ->
   formatTime secs
   = (pad2 (t / 3600) ++ ":" ++ pad2 ((t / 60) mod 60) ++ ":"
      ++ pad2 (t mod 60))%string /\
   (1 <= t / 3600 /\
    t / 3600 * 3600 + (t / 60) mod 60 * 60 + t mod 60 = t)%Z /\
   ((t < 360000)%Z -> String.length (formatTime secs) = 8%nat)) /\
  (Qgtb secs (Qlit 3600) = false -> Qgtb secs (Qlit 60) = true ->
   formatTime secs = (pad2 (t / 60) ++ ":" ++ pad2 (t mod 60))%string /\
   (1 <= t / 60 <= 60 /\ t / 60 * 60 + t mod 60 = t)%Z /\
   String.length (formatTime secs) = 5%nat) /\
  (Qgtb secs (Qlit 60) = false ->
   formatTime secs = (Number_toString t ++ "s")%string /\ (t <= 60)%Z) /\
  formatTime (Qlit 3600) = "60:00" /\ formatTime (Qlit 60) = "60s".
Proof.
  intros t.
  assert (Hrem : forall a : Z, (0 <= a)%Z -> Z.rem a 60 = (a mod 60)%Z).
  { intros a Ha. apply Z.rem_mod_nonneg; lia. }
  split; [|split; [|split]].
  - intros Hgt.
    pose proof (proj1 (Qgtb_floor secs 3600) Hgt) as Ht. fold t in Ht.
    assert (E : formatTime secs
                = (pad2 (t / 3600) ++ ":" ++ pad2 ((t / 60) mod 60) ++ ":"
                   ++ pad2 (t mod 60))%string).
    { unfold formatTime. rewrite Hgt.
      rewrite !Qfloor_div60. fold t.
      rewrite Z.div_div by lia.
      rewrite !Hrem; [reflexivity | lia | apply Z.div_pos; lia]. }
    split; [exact E|]. split.
    + split.
      * apply Z.div_le_lower_bound; lia.
      * pose proof (Z.div_mod t 60 ltac:(lia)).
        pose proof (Z.div_mod (t / 60) 60 ltac:(lia)).
        replace (t / 3600)%Z with (t / 60 / 60)%Z
          by (rewrite Z.div_div by lia; reflexivity).
        lia.
    + intros Hlt. rewrite E, !append_length.
      pose proof (Z.mod_pos_bound t 60 ltac:(lia)).
      pose proof (Z.mod_pos_bound (t / 60) 60 ltac:(lia)).
      assert (0 <= t / 3600 < 100)%Z
        by (split; [apply Z.div_pos; lia | apply Z.div_lt_upper_bound; lia]).
      rewrite !pad2_length by lia. reflexivity.
  - intros Hle Hgt.
    pose proof (proj2 (Qgtb_floor secs 3600) Hle) as Hu.
    pose proof (proj1 (Qgtb_floor secs 60) Hgt) as Hl. fold t in Hu, Hl.
    assert (E : formatTime secs
                = (pad2 (t / 60) ++ ":" ++ pad2 (t mod 60))%string).
    { unfold formatTime. rewrite Hle, Hgt. rewrite Qfloor_div60. fold t.
      rewrite Hrem by lia. reflexivity. }
    assert (R : (1 <= t / 60 <= 60)%Z).
    { split; [apply Z.div_le_lower_bound; lia
             | apply Z.div_le_upper_bound; lia]. }
    split; [exact E|]. split.
    + split; [exact R|]. pose proof (Z.div_mod t 60 ltac:(lia)). lia.
    + rewrite E, !append_length.
      pose proof (Z.mod_pos_bound t 60 ltac:(lia)).
      rewrite !pad2_length by lia. reflexivity.
  - intros Hle.
    assert (Hle' : Qgtb secs (Qlit 3600) = false).
    { destruct (Qgtb secs (Qlit 3600)) eqn:E; [|reflexivity].
      pose proof (proj1 (Qgtb_floor secs 3600) E).
      pose proof (proj2 (Qgtb_floor secs 60) Hle). lia. }
    split.
    + unfold formatTime. rewrite Hle', Hle. reflexivity.
    + exact (proj2 (Qgtb_floor secs 60) Hle).
  - split; vm_compute; reflexivity.
Qed.

Section SessionFacts.
Variable gallery : bool.
Variable onProgress : bool.
Variable inactivityTimeout : Q.

Lemma requestProgress_ok : session_ok gallery requestProgress.
Proof.
  unfold session_ok, requestProgress. cbn.
  repeat split; try reflexivity; try congruence.
Qed.

Lemma removeProgressBar_ok (s : Progress) :
  session_ok gallery s ->
  session_ok gallery (removeProgressBar gallery s) /\
  divProgress (removeProgressBar gallery s) = false.
Proof.
  unfold session_ok, removeProgressBar.
  intros (A & B & C & D & E).
  destruct (divProgress s) eqn:Ed; cbn [negb].
  2:{ rewrite Ed. repeat split; auto. }
  rewrite B. cbn [negb].
  destruct gallery eqn:Eg.
  - destruct (livePreview s) as [children|] eqn:El.
    + rewrite (E eq_refl ltac:(discriminate)). cbn.
      repeat split; auto; try discriminate; try lia.
    + cbn. repeat split; auto; try discriminate; try lia.
  - cbn. repeat split; auto; try discriminate; try lia.
Qed.

Lemma nth_error_nonempty {A} (l : list A) (n : nat) (x : A) :
  nth_error l n = Some x -> l <> [].
Proof. destruct l, n; cbn; congruence. Qed.

Lemma ws_onmessage_ok (res : ProgressMessage) (s : Progress) :
  session_ok gallery s ->
  session_ok gallery (ws_onmessage gallery onProgress inactivityTimeout res s).
Proof.
  intros Hs. unfold ws_onmessage.
  match goal with
  | |- context [removeProgressBar gallery ?x] => set (s1 := x)
  end.
  assert (H1 : session_ok gallery s1).
  { unfold session_ok, s1. cbn. exact Hs. }
  destruct (negb (active res) && wasEverActive s1);
    [apply removeProgressBar_ok, H1|].
  destruct (Qgtb (elapsedFromStart res) inactivityTimeout
            && negb (queued res) && negb (active res));
    [apply removeProgressBar_ok, H1|].
  destruct Hs as (A & B & C & D & E).
  unfold session_ok, s1. cbn.
  repeat split; auto.
  destruct (live_preview res) as [src|] eqn:El; [|exact C].
  destruct gallery; [reflexivity|].
  rewrite andb_false_r. exact C.
Qed.

Lemma img_onload_ok (n : nat) (s : Progress) :
  session_ok gallery s -> session_ok gallery (img_onload gallery n s).
Proof.
  intros (A & B & C & D & E). unfold img_onload.
  destruct (nth_error (pending s) n) as [src|] eqn:En;
    [|repeat split; assumption].
  pose proof (C (nth_error_nonempty _ En)) as Hg.
  destruct (livePreview s) as [children|] eqn:El.
  - unfold session_ok. cbn. repeat split; auto.
    + intros Hf. congruence.
    + intros Hd _. apply E; [exact Hd | discriminate].
  - rewrite Hg. unfold session_ok. cbn. repeat split; auto.
    intros Hf. congruence.
Qed.

Lemma socket_step_ok (e : SocketEvent) (s : Progress) :
  session_ok gallery s ->
  session_ok gallery (socket_step gallery onProgress inactivityTimeout e s).
Proof.
  intros Hs. destruct e; cbn [socket_step].
  - exact Hs.
  - apply ws_onmessage_ok, Hs.
  - apply removeProgressBar_ok, Hs.
  - apply removeProgressBar_ok, Hs.
  - apply img_onload_ok, Hs.
Qed.

Lemma socket_run_ok (events : list SocketEvent) (s : Progress) :
  session_ok gallery s ->
  session_ok gallery (socket_run gallery onProgress inactivityTimeout events s).
Proof.
  revert s. induction events as [|e rest IH]; intros s Hs; [exact Hs|].
  unfold socket_run. cbn [fold_left]. apply IH, socket_step_ok, Hs.
Qed.

Lemma removeProgressBar_ended (s : Progress) :
  divProgress s = false -> removeProgressBar gallery s = s.
Proof. intros Hd. unfold removeProgressBar. rewrite Hd. reflexivity. Qed.

(** After the end, no handler calls [atEnd] or takes a preview out of the
    gallery. *)
Lemma socket_step_ended (e : SocketEvent) (s : Progress) :
  divProgress s = false ->
  let s' := socket_step gallery onProgress inactivityTimeout e s in
  divProgress s' = false /\ atEnd_calls s' = atEnd_calls s /\
  (preview_attached s = true -> preview_attached s' = true).
Proof.
  intros Hd. destruct e; cbn [socket_step]; cbn zeta.
  - auto.
  - unfold ws_onmessage.
    match goal with
    | |- context [removeProgressBar gallery ?x] => set (s1 := x)
    end.
    assert (H1 : removeProgressBar gallery s1 = s1)
      by (apply removeProgressBar_ended; exact Hd).
    rewrite H1.
    destruct (negb (active res) && wasEverActive s1); [cbn; auto|].
    destruct (Qgtb (elapsedFromStart res) inactivityTimeout
              && negb (queued res) && negb (active res)); cbn; auto.
  - rewrite removeProgressBar_ended by exact Hd. auto.
  - rewrite removeProgressBar_ended by exact Hd. auto.
  - unfold img_onload.
    destruct (nth_error (pending s) n); [|auto].
    destruct (livePreview s); [cbn; auto|].
    destruct gallery; cbn; auto.
Qed.

Lemma socket_run_ended (events : list SocketEvent) (s : Progress) :
  divProgress s = false ->
  let s' := socket_run gallery onProgress inactivityTimeout events s in
  divProgress s' = false /\ atEnd_calls s' = atEnd_calls s /\
  (preview_attached s = true -> preview_attached s' = true).
Proof.
  revert s. induction events as [|e rest IH]; intros s Hd; cbn zeta.
  - auto.
  - unfold socket_run. cbn [fold_left].
    destruct (socket_step_ended e s Hd) as (A & B & C).
    destruct (IH _ A) as (A' & B' & C').
    unfold socket_run in A', B', C'.
    repeat split; [exact A' | congruence | auto].
Qed.

Lemma socket_run_app (e1 e2 : list SocketEvent) (s : Progress) :
  socket_run gallery onProgress inactivityTimeout (e1 ++ e2) s
  = socket_run gallery onProgress inactivityTimeout e2
      (socket_run gallery onProgress inactivityTimeout e1 s).
Proof. unfold socket_run. apply fold_left_app. Qed.

(** X19 -- A task ends once.  After any sequence of socket events and
    image loads: [atEnd] has been called once if the bar has been removed
    and not at all otherwise, never twice, although a close request is
    followed by a close event and both remove the bar; the bar is in the
    page exactly as long as the task has not ended; a close or an error
    event anywhere in the sequence has ended the task; and so has a
    message that reports the task inactive once it has been active. *)
Theorem task_ends_once (events : list SocketEvent) :
  let s := socket_run gallery onProgress inactivityTimeout events
             requestProgress in
  atEnd_calls s = (if divProgress s then 0 else 1)%nat /\
  bar_attached s = divProgress s /\
  (In WsClose events \/ In WsError events -> divProgress s = false) /\
  (forall res : ProgressMessage,
      active res = false -> wasEverActive s = true ->
      divProgress (ws_onmessage gallery onProgress inactivityTimeout res s)
      = false).
Proof.
  intros s.
  assert (Hs : session_ok gallery s)
    by (apply socket_run_ok, requestProgress_ok).
  split; [apply Hs|]. split; [apply Hs|]. split.
  - intros Hin.
    assert (Hsplit : exists e before after,
               events = before ++ e :: after /\
               (e = WsClose \/ e = WsError)).
    { destruct Hin as [Hin|Hin]; apply in_split in Hin;
        destruct Hin as (before & after & ->); eauto 6. }
    destruct Hsplit as (e & before & after & -> & He).
    unfold s. rewrite socket_run_app.
    change (socket_run gallery onProgress inactivityTimeout (e :: after) ?x)
      with (socket_run gallery onProgress inactivityTimeout after
              (socket_step gallery onProgress inactivityTimeout e x)).
    apply socket_run_ended.
    assert (Hb : session_ok gallery
                   (socket_run gallery onProgress inactivityTimeout before
                      requestProgress))
      by (apply socket_run_ok, requestProgress_ok).
    destruct He as [-> | ->]; cbn [socket_step];
      apply removeProgressBar_ok, Hb.
  - intros res Ha Hw. unfold ws_onmessage. rewrite Ha. cbn [negb andb].
    match goal with
    | |- context [removeProgressBar gallery ?x] => set (s1 := x)
    end.
    assert (H1 : session_ok gallery s1).
    { unfold session_ok, s1. cbn. exact Hs. }
    change (wasEverActive s1) with (wasEverActive s). rewrite Hw.
    apply removeProgressBar_ok, H1.
Qed.

Lemma tl_skipn {A} (k : nat) (l : list A) :
  tl (skipn k l) = skipn (S k) l.
Proof.
  revert l. induction k as [|k IH]; intros [|y l]; cbn [skipn tl];
    try reflexivity.
  rewrite IH. reflexivity.
Qed.

Lemma lastn_snoc {A} (l : list A) (x : A) :
  lastn 2 (l ++ [x])
  = if (2 <? List.length (lastn 2 l ++ [x]))%nat
    then tl (lastn 2 l ++ [x]) else lastn 2 l ++ [x].
Proof.
  unfold lastn.
  destruct (le_lt_dec 2 (List.length l)) as [Hl|Hl].
  - set (k := (List.length l - 2)%nat).
    assert (Hk : List.length (skipn k l) = 2%nat)
      by (unfold k; rewrite length_skipn; lia).
    rewrite length_app. cbn [List.length].
    replace (List.length l + 1 - 2)%nat with (S k) by (unfold k; lia).
    rewrite skipn_app.
    replace (S k - List.length l)%nat with 0%nat by (unfold k; lia).
    rewrite <- tl_skipn. change (skipn 0 [x]) with [x].
    destruct (skipn k l) as [|u [|v [|w r]]]; try discriminate Hk.
    reflexivity.
  - destruct l as [|a [|b l']]; cbn in Hl; try lia; reflexivity.
Qed.

Lemma lastn_length {A} (n : nat) (l : list A) :
  (List.length (lastn n l) <= n)%nat.
Proof. unfold lastn. rewrite length_skipn. lia. Qed.

Lemma incl_remove_nth {A} (n : nat) (l : list A) :
  incl (remove_nth n l) l.
Proof.
  revert n. induction l as [|x l IH]; intros n; [destruct n; apply incl_refl|].
  destruct n as [|n]; cbn [remove_nth].
  - apply incl_tl, incl_refl.
  - apply incl_cons; [left; reflexivity | apply incl_tl, IH].
Qed.

Lemma sent_app (e1 e2 : list SocketEvent) : sent (e1 ++ e2) = sent e1 ++ sent e2.
Proof. unfold sent. apply flat_map_app. Qed.

Lemma preview_step (e : SocketEvent) (log : list SocketEvent) (s : Progress) :
  preview_ok gallery log s ->
  preview_ok gallery (log ++ [e])
    (socket_step gallery onProgress inactivityTimeout e s).
Proof.
  intros (A & B & C).
  assert (C' : incl (pending s ++ loaded s) (sent (log ++ [e]))).
  { rewrite sent_app. apply incl_appl, C. }
  assert (Hrm : preview_ok gallery (log ++ [e]) (removeProgressBar gallery s)).
  { unfold preview_ok, removeProgressBar.
    destruct (negb (divProgress s)); [repeat split; assumption|].
    destruct (negb (bar_attached s)); [repeat split; assumption|].
    destruct (if gallery then livePreview s else None);
      [destruct (preview_attached s)|]; cbn; repeat split; assumption. }
  destruct e; cbn [socket_step].
  - repeat split; assumption.
  - unfold ws_onmessage.
    match goal with
    | |- context [removeProgressBar gallery ?x] => set (s1 := x)
    end.
    assert (Hrm1 : preview_ok gallery (log ++ [WsMessage res])
                     (removeProgressBar gallery s1)).
    { unfold preview_ok, removeProgressBar.
      destruct (negb (divProgress s1)); [unfold s1; cbn; repeat split; assumption|].
      destruct (negb (bar_attached s1)); [unfold s1; cbn; repeat split; assumption|].
      destruct (if gallery then livePreview s1 else None);
        [destruct (preview_attached s1)|]; cbn; repeat split; assumption. }
    destruct (negb (active res) && wasEverActive s1); [exact Hrm1|].
    destruct (Qgtb (elapsedFromStart res) inactivityTimeout
              && negb (queued res) && negb (active res)); [exact Hrm1|].
    unfold preview_ok, s1.
    cbn [pending livePreview loaded].
    destruct (live_preview res) as [src|] eqn:El;
      [|repeat split; assumption].
    destruct (truthy (Some src) && gallery) eqn:Et;
      [|repeat split; assumption].
    apply andb_true_iff in Et. destruct Et as [_ Eg].
    split; [intros _; exact Eg|]. split; [exact B|].
    rewrite sent_app. cbn [sent flat_map]. rewrite El. cbn [app].
    intros y Hy. rewrite <- app_assoc in Hy.
    apply in_app_or in Hy. destruct Hy as [Hy|Hy].
    + apply in_or_app. left. apply C. apply in_or_app. left. exact Hy.
    + apply in_app_or in Hy. destruct Hy as [Hy|Hy].
      * apply in_or_app. right. exact Hy.
      * apply in_or_app. left. apply C. apply in_or_app. right. exact Hy.
  - exact Hrm.
  - exact Hrm.
  - unfold img_onload.
    destruct (nth_error (pending s) n) as [src|] eqn:En;
      [|repeat split; assumption].
    pose proof (A (nth_error_nonempty _ En)) as Hg.
    assert (Hin : In src (pending s))
      by (eapply nth_error_In; exact En).
    assert (Hincl : incl (remove_nth n (pending s) ++ loaded s ++ [src])
                      (sent (log ++ [ImgLoad n]))).
    { intros y Hy. apply C'.
      apply in_app_or in Hy. destruct Hy as [Hy|Hy].
      - apply in_or_app. left. eapply incl_remove_nth. exact Hy.
      - apply in_app_or in Hy. destruct Hy as [Hy|[<-|[]]].
        + apply in_or_app. right. exact Hy.
        + apply in_or_app. left. exact Hin. }
    assert (Hne : forall l : list string,
               match l ++ [src] with
               | [] => None
               | _ :: _ => Some (lastn 2 (l ++ [src]))
               end = Some (lastn 2 (l ++ [src]))).
    { intros l. destruct l; reflexivity. }
    destruct (livePreview s) as [children|] eqn:El.
    + unfold preview_ok. cbn. split; [intros _; exact Hg|].
      split; [|exact Hincl].
      rewrite Hne. f_equal. unfold appendChild.
      destruct (loaded s) as [|z rest] eqn:Eload; [discriminate B|].
      injection B as ->. apply eq_sym, lastn_snoc.
    + rewrite Hg. unfold preview_ok. cbn. split; [intros _; reflexivity|].
      split; [|exact Hincl].
      rewrite Hne. f_equal.
      destruct (loaded s) as [|z rest] eqn:Eload; [|discriminate B].
      reflexivity.
Qed.

Lemma preview_run (events log : list SocketEvent) (s : Progress) :
  preview_ok gallery log s ->
  preview_ok gallery (log ++ events)
    (socket_run gallery onProgress inactivityTimeout events s).
Proof.
  revert log s. induction events as [|e rest IH]; intros log s Hs.
  - rewrite app_nil_r. exact Hs.
  - unfold socket_run. cbn [fold_left].
    replace (log ++ e :: rest) with ((log ++ [e]) ++ rest)
      by (rewrite <- app_assoc; reflexivity).
    apply IH, preview_step, Hs.
Qed.

(** X20 -- The live preview holds the last two images.  After any
    sequence of socket events and image loads, the preview element does
    not exist if no image has loaded, and otherwise its children are the
    last two images that loaded, in the order in which they loaded; it
    never has more than two children; and every image that loaded was
    sent in one of the messages. *)
Theorem preview_keeps_last_two (events : list SocketEvent) :
  let s := socket_run gallery onProgress inactivityTimeout events
             requestProgress in
  livePreview s = match loaded s with
                  | [] => None
                  | _ :: _ => Some (lastn 2 (loaded s))
                  end /\
  (forall children, livePreview s = Some children ->
                    (List.length children <= 2)%nat) /\
  incl (loaded s) (sent events).
Proof.
  intros s.
  assert (H0 : preview_ok gallery [] requestProgress).
  { unfold preview_ok, requestProgress. cbn.
    repeat split; [congruence | apply incl_nil_l]. }
  destruct (preview_run events H0) as (A & B & C). cbn [app] in C.
  fold s in A, B, C.
  split; [exact B|]. split.
  - intros children Hc. rewrite B in Hc.
    destruct (loaded s); [discriminate|]. injection Hc as <-.
    apply lastn_length.
  - intros y Hy. apply C, in_or_app. right. exact Hy.
Qed.

(** X21 -- A late image is left behind.  Once the task has ended without
    a preview element, an image that finishes loading afterwards creates
    the element and puts it into the gallery, and nothing that follows
    takes it out or calls [atEnd] again: the gallery keeps a live preview
    of a task that is over. *)
Theorem late_preview_is_left_behind (s : Progress) (n : nat) (src : string)
    (events : list SocketEvent) :
  gallery = true ->
  divProgress s = false ->
  livePreview s = None ->
  nth_error (pending s) n = Some src ->
  let s' := socket_run gallery onProgress inactivityTimeout
              (ImgLoad n :: events) s in
  preview_attached s' = true /\
  divProgress s' = false /\
  atEnd_calls s' = atEnd_calls s.
Proof.
  intros Hg Hd Hl Hn s'.
  set (s1 := img_onload gallery n s).
  assert (E1 : preview_attached s1 = true /\ divProgress s1 = false /\
               atEnd_calls s1 = atEnd_calls s).
  { unfold s1, img_onload. rewrite Hn, Hl, Hg. cbn. auto. }
  destruct E1 as (P1 & P2 & P3).
  destruct (socket_run_ended events s1 P2) as (A & B & C).
  change s' with (socket_run gallery onProgress inactivityTimeout events s1).
  split; [exact (C P1)|]. split; [exact A | congruence].
Qed.
End SessionFacts.

Lemma late_preview_is_left_behind_witness :
  let res := {| active := true; queued := false;
                live_preview := Some "data:image/png;base64,AAAA";
                elapsedFromStart := Qlit 1 |} in
  let s := socket_run true true (Qlit 40) [WsMessage res; WsClose]
             requestProgress in
  preview_attached
    (socket_run true true (Qlit 40) [ImgLoad 0; WsClose] s) = true /\
  atEnd_calls (socket_run true true (Qlit 40) [ImgLoad 0; WsClose] s) = 1%nat.
Proof.
  intros res s.
  destruct (@late_preview_is_left_behind true true (Qlit 40) s 0
              "data:image/png;base64,AAAA" [WsClose]
              eq_refl eq_refl eq_refl eq_refl) as (A & _ & C).
  split; [exact A | exact C].
Defined.

(** ** Requests and galleries *)

(** X22 -- A request is answered once.  Before the request is done
    nothing is called.  Once it is done, the error handler is called at
    most once, and exactly when the status is not 200, the answer does not
    parse, or the handler throws; the handler is called exactly when the
    status is 200 and the answer parses, with the parsed answer, and
    before the error handler if it throws. *)
Theorem request_is_answered_once {J} (parse : string -> option J)
    (handler_returns : J -> bool) (readyState status : Z)
    (responseText : string) :
  let calls := onreadystatechange parse handler_returns readyState status
                 responseText in
  (readyState <> 4%Z -> calls = []) /\
  (List.length (filter is_error_call calls) <= 1)%nat /\
  (readyState = 4%Z ->
   (In CalledErrorHandler calls <->
    ~ (status = 200%Z /\
       exists js, parse responseText = Some js /\
                  handler_returns js = true)) /\
   (forall js, In (CalledHandler js) calls <->
               status = 200%Z /\ parse responseText = Some js) /\
   calls <> [] /\
   (forall js, parse responseText = Some js -> status = 200%Z ->
               hd_error calls = Some (CalledHandler js))).
Proof.
  intros calls. unfold calls, onreadystatechange.
  split; [|split].
  - intros Hr. destruct (Z.eqb_spec readyState 4); [contradiction|].
    reflexivity.
  - destruct (readyState =? 4)%Z; [|cbn; lia].
    destruct (status =? 200)%Z; [|cbn; lia].
    destruct (parse responseText) as [js|]; [|cbn; lia].
    destruct (handler_returns js); cbn; lia.
  - intros ->. cbn [Z.eqb Pos.eqb].
    destruct (Z.eqb_spec status 200) as [Es|Es].
    + destruct (parse responseText) as [js|] eqn:Ep.
      * destruct (handler_returns js) eqn:Eh.
        -- repeat split.
           ++ intros [Hc|[]]. discriminate Hc.
           ++ intros Hn. exfalso. apply Hn. split; [exact Es|].
              exists js. auto.
           ++ exact Es.
           ++ destruct H as [Hc|[]]. congruence.
           ++ intros [_ Hj]. left. congruence.
           ++ discriminate.
           ++ intros js' Hj _. cbn. congruence.
        -- repeat split.
           ++ intros _ (_ & js' & Hj & Hr). congruence.
           ++ intros _. right. left. reflexivity.
           ++ exact Es.
           ++ destruct H as [Hc|[Hc|[]]]; congruence.
           ++ intros [_ Hj]. left. congruence.
           ++ discriminate.
           ++ intros js' Hj _. cbn. congruence.
      * repeat split.
        -- intros _ (_ & js' & Hj & _). discriminate Hj.
        -- intros _. left. reflexivity.
        -- exact Es.
        -- destruct H as [Hc|[]]. discriminate Hc.
        -- intros [_ Hj]. discriminate Hj.
        -- discriminate.
        -- intros js' Hj. discriminate Hj.
    + repeat split.
      * intros _ (Hs & _). contradiction.
      * intros _. left. reflexivity.
      * destruct H as [Hc|[]]. discriminate Hc.
      * destruct H as [Hc|[]]. discriminate Hc.
      * intros [Hs _]. contradiction.
      * discriminate.
      * intros js' _ Hs. contradiction.
Qed.

Lemma filter_snoc {A} (f : A -> bool) (l : list A) (x : A) :
  filter f (l ++ [x]) = filter f l ++ (if f x then [x] else []).
Proof. rewrite filter_app. reflexivity. Qed.

Lemma first_found_snoc {A B} (f : B -> option A) (l : list B) (x : B) :
  first_found (map f (l ++ [x]))
  = match first_found (map f l) with
    | Some y => Some y
    | None => f x
    end.
Proof.
  induction l as [|p ps IH]; cbn.
  - destruct (f x); reflexivity.
  - destruct (f p); [reflexivity | exact IH].
Qed.

(** What a run of UI updates keeps: each variable holds the first node
    that was found, and the listeners and the observer were given to that
    node and to no other. *)
Lemma ui_updates_inv (pages : list Page) (seen : list Page) (g : Galleries) :
  txt2img_gallery g
  = first_found (map (fun page => gallery_of page "txt2img") seen) ->
  img2img_gallery g
  = first_found (map (fun page => gallery_of page "img2img") seen) ->
  modal g = first_found (map lightboxModal seen) ->
  listeners_of "txt2img" g = option_list (txt2img_gallery g) ->
  listeners_of "img2img" g = option_list (img2img_gallery g) ->
  observed g = option_list (modal g) ->
  let g' := ui_updates pages g in
  txt2img_gallery g'
  = first_found (map (fun page => gallery_of page "txt2img")
                   (seen ++ pages)) /\
  img2img_gallery g'
  = first_found (map (fun page => gallery_of page "img2img")
                   (seen ++ pages)) /\
  modal g' = first_found (map lightboxModal (seen ++ pages)) /\
  listeners_of "txt2img" g' = option_list (txt2img_gallery g') /\
  listeners_of "img2img" g' = option_list (img2img_gallery g') /\
  observed g' = option_list (modal g') /\
  currentPreviewImage g' = currentPreviewImage g.
Proof.
  revert seen g. induction pages as [|page rest IH];
    intros seen g T I M LT LI O; cbn zeta.
  - rewrite app_nil_r. cbn. auto 10.
  - unfold ui_updates. cbn [fold_left].
    replace (seen ++ page :: rest) with ((seen ++ [page]) ++ rest)
      by (rewrite <- app_assoc; reflexivity).
    pose proof (fun (A : Type) (f : Page -> option A) =>
                  first_found_snoc f seen page) as Hff.
    set (g1 := onAfterUiUpdate page g).
    assert (H1 : txt2img_gallery g1
                 = first_found (map (fun p => gallery_of p "txt2img")
                                  (seen ++ [page])) /\
                 img2img_gallery g1
                 = first_found (map (fun p => gallery_of p "img2img")
                                  (seen ++ [page])) /\
                 modal g1 = first_found (map lightboxModal (seen ++ [page])) /\
                 listeners_of "txt2img" g1 = option_list (txt2img_gallery g1) /\
                 listeners_of "img2img" g1 = option_list (img2img_gallery g1) /\
                 observed g1 = option_list (modal g1) /\
                 currentPreviewImage g1 = currentPreviewImage g).
    { rewrite !Hff, <- T, <- I, <- M.
      unfold g1, onAfterUiUpdate, attachGalleryListeners, listeners_of in *.
      destruct (txt2img_gallery g) as [t|] eqn:Et;
        destruct (img2img_gallery g) as [i|] eqn:Ei;
        destruct (modal g) as [m|] eqn:Em;
        try destruct (gallery_of page "txt2img") as [t'|] eqn:Gt;
        try destruct (gallery_of page "img2img") as [i'|] eqn:Gi;
        try destruct (lightboxModal page) as [m'|] eqn:Gm;
        cbn [txt2img_gallery img2img_gallery modal currentPreviewImage
             clickable observed option_list];
        rewrite ?filter_snoc; cbn [fst snd String.eqb Ascii.eqb Bool.eqb];
        rewrite ?filter_snoc; cbn [fst snd String.eqb Ascii.eqb Bool.eqb];
        rewrite ?app_nil_r, ?map_app, ?LT, ?LI, ?O; cbn [map snd app option_list];
        repeat split; reflexivity. }
    destruct H1 as (T1 & I1 & M1 & LT1 & LI1 & O1 & C1).
    destruct (IH (seen ++ [page]) g1 T1 I1 M1 LT1 LI1 O1)
      as (A & B & C & D & E & F & G).
    unfold ui_updates in A, B, C, D, E, F, G.
    repeat split; try assumption. congruence.
Qed.

(** X23 -- Listeners are attached once.  After any sequence of UI
    updates, each of the two gallery variables holds the first gallery
    that the page answered with for its tab, the modal variable the first
    modal; the click and keydown listeners of a tab have been given to
    that gallery once and to no other node, also when later updates
    answer with a different node; and the observer watches the modal
    alone. *)
Theorem listeners_are_attached_once (pages : list Page) :
  let g := ui_updates pages galleries_loaded in
  txt2img_gallery g
  = first_found (map (fun page => gallery_of page "txt2img") pages) /\
  img2img_gallery g
  = first_found (map (fun page => gallery_of page "img2img") pages) /\
  modal g = first_found (map lightboxModal pages) /\
  listeners_of "txt2img" g = option_list (txt2img_gallery g) /\
  listeners_of "img2img" g = option_list (img2img_gallery g) /\
  observed g = option_list (modal g).
Proof.
  intros g.
  destruct (@ui_updates_inv pages [] galleries_loaded
              eq_refl eq_refl eq_refl eq_refl eq_refl eq_refl)
    as (A & B & C & D & E & F & _).
  cbn [app] in A, B, C. fold g in A, B, C, D, E, F.
  repeat split; assumption.
Qed.

Lemma indexOf_range (x : Element) (a : list Element) :
  (-1 <= indexOf x a < Z.of_nat (List.length a))%Z.
Proof.
  induction a as [|y rest IH]; cbn [indexOf List.length]; [lia|].
  destruct (Nat.eqb y x); [lia|].
  destruct (Z.ltb_spec (indexOf x rest) 0); lia.
Qed.

Lemma indexOf_found (x : Element) (a : list Element) :
  (0 <= indexOf x a)%Z ->
  nth_error a (Z.to_nat (indexOf x a)) = Some x /\
  forall j, (j < Z.to_nat (indexOf x a))%nat -> nth_error a j <> Some x.
Proof.
  induction a as [|y rest IH]; cbn [indexOf]; [lia|].
  destruct (Nat.eqb_spec y x) as [->|Hne].
  - intros _. split; [reflexivity | intros j Hj; cbn in Hj; lia].
  - destruct (Z.ltb_spec (indexOf x rest) 0) as [Hneg|Hpos]; [lia|].
    intros _. destruct (IH Hpos) as [A B].
    replace (Z.to_nat (indexOf x rest + 1)) with (S (Z.to_nat (indexOf x rest)))
      by lia.
    split; [exact A|].
    intros [|j] Hj; cbn [nth_error]; [congruence | apply B; lia].
Qed.

Lemma indexOf_absent (x : Element) (a : list Element) :
  indexOf x a = (-1)%Z <-> ~ In x a.
Proof.
  induction a as [|y rest IH]; cbn [indexOf In]; [tauto|].
  destruct (Nat.eqb_spec y x) as [->|Hne].
  - split; [discriminate | intros Hn; exfalso; apply Hn; left; reflexivity].
  - pose proof (indexOf_range x rest).
    destruct (Z.ltb_spec (indexOf x rest) 0) as [Hneg|Hpos].
    + split; [intros _ [Hy|Hin]; [contradiction|] | reflexivity].
      apply IH; [lia | exact Hin].
    + split; [lia|]. intros Hn. exfalso.
      assert (Hx : indexOf x rest = (-1)%Z) by (apply IH; tauto). lia.
Qed.

Lemma onAfterUiUpdate_keeps_selection (page : Page) (g : Galleries) :
  currentPreviewImage (onAfterUiUpdate page g) = currentPreviewImage g.
Proof.
  unfold onAfterUiUpdate, attachGalleryListeners.
  destruct (txt2img_gallery g), (img2img_gallery g), (modal g),
    (gallery_of page "txt2img"), (gallery_of page "img2img");
    reflexivity.
Qed.

Lemma ui_updates_keep_selection (pages : list Page) (g : Galleries) :
  currentPreviewImage (ui_updates pages g) = currentPreviewImage g.
Proof.
  revert g. induction pages as [|page rest IH]; intros g; [reflexivity|].
  unfold ui_updates. cbn [fold_left].
  fold (ui_updates rest (onAfterUiUpdate page g)).
  rewrite IH. apply onAfterUiUpdate_keeps_selection.
Qed.

(** X24 -- The remembered button is found again.  The index that
    [getGallerySelectedIndex] returns is -1 or a position of the list;
    it is -1 exactly when nothing is remembered or the remembered button
    is not among the buttons; otherwise it is the first position that
    holds the remembered button.  UI updates in between do not change
    it. *)
Theorem selection_is_found_again (buttons : list Element)
    (selected : option Element) (pages : list Page) (g : Galleries) :
  let g' := ui_updates pages (rememberGallerySelection selected g) in
  let i := getGallerySelectedIndex buttons g' in
  (-1 <= i < Z.of_nat (List.length buttons))%Z /\
  (i = (-1)%Z <->
   match selected with
   | None => True
   | Some button => ~ In button buttons
   end) /\
  ((0 <= i)%Z ->
   nth_error buttons (Z.to_nat i) = selected /\
   forall j, (j < Z.to_nat i)%nat -> nth_error buttons j <> selected).
Proof.
  intros g' i.
  assert (Hc : currentPreviewImage g' = selected).
  { unfold g'. rewrite ui_updates_keep_selection. reflexivity. }
  unfold i, getGallerySelectedIndex. rewrite Hc.
  destruct selected as [button|].
  - split; [apply indexOf_range|]. split; [apply indexOf_absent|].
    apply indexOf_found.
  - split; [lia|]. split; [tauto|]. lia.
Qed.
